(** * MCP servers for FTP and Tavily search: a shallow embedding

    The two servers ([ftp/ftp_server.py], [tavily-internet/tavily_server.py])
    are a set of tool functions that talk to a remote collaborator (an FTP
    server through [ftplib], the Tavily backend through [TavilyClient]) and
    mutate one process-wide context object.  Each tool is embedded as a
    computation in a state-and-exception monad:

    - the state carries the lifespan context (for FTP: the [connections]
      dict and [current_connection]), the history of calls made to the
      outside world together with their outcomes, and the messages sent
      with [ctx.info] / [ctx.warning] / [ctx.error];
    - what the outside world answers is given by an oracle, a function of
      the history so far and of the request; a theorem that quantifies over
      the oracle holds whatever the remote side does;
    - a Python exception is the [Raise] outcome; [try ... except] is
      [try_except].

    What the model leaves out: sending a log message never raises;
    exceptions that are not subclasses of [Exception] (cancellation,
    interrupts) do not occur; [ftp.set_pasv] and [ftp.getwelcome] only
    touch the local object; a transfer hands over its data in one piece;
    the history holds the calls the tools make, not what the runtime does
    when it finalizes an object nothing refers to any more.

    A [str] is held as the bytes of its UTF-8 encoding, whose
    lexicographic order is the order of the code points; a slice [s[:n]]
    counts bytes, which are the characters of an ASCII text.  The
    operations that depend on the Unicode tables or on the platform
    ([str.lower], [str.strip] and [str.split] without argument, [int], the
    formatting of a float, the validation of a [float] field, an
    assignment to [os.environ]) are parameters of the model, gathered in
    [Py.library].  A float is kept as the text that denotes it. *)

From Stdlib Require Import String Ascii List ZArith Bool Lia.
From Stdlib Require Import Sorting.Sorted Sorting.Permutation DecimalString.
Import ListNotations.

Local Open Scope string_scope.
Local Open Scope list_scope.
Local Open Scope Z_scope.

(** ** Python string operations *)

Module Str.

(** An f-string is the concatenation of its pieces. *)
Definition fmt (pieces : list string) : string := String.concat "" pieces.

(** [str(n)] for an [int]. *)
Definition of_Z (n : Z) : string := NilZero.string_of_int (Z.to_int n).

Definition is_upper (c : ascii) : bool :=
  ((65 <=? nat_of_ascii c) && (nat_of_ascii c <=? 90))%nat.

Definition lower_char (c : ascii) : ascii :=
  if is_upper c then ascii_of_nat (nat_of_ascii c + 32) else c.

(** Lower case of the ASCII letters, the other bytes kept.  The tools
    apply [lower()] to the text of an error and look for a needle of ASCII
    letters and spaces in it; for the needles they use this function gives
    the test the value it has on [s.lower()]: outside ASCII only U+212A
    and U+0130 have an ASCII letter in their lower case, the first a [k],
    which no needle holds, the second an [i] followed by a combining dot,
    where every needle goes on with a letter. *)
Fixpoint lower (s : string) : string :=
  match s with
  | EmptyString => EmptyString
  | String c r => String (lower_char c) (lower r)
  end.

(** [needle in hay] *)
Fixpoint contains (needle hay : string) : bool :=
  String.prefix needle hay ||
  match hay with
  | EmptyString => false
  | String _ r => contains needle r
  end.

(** [s.startswith(p)] *)
Definition startswith (s p : string) : bool := String.prefix p s.

Fixpoint lstrip (p : ascii -> bool) (s : string) : string :=
  match s with
  | EmptyString => EmptyString
  | String c r => if p c then lstrip p r else s
  end.

Fixpoint rstrip (p : ascii -> bool) (s : string) : string :=
  match s with
  | EmptyString => EmptyString
  | String c r =>
      let r' := rstrip p r in
      if p c && (r' =? EmptyString)%string then EmptyString else String c r'
  end.

(** [s.strip(chars)], the characters to remove given as a predicate. *)
Definition strip (p : ascii -> bool) (s : string) : string :=
  rstrip p (lstrip p s).

(** [s.split(sep)] for a one-character separator. *)
Fixpoint split (sep : ascii) (s : string) : list string :=
  match s with
  | EmptyString => [EmptyString]
  | String c r =>
      if Ascii.eqb c sep then EmptyString :: split sep r
      else match split sep r with
           | w :: ws => String c w :: ws
           | [] => [String c EmptyString]
           end
  end.

(** The white space of the ASCII range: tab, line feed, vertical tab,
    form feed, carriage return, the four separators 0x1c-0x1f and the
    space. *)
Definition is_space (c : ascii) : bool :=
  let n := nat_of_ascii c in
  (((9 <=? n) && (n <=? 13)) || ((28 <=? n) && (n <=? 32)))%nat.

(** The maximal runs of characters that are not ASCII white space. *)
Fixpoint split_ws (s : string) : list string :=
  match s with
  | EmptyString => []
  | String c r =>
      if is_space c then split_ws r
      else match r with
           | EmptyString => [String c EmptyString]
           | String c' _ =>
               if is_space c' then String c EmptyString :: split_ws r
               else match split_ws r with
                    | w :: ws => String c w :: ws
                    | [] => [String c EmptyString]
                    end
           end
  end.

(** [sep.join(l)] *)
Definition join (sep : string) (l : list string) : string := String.concat sep l.

(** Truth value of a string: the empty string is false. *)
Definition truthy (s : string) : bool := negb (s =? EmptyString)%string.

End Str.

(** Formatting stays folded in goals about symbolic arguments. *)
Arguments Str.of_Z : simpl never.
Arguments Str.fmt : simpl never.

(** ** Python dicts

    A dict keeps its keys in insertion order ([list(d.keys())], [d.items()]);
    assigning to a key that is present replaces the value in place, assigning
    to a new key appends. *)

Definition dict (V : Type) : Type := list (string * V).

Module Dict.
Section Ops.
Context {V : Type}.

Definition keys (d : dict V) : list string := map fst d.

Fixpoint get (k : string) (d : dict V) : option V :=
  match d with
  | [] => None
  | (k', v) :: r => if (k' =? k)%string then Some v else get k r
  end.

(** [k in d] *)
Definition mem (k : string) (d : dict V) : bool :=
  match get k d with Some _ => true | None => false end.

(** [d[k] = v] *)
Fixpoint set (k : string) (v : V) (d : dict V) : dict V :=
  match d with
  | [] => [(k, v)]
  | (k', v') :: r =>
      if (k' =? k)%string then (k, v) :: r else (k', v') :: set k v r
  end.

(** [del d[k]], for [k in d]. *)
Definition del (k : string) (d : dict V) : dict V :=
  filter (fun kv => negb (fst kv =? k)%string) d.

End Ops.
End Dict.

(** ** Values, exceptions, requests to the outside world *)

#[local] Set Warnings "-register-all".

(** Values of the dicts the tools build: keyword arguments of the Tavily
    client, payloads returned to the agent, JSON documents received.  A
    float is kept as the text that denotes it. *)
Inductive value : Type :=
| VNone
| VBool (b : bool)
| VInt (n : Z)
| VFloat (repr : string)
| VStr (s : string)
| VList (l : list value)
| VDict (d : list (string * value)).

(** The exception classes the code tells apart; any other subclass of
    [Exception] is [OtherError]. *)
Inductive exn : Type :=
| error_perm (msg : string)
| ValueError (msg : string)
| OtherError (msg : string).

(** [str(e)] *)
Definition str (e : exn) : string :=
  match e with error_perm m | ValueError m | OtherError m => m end.

Inductive result (A : Type) : Type :=
| Ok (a : A)
| Raise (e : exn).
Arguments Ok {A} a.
Arguments Raise {A} e.

(** The facts of one MLSD entry. *)
Definition facts : Type := dict string.

(** Methods of an [ftplib.FTP] object that reach the server, indexed by
    the type of what they return. *)
Inductive ftpE : Type -> Type :=
| Connect (host : string) (port timeout : Z) : ftpE string
| Login (user passwd : string) : ftpE string
| Quit : ftpE string
| Close : ftpE unit
| Set_pasv (val : bool) : ftpE unit
| Voidcmd (cmd : string) : ftpE string
| Sendcmd (cmd : string) : ftpE string
| Pwd : ftpE string
| Cwd (dirname : string) : ftpE string
| Mlsd : ftpE (list (string * facts))
| Nlst : ftpE (list string)
| Retrlines (cmd : string) : ftpE (list string)
| Retrbinary (cmd : string) : ftpE string
| Storbinary (cmd data : string) : ftpE string
| Storlines (cmd data : string) : ftpE string
| Mkd (dirname : string) : ftpE string
| Rmd (dirname : string) : ftpE string
| Delete (filename : string) : ftpE string
| Rename (fromname toname : string) : ftpE string
| Size (filename : string) : ftpE (option Z).

(** Calls to the local file system. *)
Inductive osE : Type -> Type :=
| Path_exists (p : string) : osE bool
| Path_isfile (p : string) : osE bool
| Path_getsize (p : string) : osE Z
| Makedirs (p : string) : osE unit
| Open_file (p mode : string) : osE unit
| Read_file (p : string) : osE string
| Write_file (p data : string) : osE unit.

(** Methods of the [TavilyClient]. *)
Inductive tavE : Type -> Type :=
| Search (kwargs : dict value) : tavE value
| Extract (urls : list string) : tavE value
| Get_search_context (kwargs : dict value) : tavE value
| Qna_search (kwargs : dict value) : tavE value.

Inductive ev : Type -> Type :=
| Ftp (handle : nat) {X} (m : ftpE X) : ev X
| Os {X} (c : osE X) : ev X
| Tavily {X} (c : tavE X) : ev X.

(** One entry of the history: a request and its outcome. *)
Inductive call : Type :=
| Call {X} (e : ev X) (r : result X).

(** What the outside world answers to a request, given the history
    (newest call first). *)
Definition Oracle : Type := forall X, list call -> ev X -> result X.

Record datetime : Type := { year : Z; timestamp_us : Z }.

Inductive level : Type := Info | Warning | Error.

Record State (Ctx : Type) : Type := mkState {
  lifespan_context : Ctx;
  calls : list call;
  messages : list (level * string);
  next_handle : nat
}.
Arguments mkState {Ctx}.
Arguments lifespan_context {Ctx}.
Arguments calls {Ctx}.
Arguments messages {Ctx}.
Arguments next_handle {Ctx}.

(** ** The monad of tool bodies *)

Definition M (Ctx A : Type) : Type := State Ctx -> result A * State Ctx.

Section Monad.
Context {Ctx : Type}.

Definition ret {A} (a : A) : M Ctx A := fun st => (Ok a, st).

Definition bind {A B} (c : M Ctx A) (k : A -> M Ctx B) : M Ctx B :=
  fun st =>
    match c st with
    | (Ok a, st') => k a st'
    | (Raise e, st') => (Raise e, st')
    end.

Definition raise {A} (e : exn) : M Ctx A := fun st => (Raise e, st).

(** [try: body except Exception as e: handler e].  What the body did to
    the state before it raised stays done. *)
Definition try_except {A} (body : M Ctx A) (handler : exn -> M Ctx A) : M Ctx A :=
  fun st =>
    match body st with
    | (Ok a, st') => (Ok a, st')
    | (Raise e, st') => handler e st'
    end.

Definition get_context : M Ctx Ctx := fun st => (Ok (lifespan_context st), st).

Definition update_context (f : Ctx -> Ctx) : M Ctx unit :=
  fun st =>
    (Ok tt, mkState (f (lifespan_context st)) (calls st) (messages st) (next_handle st)).

(** [await ctx.info(msg)] and its siblings. *)
Definition log (l : level) (msg : string) : M Ctx unit :=
  fun st =>
    (Ok tt, mkState (lifespan_context st) (calls st) ((l, msg) :: messages st) (next_handle st)).

Definition info := log Info.
Definition warning := log Warning.
Definition error := log Error.

Definition record (c : call) (st : State Ctx) : State Ctx :=
  mkState (lifespan_context st) (c :: calls st) (messages st) (next_handle st).

(** A request the oracle [remote] answers. *)
Definition request (remote : Oracle) {X} (e : ev X) : M Ctx X :=
  fun st => let r := remote X (calls st) e in (r, record (Call e r) st).

(** A call that is recorded and cannot fail. *)
Definition perform (e : ev unit) : M Ctx unit :=
  fun st => (Ok tt, record (Call e (Ok tt)) st).

(** [datetime.now()] *)
Definition datetime_now (now : list call -> datetime) : M Ctx datetime :=
  fun st => (Ok (now (calls st)), st).

(** A new object identity. *)
Definition fresh_handle : M Ctx nat :=
  fun st =>
    (Ok (next_handle st),
     mkState (lifespan_context st) (calls st) (messages st) (S (next_handle st))).

End Monad.

Declare Scope py_scope.
Delimit Scope py_scope with py.
Bind Scope py_scope with M.
Notation "x <- c ;; k" := (bind c (fun x => k))
  (at level 61, c at next level, right associativity) : py_scope.
Notation "c ;; k" := (bind c (fun _ => k))
  (at level 61, right associativity) : py_scope.
Local Open Scope py_scope.

(** [for x in l: body], the local variables the body assigns threaded in
    [acc]. *)
Fixpoint for_fold {Ctx A B} (l : list A) (acc : B) (body : B -> A -> M Ctx B) : M Ctx B :=
  match l with
  | [] => ret acc
  | x :: r => acc' <- body acc x ;; for_fold r acc' body
  end.

(** ** The Python library on text

    Functions of the library whose result is fixed by tables the model
    does not hold: what counts as a letter, as white space or as a digit
    outside ASCII, how a float prints, which names the platform accepts for
    an environment variable.  The tools take them from a [Py.library]; a
    theorem about a tool is stated for every library, with what it asks of
    the library, if anything, among its hypotheses. *)

Module Py.

Record library : Type := {
  (** [s.lower()] *)
  lower : string -> string;
  (** [s.strip()] *)
  strip : string -> string;
  (** [s.split()] *)
  split : string -> list string;
  (** [int(s)], [None] for its [ValueError] *)
  int : string -> option Z;
  (** [str(e)] for the [ValueError] of [int(s)] *)
  int_error : string -> string;
  (** [str(e)] for the [ValueError] of [datetime.strptime(s, fmt)] *)
  strptime_error : string -> string -> string;
  (** [f"{us / 10**6:.2f}"] for a number of microseconds *)
  format_2f : Z -> string;
  (** validation of a field declared [float], [None] for its
      [ValidationError] *)
  validate_float : value -> option value;
  (** what [os.environ[key] = value] raises, if it raises *)
  setenv_error : string -> string -> option exn;
  (** the name under which [os.environ] keeps the variable [key]: [key]
      itself, in upper case on Windows *)
  env_name : string -> string
}.

End Py.

(** ** The FTP server: context and connection management *)

(** An [ftplib.FTP] object: its identity and the greeting [connect] stored
    in it. *)
Record FTP : Type := { handle : nat; welcome : string }.

Record FTPContext : Type := {
  connections : dict FTP;
  current_connection : option string
}.

(** What [ftp_lifespan] yields at start-up. *)
Definition ftp_lifespan : FTPContext :=
  {| connections := []; current_connection := None |}.

Definition initial_state {Ctx} (c : Ctx) : State Ctx := mkState c [] [] 0.

Definition set_connections (d : dict FTP) (c : FTPContext) : FTPContext :=
  {| connections := d; current_connection := current_connection c |}.

Definition set_current_connection (cur : option string) (c : FTPContext) : FTPContext :=
  {| connections := connections c; current_connection := cur |}.

Definition option_string_eqb (a b : option string) : bool :=
  match a, b with
  | Some x, Some y => (x =? y)%string
  | None, None => true
  | _, _ => false
  end.

(** Truth value of an [Optional[str]]. *)
Definition truthy_opt (s : option string) : bool :=
  match s with Some x => Str.truthy x | None => false end.

(** ** Directory listings *)

Record FTPFileInfo : Type := {
  name : string;
  type : string;          (* 'file' or 'directory' *)
  size : option Z;
  modified : option string;
  permissions : option string
}.

Record FTPDirectoryListing : Type := {
  current_directory : string;
  files : list FTPFileInfo;
  total_files : Z;
  total_directories : Z
}.

(** [int(s)] for a [str]. *)
Definition int {Ctx} (lib : Py.library) (s : string) : M Ctx Z :=
  match Py.int lib s with
  | Some n => ret n
  | None => raise (ValueError (Py.int_error lib s))
  end.

(** [name in ['.', '..']] *)
Definition is_dot (name : string) : bool :=
  (name =? ".")%string || (name =? "..")%string.

(** [sorted(l, key=...)]: the stable sort, [leb] comparing the keys. *)
Fixpoint insert_sorted {A} (leb : A -> A -> bool) (x : A) (l : list A) : list A :=
  match l with
  | [] => [x]
  | y :: r => if leb x y then x :: y :: r else y :: insert_sorted leb x r
  end.

Fixpoint sorted {A} (leb : A -> A -> bool) (l : list A) : list A :=
  match l with
  | [] => []
  | x :: r => insert_sorted leb x (sorted leb r)
  end.

(** The key [lambda x: (x.type == 'file', x.name.lower())]. *)
Definition listing_key (lib : Py.library) (x : FTPFileInfo) : bool * string :=
  ((type x =? "file")%string, Py.lower lib (name x)).

(** Order of the tuples [(bool, str)]: [False < True], then the strings. *)
Definition key_leb (a b : bool * string) : bool :=
  match fst a, fst b with
  | false, true => true
  | true, false => false
  | _, _ => String.leb (snd a) (snd b)
  end.

Definition listing_leb (lib : Py.library) (x y : FTPFileInfo) : bool :=
  key_leb (listing_key lib x) (listing_key lib y).

(** The local variables the listing loops assign. *)
Record listing_acc : Type := {
  acc_files : list FTPFileInfo;
  acc_total_files : Z;
  acc_total_directories : Z
}.

(** [files.append(file_info)] followed by the count of its kind. *)
Definition append_entry (file_info : FTPFileInfo) (is_directory : bool) (a : listing_acc)
  : listing_acc :=
  {| acc_files := acc_files a ++ [file_info];
     acc_total_files := if is_directory then acc_total_files a else acc_total_files a + 1;
     acc_total_directories :=
       if is_directory then acc_total_directories a + 1 else acc_total_directories a |}.

(** ** Paths ([posixpath]) *)

Definition is_slash (c : ascii) : bool := Ascii.eqb c "/".

(** [os.path.basename(p)]: what follows the last slash. *)
Definition basename (p : string) : string := last (Str.split "/" p) "".

(** [os.path.dirname(p)]: what precedes the last slash, without trailing
    slashes unless it consists of slashes only. *)
Definition dirname (p : string) : string :=
  let parts := Str.split "/" p in
  let head :=
    match parts with
    | [] | [_] => ""
    | _ => String.append (Str.join "/" (removelast parts)) "/"
    end in
  if Str.truthy head && Str.truthy (Str.lstrip is_slash head)
  then Str.rstrip is_slash head
  else head.

(** [len(b)] *)
Definition len (s : string) : Z := Z.of_nat (String.length s).

Section FtpServer.

Variable remote : Oracle.
Variable now : list call -> datetime.

(** Library functions the tools call, pure but partial:
    [datetime.strptime(s, fmt_in).strftime(fmt_out)], where [None] stands
    for the [ValueError] of a string that does not match; [base64] and the
    codecs of [str.encode] / [bytes.decode]; the functions on text. *)
Variable strptime_strftime : string -> string -> string -> option string.
Variable b64decode : string -> result string.
Variable b64encode : string -> string.
Variable encode : string -> string -> result string.
Variable decode : string -> string -> result string.
Variable lib : Py.library.

Abbreviation tool := (M FTPContext).

(** [ftp.m(...)] for a method that reaches the server. *)
Definition send (ftp : FTP) {X} (m : ftpE X) : tool X :=
  request remote (Ftp (handle ftp) m).

(** [ftp.set_pasv(val)] only assigns an attribute of the object. *)
Definition set_pasv (ftp : FTP) (val : bool) : tool unit :=
  perform (Ftp (handle ftp) (Set_pasv val)).

(** [ftp.getwelcome()] *)
Definition getwelcome (ftp : FTP) : string := welcome ftp.

Definition ftp_connect (connection_id host username password : string)
    (port : Z) (passive : bool) (timeout : Z) : tool string :=
  try_except
    (info (Str.fmt ["Connecting to FTP server "; host; ":"; Str.of_Z port]) ;;
     (* ftp = ftplib.FTP(); ftp.connect(host, port, timeout) *)
     h <- fresh_handle ;;
     greeting <- request remote (Ftp h (Connect host port timeout)) ;;
     let ftp := {| handle := h; welcome := greeting |} in
     set_pasv ftp passive ;;
     info (Str.fmt ["Logging in as "; username]) ;;
     _ <- send ftp (Login username password) ;;
     (* Store connection *)
     update_context (fun c => set_connections (Dict.set connection_id ftp (connections c)) c) ;;
     update_context (set_current_connection (Some connection_id)) ;;
     let welcome := getwelcome ftp in
     info (Str.fmt ["Successfully connected to "; host]) ;;
     ret (Str.fmt ["Connected to "; host; ":"; Str.of_Z port; " as "; username;
                   ". Welcome message: "; welcome]))
    (fun e =>
       match e with
       | error_perm _ =>
           error (Str.fmt ["Authentication failed: "; str e]) ;;
           ret (Str.fmt ["Authentication failed: "; str e])
       | _ =>
           error (Str.fmt ["Connection failed: "; str e]) ;;
           ret (Str.fmt ["Connection failed: "; str e])
       end).

Definition ftp_disconnect (connection_id : option string) : tool string :=
  try_except
    (c <- get_context ;;
     (* Use current connection if not specified *)
     let connection_id :=
       match connection_id with
       | None => current_connection c
       | Some _ => connection_id
       end in
     match connection_id with
     | None => ret "No active connection to disconnect"
     | Some connection_id =>
         if negb (Str.truthy connection_id) then
           ret "No active connection to disconnect"
         else
           match Dict.get connection_id (connections c) with
           | None => ret (Str.fmt ["Connection '"; connection_id; "' not found"])
           | Some ftp =>
               try_except (_ <- send ftp Quit ;; ret tt) (fun _ => send ftp Close) ;;
               (* Remove from connections *)
               update_context
                 (fun c => set_connections (Dict.del connection_id (connections c)) c) ;;
               (* Update current connection *)
               c <- get_context ;;
               (if option_string_eqb (current_connection c) (Some connection_id) then
                  let remaining_connections := Dict.keys (connections c) in
                  update_context (set_current_connection (hd_error remaining_connections))
                else ret tt) ;;
               info (Str.fmt ["Disconnected from "; connection_id]) ;;
               ret (Str.fmt ["Successfully disconnected from "; connection_id])
           end
     end)
    (fun e =>
       error (Str.fmt ["Error disconnecting: "; str e]) ;;
       ret (Str.fmt ["Error disconnecting: "; str e])).

Definition ftp_list_connections : tool (dict string) :=
  c <- get_context ;;
  let current := current_connection c in
  for_fold (connections c) [] (fun result item =>
    let (conn_id, ftp) := (item : string * FTP) in
    status <- try_except
                (_ <- send ftp (Voidcmd "NOOP") ;;
                 ret (if option_string_eqb (Some conn_id) current
                      then "Active (Current)" else "Active"))
                (fun _ => ret "Disconnected") ;;
    ret (Dict.set conn_id status result)).

Definition ftp_switch_connection (connection_id : string) : tool string :=
  c <- get_context ;;
  match Dict.get connection_id (connections c) with
  | None => ret (Str.fmt ["Connection '"; connection_id; "' not found"])
  | Some ftp =>
      (* Test if connection is still active *)
      try_except
        (_ <- send ftp (Voidcmd "NOOP") ;;
         update_context (set_current_connection (Some connection_id)) ;;
         ret (Str.fmt ["Switched to connection '"; connection_id; "'"]))
        (fun e =>
           ret (Str.fmt ["Connection '"; connection_id; "' is no longer active: "; str e]))
  end.

(** Get the current FTP connection or raise an error. *)
Definition _get_current_ftp : tool FTP :=
  c <- get_context ;;
  match current_connection c with
  | None => raise (ValueError "No active FTP connection. Use ftp_connect first.")
  | Some current_id =>
      if negb (Str.truthy current_id) then
        raise (ValueError "No active FTP connection. Use ftp_connect first.")
      else
        match Dict.get current_id (connections c) with
        | None => raise (ValueError (Str.fmt ["Connection '"; current_id; "' not found"]))
        | Some ftp => ret ftp
        end
  end.

Definition ftp_pwd : tool string :=
  try_except
    (ftp <- _get_current_ftp ;;
     current_dir <- send ftp Pwd ;;
     ret current_dir)
    (fun e =>
       error (Str.fmt ["Error getting current directory: "; str e]) ;;
       ret (Str.fmt ["Error: "; str e])).

Definition ftp_cwd (directory : string) : tool string :=
  try_except
    (ftp <- _get_current_ftp ;;
     _ <- send ftp (Cwd directory) ;;
     new_dir <- send ftp Pwd ;;
     info (Str.fmt ["Changed directory to "; new_dir]) ;;
     ret (Str.fmt ["Changed to directory: "; new_dir]))
    (fun e =>
       error (Str.fmt ["Error changing directory: "; str e]) ;;
       ret (Str.fmt ["Error changing directory: "; str e])).

Definition ftp_explore_directory (directory : string) : tool (dict value) :=
  try_except
    (ftp <- _get_current_ftp ;;
     (* Store original directory in case we need to go back *)
     original_dir <- send ftp Pwd ;;
     try_except
       (_ <- send ftp (Cwd directory) ;;
        new_dir <- send ftp Pwd ;;
        let can_navigate := true in
        let navigation_status := "Directory accessible" in
        (* Try to go up one level to test navigation permissions *)
        up <- try_except
                (_ <- send ftp (Cwd "..") ;;
                 parent_dir <- send ftp Pwd ;;
                 _ <- send ftp (Cwd new_dir) ;;
                 ret (true, true))
                (fun _ => ret (false, false)) ;;
        let (can_go_up, parent_accessible) := (up : bool * bool) in
        info (Str.fmt ["Successfully explored directory: "; new_dir]) ;;
        ret [("success", VBool true);
             ("directory", VStr new_dir);
             ("original_directory", VStr original_dir);
             ("accessible", VBool true);
             ("can_navigate", VBool can_navigate);
             ("can_go_up", VBool can_go_up);
             ("parent_accessible", VBool parent_accessible);
             ("status", VStr navigation_status);
             ("message", VStr (Str.fmt ["Successfully changed to "; new_dir]))])
       (fun e =>
          match e with
          | error_perm _ =>
              (* Directory change failed *)
              let error_msg := Str.lower (str e) in
              let status :=
                if Str.contains "no such file" error_msg || Str.contains "not found" error_msg
                then "Directory does not exist"
                else if Str.contains "permission denied" error_msg
                        || Str.contains "access denied" error_msg
                then "Permission denied"
                else if Str.contains "not a directory" error_msg
                then "Path is not a directory"
                else Str.fmt ["Access error: "; str e] in
              warning (Str.fmt ["Cannot access directory "; directory; ": "; status]) ;;
              ret [("success", VBool false);
                   ("directory", VStr directory);
                   ("original_directory", VStr original_dir);
                   ("accessible", VBool false);
                   ("can_navigate", VBool false);
                   ("can_go_up", VBool false);
                   ("parent_accessible", VBool false);
                   ("status", VStr status);
                   ("message", VStr (Str.fmt ["Cannot access "; directory; ": "; status]));
                   ("error", VStr (str e))]
          | _ => raise e
          end))
    (fun e =>
       error (Str.fmt ["Error exploring directory: "; str e]) ;;
       ret [("success", VBool false);
            ("directory", VStr directory);
            ("original_directory", VStr "unknown");
            ("accessible", VBool false);
            ("can_navigate", VBool false);
            ("can_go_up", VBool false);
            ("parent_accessible", VBool false);
            ("status", VStr "Exploration failed");
            ("message", VStr (Str.fmt ["Error exploring directory: "; str e]));
            ("error", VStr (str e))]).

(** Body of the loop [for name, facts in ftp.mlsd()]. *)
Definition mlsd_entry (a : listing_acc) (entry : string * facts) : tool listing_acc :=
  let (name, facts) := entry in
  if is_dot name then ret a
  else
    let file_type := match Dict.get "type" facts with Some t => t | None => "file" end in
    let size := Dict.get "size" facts in
    let modified := Dict.get "modify" facts in
    (* Convert modify time format *)
    modified <-
      (if truthy_opt modified then
         let m := match modified with Some m => m | None => "" end in
         match strptime_strftime m "%Y%m%d%H%M%S" "%Y-%m-%d %H:%M:%S" with
         | Some s => ret (Some s)
         | None => ret modified
         end
       else ret modified) ;;
    size <-
      (if truthy_opt size then
         n <- int lib (match size with Some s => s | None => "" end) ;; ret (Some n)
       else ret None) ;;
    let file_info :=
      {| name := name;
         type := if (file_type =? "dir")%string then "directory" else "file";
         size := size;
         modified := modified;
         permissions := Dict.get "perm" facts |} in
    ret (append_entry file_info (file_type =? "dir")%string a).

(** Body of the loop [for line in listing], the lines of the LIST reply. *)
Definition list_line (a : listing_acc) (line : string) : tool listing_acc :=
  if negb (Str.truthy (Py.strip lib line)) then ret a
  else
    (* Parse Unix-style listing *)
    let parts := Py.split lib line in
    if (9 <=? length parts)%nat then
      let permissions := nth 0 parts "" in
      let size_str := nth 4 parts "" in
      let name := Str.join " " (skipn 8 parts) in
      if is_dot name then ret a
      else
        (* Determine file type from permissions *)
        let file_type := if Str.startswith permissions "d" then "directory" else "file" in
        (* Parse size *)
        size <- try_except
                  (if (file_type =? "file")%string
                   then n <- int lib size_str ;; ret (Some n)
                   else ret None)
                  (fun e => match e with ValueError _ => ret None | _ => raise e end) ;;
        (* Parse date (simplified) *)
        let month := nth 5 parts "" in
        let day := nth 6 parts "" in
        let year_or_time := nth 7 parts "" in
        modified <-
          (if Str.contains ":" year_or_time then
             (* Current year, time given *)
             dt <- datetime_now now ;;
             ret (Some (Str.fmt [Str.of_Z (year dt); "-"; month; "-"; day; " "; year_or_time]))
           else
             (* Year given *)
             ret (Some (Str.fmt [year_or_time; "-"; month; "-"; day]))) ;;
        let file_info :=
          {| name := name;
             type := file_type;
             size := size;
             modified := modified;
             permissions := Some permissions |} in
        ret (append_entry file_info (file_type =? "directory")%string a)
    else ret a.

(** Body of the loop [for name in names], the names of the NLST reply. *)
Definition nlst_name (ftp : FTP) (a : listing_acc) (name : string) : tool listing_acc :=
  if is_dot name then ret a
  else
    (* Try to determine if it's a directory *)
    is_directory <-
      try_except
        (original_pwd <- send ftp Pwd ;;
         _ <- send ftp (Cwd name) ;;
         _ <- send ftp (Cwd original_pwd) ;;
         ret true)
        (fun e => match e with error_perm _ => ret false | _ => raise e end) ;;
    let file_type := if (is_directory : bool) then "directory" else "file" in
    let file_info :=
      {| name := name; type := file_type; size := None; modified := None;
         permissions := None |} in
    ret (append_entry file_info is_directory a).

(** The block [if detailed: ... else: ...] of [ftp_list_directory], which
    fills [files] and the two counters. *)
Definition collect_entries (ftp : FTP) (detailed : bool) : tool listing_acc :=
  let start := {| acc_files := []; acc_total_files := 0; acc_total_directories := 0 |} in
  if detailed then
    (* Use MLSD if available for detailed listings *)
    try_except
      (entries <- send ftp Mlsd ;;
       for_fold entries start mlsd_entry)
      (fun e =>
         match e with
         | error_perm _ =>
             (* Fall back to LIST command *)
             warning "MLSD not supported, using LIST command" ;;
             listing <- send ftp (Retrlines "LIST") ;;
             for_fold listing start list_line
         | _ => raise e
         end)
  else
    (* Simple listing *)
    names <- send ftp Nlst ;;
    for_fold names start (nlst_name ftp).

Definition ftp_list_directory (directory : option string) (detailed : bool)
  : tool FTPDirectoryListing :=
  try_except
    (ftp <- _get_current_ftp ;;
     (* Change to directory if specified *)
     original_dir <- send ftp Pwd ;;
     (if truthy_opt directory
      then _ <- send ftp (Cwd (match directory with Some d => d | None => "" end)) ;; ret tt
      else ret tt) ;;
     current_dir <- send ftp Pwd ;;
     a <- collect_entries ftp detailed ;;
     (* Return to original directory if we changed it *)
     (if truthy_opt directory
      then _ <- send ftp (Cwd original_dir) ;; ret tt
      else ret tt) ;;
     ret {| current_directory := current_dir;
            files := sorted (listing_leb lib) (acc_files a);
            total_files := acc_total_files a;
            total_directories := acc_total_directories a |})
    (fun e =>
       error (Str.fmt ["Error listing directory: "; str e]) ;;
       raise e).

Definition ftp_mkdir (directory : string) : tool string :=
  try_except
    (ftp <- _get_current_ftp ;;
     _ <- send ftp (Mkd directory) ;;
     info (Str.fmt ["Created directory: "; directory]) ;;
     ret (Str.fmt ["Successfully created directory: "; directory]))
    (fun e =>
       error (Str.fmt ["Error creating directory: "; str e]) ;;
       ret (Str.fmt ["Error creating directory: "; str e])).

Definition ftp_rmdir (directory : string) : tool string :=
  try_except
    (ftp <- _get_current_ftp ;;
     _ <- send ftp (Rmd directory) ;;
     info (Str.fmt ["Removed directory: "; directory]) ;;
     ret (Str.fmt ["Successfully removed directory: "; directory]))
    (fun e =>
       error (Str.fmt ["Error removing directory: "; str e]) ;;
       ret (Str.fmt ["Error removing directory: "; str e])).

Definition ftp_delete_file (filename : string) : tool string :=
  try_except
    (ftp <- _get_current_ftp ;;
     _ <- send ftp (Delete filename) ;;
     info (Str.fmt ["Deleted file: "; filename]) ;;
     ret (Str.fmt ["Successfully deleted file: "; filename]))
    (fun e =>
       error (Str.fmt ["Error deleting file: "; str e]) ;;
       ret (Str.fmt ["Error deleting file: "; str e])).

Definition ftp_rename (old_name new_name : string) : tool string :=
  try_except
    (ftp <- _get_current_ftp ;;
     _ <- send ftp (Rename old_name new_name) ;;
     info (Str.fmt ["Renamed "; old_name; " to "; new_name]) ;;
     ret (Str.fmt ["Successfully renamed "; old_name; " to "; new_name]))
    (fun e =>
       error (Str.fmt ["Error renaming: "; str e]) ;;
       ret (Str.fmt ["Error renaming: "; str e])).

Definition ftp_upload_file (local_path : string) (remote_path : option string)
    (binary_mode : bool) : tool string :=
  try_except
    (ftp <- _get_current_ftp ;;
     found <- request remote (Os (Path_exists local_path)) ;;
     if negb found then ret (Str.fmt ["Local file not found: "; local_path])
     else
       regular <- request remote (Os (Path_isfile local_path)) ;;
       if negb regular then ret (Str.fmt ["Path is not a file: "; local_path])
       else
         (* Use filename from local path if remote path not specified *)
         let remote_path :=
           match remote_path with Some p => p | None => basename local_path end in
         file_size <- request remote (Os (Path_getsize local_path)) ;;
         info (Str.fmt ["Uploading "; local_path; " to "; remote_path;
                        " ("; Str.of_Z file_size; " bytes)"]) ;;
         request remote (Os (Open_file local_path (if binary_mode then "rb" else "r"))) ;;
         file <- request remote (Os (Read_file local_path)) ;;
         _ <- (if binary_mode
               then send ftp (Storbinary (Str.fmt ["STOR "; remote_path]) file)
               else send ftp (Storlines (Str.fmt ["STOR "; remote_path]) file)) ;;
         info (Str.fmt ["Successfully uploaded "; local_path]) ;;
         ret (Str.fmt ["Successfully uploaded "; local_path; " to "; remote_path;
                       " ("; Str.of_Z file_size; " bytes)"]))
    (fun e =>
       error (Str.fmt ["Error uploading file: "; str e]) ;;
       ret (Str.fmt ["Error uploading file: "; str e])).

Definition ftp_upload_content (content remote_path : string) (binary_mode : bool)
    (encoding : string) : tool string :=
  try_except
    (ftp <- _get_current_ftp ;;
     if binary_mode then
       (* Handle binary content (expect base64 encoded) *)
       match b64decode content with
       | Raise _ => ret "Content must be base64 encoded for binary mode"
       | Ok content_bytes =>
           _ <- send ftp (Storbinary (Str.fmt ["STOR "; remote_path]) content_bytes) ;;
           let size := len content_bytes in
           info (Str.fmt ["Uploaded content to "; remote_path; " ("; Str.of_Z size; " bytes)"]) ;;
           ret (Str.fmt ["Successfully uploaded content to "; remote_path;
                         " ("; Str.of_Z size; " bytes)"])
       end
     else
       (* Handle text content *)
       match encode content encoding with
       | Raise e => raise e
       | Ok content_bytes =>
           _ <- send ftp (Storbinary (Str.fmt ["STOR "; remote_path]) content_bytes) ;;
           let size := len content_bytes in
           info (Str.fmt ["Uploaded content to "; remote_path; " ("; Str.of_Z size; " bytes)"]) ;;
           ret (Str.fmt ["Successfully uploaded content to "; remote_path;
                         " ("; Str.of_Z size; " bytes)"])
       end)
    (fun e =>
       error (Str.fmt ["Error uploading content: "; str e]) ;;
       ret (Str.fmt ["Error uploading content: "; str e])).

Definition ftp_download_file (remote_path : string) (local_path : option string)
    (binary_mode : bool) : tool string :=
  try_except
    (ftp <- _get_current_ftp ;;
     (* Use filename from remote path if local path not specified *)
     let local_path :=
       match local_path with Some p => p | None => basename remote_path end in
     (* Create directory if it doesn't exist *)
     let local_dir := dirname local_path in
     (if Str.truthy local_dir then
        found <- request remote (Os (Path_exists local_dir)) ;;
        if negb found then request remote (Os (Makedirs local_dir)) else ret tt
      else ret tt) ;;
     info (Str.fmt ["Downloading "; remote_path; " to "; local_path]) ;;
     request remote (Os (Open_file local_path (if binary_mode then "wb" else "w"))) ;;
     (if binary_mode then
        data <- send ftp (Retrbinary (Str.fmt ["RETR "; remote_path])) ;;
        request remote (Os (Write_file local_path data))
      else
        lines <- send ftp (Retrlines (Str.fmt ["RETR "; remote_path])) ;;
        request remote (Os (Write_file local_path (Str.fmt lines)))) ;;
     file_size <- request remote (Os (Path_getsize local_path)) ;;
     info (Str.fmt ["Successfully downloaded "; remote_path]) ;;
     ret (Str.fmt ["Successfully downloaded "; remote_path; " to "; local_path;
                   " ("; Str.of_Z file_size; " bytes)"]))
    (fun e =>
       error (Str.fmt ["Error downloading file: "; str e]) ;;
       ret (Str.fmt ["Error downloading file: "; str e])).

(** A library result brought into the monad. *)
Definition lift {A} (r : result A) : tool A :=
  match r with Ok a => ret a | Raise e => raise e end.

Definition ftp_download_content (remote_path : string) (binary_mode : bool)
    (encoding : string) (max_size_mb : Z) : tool (dict value) :=
  try_except
    (ftp <- _get_current_ftp ;;
     (* Check file size first; [Some size] is the early return *)
     too_large <-
       try_except
         (size <- send ftp (Size remote_path) ;;
          ret (match size with
               | Some size =>
                   if negb (size =? 0) && (size >? max_size_mb * 1024 * 1024)
                   then Some size else None
               | None => None
               end))
         (fun e =>
            match e with
            | error_perm _ => ret None   (* SIZE command not supported, continue anyway *)
            | _ => raise e
            end) ;;
     match too_large with
     | Some size =>
         ret [("error", VStr (Str.fmt ["File too large ("; Str.of_Z size;
                                       " bytes). Maximum allowed: "; Str.of_Z max_size_mb; "MB"]));
              ("size", VInt size)]
     | None =>
         info (Str.fmt ["Downloading content from "; remote_path]) ;;
         (* Download content to memory *)
         content_bytes <- send ftp (Retrbinary (Str.fmt ["RETR "; remote_path])) ;;
         content <-
           (if binary_mode then ret (b64encode content_bytes)
            else lift (decode content_bytes encoding)) ;;
         ret [("content", VStr content);
              ("size", VInt (len content_bytes));
              ("binary_mode", VBool binary_mode);
              ("encoding", VStr (if negb binary_mode then encoding else "base64"))]
     end)
    (fun e =>
       error (Str.fmt ["Error downloading content: "; str e]) ;;
       ret [("error", VStr (str e))]).

Definition ftp_get_file_size (remote_path : string) : tool (dict value) :=
  try_except
    (ftp <- _get_current_ftp ;;
     try_except
       (size <- send ftp (Size remote_path) ;;
        ret [("file", VStr remote_path);
             ("size", match size with Some n => VInt n | None => VNone end);
             ("size_mb",
              match size with
              | Some n =>
                  if negb (n =? 0)
                  then VFloat (Str.fmt ["round("; Str.of_Z n; " / (1024 * 1024), 2)"])
                  else VInt 0
              | None => VInt 0
              end)])
       (fun e =>
          match e with
          | error_perm _ =>
              if Str.contains "not a regular file" (Str.lower (str e)) then
                ret [("file", VStr remote_path);
                     ("error", VStr "Not a regular file (possibly a directory)")]
              else
                ret [("file", VStr remote_path);
                     ("error", VStr (Str.fmt ["SIZE command failed: "; str e]))]
          | _ => raise e
          end))
    (fun e =>
       error (Str.fmt ["Error getting file size: "; str e]) ;;
       ret [("file", VStr remote_path); ("error", VStr (str e))]).

Definition ftp_set_passive_mode (passive : bool) : tool string :=
  try_except
    (ftp <- _get_current_ftp ;;
     set_pasv ftp passive ;;
     let mode := if passive then "passive" else "active" in
     info (Str.fmt ["Set FTP mode to "; mode]) ;;
     ret (Str.fmt ["FTP mode set to "; mode]))
    (fun e =>
       error (Str.fmt ["Error setting FTP mode: "; str e]) ;;
       ret (Str.fmt ["Error setting FTP mode: "; str e])).

Definition ftp_get_system_info : tool (dict string) :=
  try_except
    (ftp <- _get_current_ftp ;;
     let info := [] in
     (* Get system type *)
     system <- try_except (send ftp (Sendcmd "SYST"))
                 (fun e => ret (Str.fmt ["Error: "; str e])) ;;
     let info := Dict.set "system" system info in
     (* Get status *)
     status <- try_except (send ftp (Sendcmd "STAT"))
                 (fun e => ret (Str.fmt ["Error: "; str e])) ;;
     let info := Dict.set "status" status info in
     (* Get features (if supported) *)
     features <- try_except (send ftp (Sendcmd "FEAT"))
                   (fun e => ret (Str.fmt ["FEAT not supported: "; str e])) ;;
     let info := Dict.set "features" features info in
     (* Get welcome message *)
     let info := Dict.set "welcome" (getwelcome ftp) info in
     ret info)
    (fun e =>
       error (Str.fmt ["Error getting system info: "; str e]) ;;
       ret [("error", str e)]).

Definition ftp_send_noop : tool string :=
  try_except
    (ftp <- _get_current_ftp ;;
     response <- send ftp (Voidcmd "NOOP") ;;
     ret (Str.fmt ["NOOP response: "; response]))
    (fun e =>
       error (Str.fmt ["Error sending NOOP: "; str e]) ;;
       ret (Str.fmt ["Error: "; str e])).

Definition ftp_get_modification_time (remote_path : string) : tool (dict string) :=
  try_except
    (ftp <- _get_current_ftp ;;
     try_except
       (* MDTM command returns time in YYYYMMDDHHMMSS format *)
       (mdtm_response <- send ftp (Sendcmd (Str.fmt ["MDTM "; remote_path])) ;;
        (* Parse response (format: "213 YYYYMMDDHHMMSS") *)
        time_str <-
          match rev (Py.split lib mdtm_response) with
          | t :: _ => ret t
          | [] => raise (OtherError "list index out of range")
          end ;;
        (* Convert to readable format *)
        readable_time <-
          match strptime_strftime time_str "%Y%m%d%H%M%S" "%Y-%m-%d %H:%M:%S UTC" with
          | Some t => ret t
          | None =>
              raise (ValueError (Py.strptime_error lib time_str "%Y%m%d%H%M%S"))
          end ;;
        ret [("file", remote_path);
             ("modification_time", readable_time);
             ("raw_time", time_str)])
       (fun e =>
          match e with
          | error_perm _ =>
              ret [("file", remote_path);
                   ("error", Str.fmt ["MDTM command failed: "; str e])]
          | _ => raise e
          end))
    (fun e =>
       error (Str.fmt ["Error getting modification time: "; str e]) ;;
       ret [("file", remote_path); ("error", str e)]).

(** Body of the loop [for part in parts] of [ftp_create_directory_tree];
    the locals are [current_path] and [created_dirs]. *)
Definition create_part (ftp : FTP) (locals : string * list string) (part : string)
  : tool (string * list string) :=
  let (current_path, created_dirs) := locals in
  if negb (Str.truthy part) then ret (current_path, created_dirs)
  else
    let current_path :=
      if Str.truthy current_path then Str.fmt [current_path; "/"; part] else part in
    try_except
      ((* Try to create the directory *)
       _ <- send ftp (Mkd current_path) ;;
       let created_dirs := created_dirs ++ [current_path] in
       info (Str.fmt ["Created directory: "; current_path]) ;;
       ret (current_path, created_dirs))
      (fun e =>
         match e with
         | error_perm _ =>
             if Str.contains "exists" (Str.lower (str e)) then
               (* Directory already exists, continue *)
               ret (current_path, created_dirs)
             else
               (* Other error, stop here *)
               raise e
         | _ => raise e
         end).

Definition ftp_create_directory_tree (directory_path : string) : tool string :=
  try_except
    (ftp <- _get_current_ftp ;;
     (* Split path into components *)
     let parts := Str.split "/" (Str.strip is_slash directory_path) in
     locals <- for_fold parts ("", []) (create_part ftp) ;;
     let created_dirs := snd locals in
     match created_dirs with
     | _ :: _ =>
         ret (Str.fmt ["Successfully created directories: "; Str.join ", " created_dirs])
     | [] => ret (Str.fmt ["Directory path already exists: "; directory_path])
     end)
    (fun e =>
       error (Str.fmt ["Error creating directory tree: "; str e]) ;;
       ret (Str.fmt ["Error creating directory tree: "; str e])).

Definition newline : string := String (ascii_of_nat 10) EmptyString.

Definition ftp_transfer_progress (operation : string) : tool string :=
  try_except
    (ftp <- _get_current_ftp ;;
     if (operation =? "modes")%string then
       ret "Current connection active. Passive mode can be toggled with ftp_set_passive_mode."
     else if (operation =? "capabilities")%string then
       (* Get server capabilities *)
       try_except
         (feat_response <- send ftp (Sendcmd "FEAT") ;;
          ret (Str.fmt ["Server capabilities:"; newline; feat_response]))
         (fun e => ret (Str.fmt ["FEAT command not supported: "; str e]))
     else if (operation =? "status")%string then
       (* Get connection status *)
       try_except
         (status <- send ftp (Sendcmd "STAT") ;;
          ret (Str.fmt ["Connection status:"; newline; status]))
         (fun e => ret (Str.fmt ["Error getting status: "; str e]))
     else
       ret (Str.fmt ["Unknown operation: "; operation;
                     ". Use 'modes', 'capabilities', or 'status'."]))
    (fun e =>
       error (Str.fmt ["Error getting transfer info: "; str e]) ;;
       ret (Str.fmt ["Error: "; str e])).

End FtpServer.

(** ** The Tavily server *)

Record TavilyClient : Type := { client_api_key : string }.

Record TavilyContext : Type := {
  api_key : option string;
  client : option TavilyClient
}.

(** What [tavily_lifespan] yields, [env_key] being
    [os.getenv('TAVILY_API_KEY')]. *)
Definition tavily_lifespan (env_key : option string) : TavilyContext :=
  {| api_key := env_key;
     client := if truthy_opt env_key
               then Some {| client_api_key := match env_key with Some k => k | None => "" end |}
               else None |}.

Record TavilySearchItem : Type := {
  item_title : string;
  item_url : string;
  item_content : string;
  item_raw_content : option string;
  item_score : value;
  item_published_date : option string
}.

Record TavilyImage : Type := {
  image_url : string;
  image_description : string
}.

Record TavilySearchResult : Type := {
  query : string;
  answer : string;
  results : list TavilySearchItem;
  images : list TavilyImage;
  search_depth : string;
  topic : string;
  response_time : Z;            (* microseconds *)
  total_results : Z
}.

Record TavilyExtractItem : Type := {
  extract_url : string;
  extract_title : string;
  extract_content : string;
  extract_author : option string;
  extract_published_date : option string;
  extract_language : option string;
  extract_success : bool;
  extract_error : option string
}.

(** Operations on the JSON documents the client returns.  A document of
    the wrong kind makes the Python operation raise ([AttributeError],
    [TypeError], [KeyError], all caught as [Exception]); a field of the
    wrong kind makes the pydantic constructor raise its [ValidationError],
    a [ValueError]. *)
Module Json.

(** [d.get(k, default)] *)
Definition get {Ctx} (d : value) (k : string) (default : value) : M Ctx value :=
  match d with
  | VDict d => ret (match Dict.get k d with Some v => v | None => default end)
  | _ => raise (OtherError "object has no attribute 'get'")
  end.

(** [for x in v] *)
Definition iter {Ctx} (v : value) : M Ctx (list value) :=
  match v with
  | VList l => ret l
  | VDict d => ret (map VStr (Dict.keys d))
  | VStr s => ret (map (fun c => VStr (String c EmptyString)) (list_ascii_of_string s))
  | _ => raise (OtherError "object is not iterable")
  end.

Definition truthy (v : value) : bool :=
  match v with
  | VNone => false
  | VBool b => b
  | VInt n => negb (n =? 0)
  | VFloat _ => true
  | VStr s => Str.truthy s
  | VList l => match l with [] => false | _ => true end
  | VDict d => match d with [] => false | _ => true end
  end.

Definition is_str (s : string) (v : value) : bool :=
  match v with VStr t => (t =? s)%string | _ => false end.

(** [k in v] for a string [k] *)
Definition contains {Ctx} (k : string) (v : value) : M Ctx bool :=
  match v with
  | VDict d => ret (Dict.mem k d)
  | VList l => ret (existsb (is_str k) l)
  | VStr s => ret (Str.contains k s)
  | _ => raise (OtherError "argument is not iterable")
  end.

(** [v[k]] for a string [k] *)
Definition item {Ctx} (v : value) (k : string) : M Ctx value :=
  match v with
  | VDict d =>
      match Dict.get k d with
      | Some x => ret x
      | None => raise (OtherError k)
      end
  | _ => raise (OtherError "indices must be integers")
  end.

(** [v[0]] *)
Definition first {Ctx} (v : value) : M Ctx value :=
  match v with
  | VList (x :: _) => ret x
  | VStr (String c _) => ret (VStr (String c EmptyString))
  | VList [] | VStr EmptyString => raise (OtherError "index out of range")
  | VDict _ => raise (OtherError "0")
  | _ => raise (OtherError "object is not subscriptable")
  end.

(** Validation of a field declared [str]. *)
Definition str_field {Ctx} (v : value) : M Ctx string :=
  match v with
  | VStr s => ret s
  | _ => raise (ValueError "validation error: Input should be a valid string")
  end.

(** Validation of a field declared [Optional[str]]. *)
Definition optional_str_field {Ctx} (v : value) : M Ctx (option string) :=
  match v with
  | VNone => ret None
  | VStr s => ret (Some s)
  | _ => raise (ValueError "validation error: Input should be a valid string")
  end.

(** Validation of a field declared [float]. *)
Definition float_field {Ctx} (lib : Py.library) (v : value) : M Ctx value :=
  match Py.validate_float lib v with
  | Some x => ret x
  | None => raise (ValueError "validation error: Input should be a valid number")
  end.

End Json.

(** [x in l] for a list of strings *)
Definition str_in (x : string) (l : list string) : bool :=
  existsb (String.eqb x) l.

Section TavilyServer.

Variable remote : Oracle.
Variable now : list call -> datetime.
Variable lib : Py.library.

Abbreviation tool := (M TavilyContext).

(** Get the Tavily client or raise an error. *)
Definition _get_tavily_client : tool TavilyClient :=
  c <- get_context ;;
  if negb (truthy_opt (api_key c)) then
    raise (ValueError
             "Tavily API key not found. Please set TAVILY_API_KEY environment variable.")
  else
    match client c with
    | None => raise (ValueError "Tavily client not initialized")
    | Some client => ret client
    end.

(** One [TavilySearchItem(...)] of the loop over [data.get("results", [])]. *)
Definition search_item (item : value) : tool TavilySearchItem :=
  title <- Json.get item "title" (VStr "") ;;
  url <- Json.get item "url" (VStr "") ;;
  content <- Json.get item "content" (VStr "") ;;
  raw_content <- Json.get item "raw_content" VNone ;;
  score <- Json.get item "score" (VFloat "0.0") ;;
  published_date <- Json.get item "published_date" VNone ;;
  title <- Json.str_field title ;;
  url <- Json.str_field url ;;
  content <- Json.str_field content ;;
  raw_content <- Json.optional_str_field raw_content ;;
  score <- Json.float_field lib score ;;
  published_date <- Json.optional_str_field published_date ;;
  ret {| item_title := title; item_url := url; item_content := content;
         item_raw_content := raw_content; item_score := score;
         item_published_date := published_date |}.

(** One [TavilyImage(...)] of the loop over [data.get("images", [])]. *)
Definition search_image (img : value) : tool TavilyImage :=
  url <- Json.get img "url" (VStr "") ;;
  description <- Json.get img "description" (VStr "") ;;
  url <- Json.str_field url ;;
  description <- Json.str_field description ;;
  ret {| image_url := url; image_description := description |}.

Definition tavily_search (query search_depth topic : string) (days : option Z)
    (max_results : Z) (include_domains exclude_domains : option (list string))
    (include_answer include_raw_content include_images : bool)
  : tool TavilySearchResult :=
  try_except
    (client <- _get_tavily_client ;;
     (* Validate parameters *)
     let search_depth :=
       if negb (str_in search_depth ["basic"; "advanced"]) then "basic" else search_depth in
     let topic :=
       if negb (str_in topic ["general"; "news"; "finance"]) then "general" else topic in
     let max_results :=
       if (max_results <? 1) || (max_results >? 20) then 5 else max_results in
     info (Str.fmt ["Searching Tavily for: "; query]) ;;
     (* Prepare search parameters *)
     let search_params :=
       [("query", VStr query);
        ("search_depth", VStr search_depth);
        ("topic", VStr topic);
        ("max_results", VInt max_results);
        ("include_answer", VBool include_answer);
        ("include_raw_content", VBool include_raw_content);
        ("include_images", VBool include_images)] in
     (* Add optional parameters *)
     let search_params :=
       match days with
       | Some d => Dict.set "days" (VInt d) search_params
       | None => search_params
       end in
     let search_params :=
       match include_domains with
       | Some ((_ :: _) as l) => Dict.set "include_domains" (VList (map VStr l)) search_params
       | _ => search_params
       end in
     let search_params :=
       match exclude_domains with
       | Some ((_ :: _) as l) => Dict.set "exclude_domains" (VList (map VStr l)) search_params
       | _ => search_params
       end in
     (* Record start time for response measurement *)
     start_time <- datetime_now now ;;
     (* Make search request using Tavily client *)
     data <- request remote (Tavily (Search search_params)) ;;
     (* Calculate response time *)
     end_time <- datetime_now now ;;
     let response_time := timestamp_us end_time - timestamp_us start_time in
     (* Parse results *)
     items <- Json.get data "results" (VList []) ;;
     items <- Json.iter items ;;
     results <- for_fold items []
                  (fun results item => result <- search_item item ;; ret (results ++ [result])) ;;
     (* Parse images if included *)
     imgs <- Json.get data "images" (VList []) ;;
     imgs <- Json.iter imgs ;;
     images <- for_fold imgs []
                 (fun images img => image <- search_image img ;; ret (images ++ [image])) ;;
     answer <- Json.get data "answer" (VStr "") ;;
     answer <- Json.str_field answer ;;
     let search_result :=
       {| query := query;
          answer := answer;
          results := results;
          images := images;
          search_depth := search_depth;
          topic := topic;
          response_time := response_time;
          total_results := Z.of_nat (length results) |} in
     info (Str.fmt ["Found "; Str.of_Z (Z.of_nat (length results)); " results in ";
                    Py.format_2f lib response_time; "s"]) ;;
     ret search_result)
    (fun e =>
       let error_msg := Str.fmt ["Search failed: "; str e] in
       error error_msg ;;
       raise (ValueError error_msg)).

(** Body of the loop [for url in urls] of [tavily_extract_content]. *)
Definition extract_one (results : list TavilyExtractItem) (url : string)
  : tool (list TavilyExtractItem) :=
  try_except
    ((* Extract content using Tavily client *)
     data <- request remote (Tavily (Extract [url])) ;;
     (* data and "results" in data and data["results"] *)
     found <-
       (if Json.truthy data then
          present <- Json.contains "results" data ;;
          if (present : bool) then r <- Json.item data "results" ;; ret (Json.truthy r)
          else ret false
        else ret false) ;;
     extract_result <-
       (if (found : bool) then
          rs <- Json.item data "results" ;;
          result_data <- Json.first rs ;;
          title <- Json.get result_data "title" (VStr "") ;;
          content <- Json.get result_data "content" (VStr "") ;;
          author <- Json.get result_data "author" VNone ;;
          published_date <- Json.get result_data "published_date" VNone ;;
          language <- Json.get result_data "language" VNone ;;
          title <- Json.str_field title ;;
          content <- Json.str_field content ;;
          author <- Json.optional_str_field author ;;
          published_date <- Json.optional_str_field published_date ;;
          language <- Json.optional_str_field language ;;
          ret {| extract_url := url; extract_title := title; extract_content := content;
                 extract_author := author; extract_published_date := published_date;
                 extract_language := language; extract_success := true;
                 extract_error := None |}
        else
          ret {| extract_url := url; extract_title := ""; extract_content := "";
                 extract_author := None; extract_published_date := None;
                 extract_language := None; extract_success := false;
                 extract_error := Some "No content extracted" |}) ;;
     ret (results ++ [extract_result]))
    (fun e =>
       warning (Str.fmt ["Failed to extract content from "; url; ": "; str e]) ;;
       let error_result :=
         {| extract_url := url; extract_title := ""; extract_content := "";
            extract_author := None; extract_published_date := None;
            extract_language := None; extract_success := false;
            extract_error := Some (str e) |} in
       ret (results ++ [error_result])).

Definition tavily_extract_content (urls : list string) : tool (list TavilyExtractItem) :=
  try_except
    (client <- _get_tavily_client ;;
     match urls with
     | [] => raise (ValueError "No URLs provided for content extraction")
     | _ :: _ =>
         urls <-
           (if (10 <? length urls)%nat then
              warning (Str.fmt ["Too many URLs ("; Str.of_Z (Z.of_nat (length urls));
                                "). Processing first 10 only."]) ;;
              ret (firstn 10 urls)
            else ret urls) ;;
         info (Str.fmt ["Extracting content from "; Str.of_Z (Z.of_nat (length urls));
                        " URL(s)"]) ;;
         results <- for_fold urls [] extract_one ;;
         let successful_extractions := length (filter extract_success results) in
         info (Str.fmt ["Successfully extracted content from ";
                        Str.of_Z (Z.of_nat successful_extractions); "/";
                        Str.of_Z (Z.of_nat (length urls)); " URLs"]) ;;
         ret results
     end)
    (fun e =>
       let error_msg := Str.fmt ["Content extraction failed: "; str e] in
       error error_msg ;;
       raise (ValueError error_msg)).

Definition tavily_get_search_context (query : string) (max_tokens : Z)
    (search_depth topic : string) (days : option Z) : tool (dict value) :=
  try_except
    (client <- _get_tavily_client ;;
     info (Str.fmt ["Getting search context for: "; query]) ;;
     (* Prepare search parameters *)
     let search_params :=
       [("query", VStr query);
        ("search_depth", VStr search_depth);
        ("topic", VStr topic);
        ("max_tokens", VInt max_tokens)] in
     let search_params :=
       match days with
       | Some d => Dict.set "days" (VInt d) search_params
       | None => search_params
       end in
     (* Get context using Tavily client *)
     data <- request remote (Tavily (Get_search_context search_params)) ;;
     let token_count :=
       match data with
       | VStr s => Z.of_nat (length (Py.split lib s))
       | _ => 0
       end in
     let result :=
       [("query", VStr query);
        ("context", data);
        ("max_tokens", VInt max_tokens);
        ("search_depth", VStr search_depth);
        ("topic", VStr topic);
        ("token_count", VInt token_count)] in
     info (Str.fmt ["Generated context with ~"; Str.of_Z token_count; " tokens"]) ;;
     ret result)
    (fun e =>
       let error_msg := Str.fmt ["Context generation failed: "; str e] in
       error error_msg ;;
       raise (ValueError error_msg)).

(** [[item.get(k, "") for item in l]] *)
Definition get_each (k : string) (l : list value) : tool (list value) :=
  for_fold l [] (fun out item => v <- Json.get item k (VStr "") ;; ret (out ++ [v])).

Definition tavily_qna_search (query search_depth topic : string) (days : option Z)
    (max_results : Z) : tool (dict value) :=
  try_except
    (client <- _get_tavily_client ;;
     info (Str.fmt ["Performing Q&A search for: "; query]) ;;
     (* Prepare search parameters optimized for Q&A *)
     let search_params :=
       [("query", VStr query);
        ("search_depth", VStr search_depth);
        ("topic", VStr topic);
        ("max_results", VInt max_results)] in
     let search_params :=
       match days with
       | Some d => Dict.set "days" (VInt d) search_params
       | None => search_params
       end in
     (* Perform Q&A search (returns string directly) *)
     answer <- request remote (Tavily (Qna_search search_params)) ;;
     (* Also get regular search results for sources *)
     search_data <- request remote (Tavily (Search
                      [("query", VStr query);
                       ("search_depth", VStr search_depth);
                       ("topic", VStr topic);
                       ("max_results", VInt max_results);
                       ("include_answer", VBool false)])) ;;
     items <- Json.get search_data "results" (VList []) ;;
     items <- Json.iter items ;;
     sources <- get_each "url" items ;;
     items <- Json.get search_data "results" (VList []) ;;
     items <- Json.iter items ;;
     source_titles <- get_each "title" items ;;
     let result :=
       [("query", VStr query);
        ("answer", answer);
        ("sources", VList sources);
        ("source_titles", VList source_titles);
        ("follow_up_questions", VList []);
        ("search_depth", VStr search_depth);
        ("topic", VStr topic)] in
     info (Str.fmt ["Generated answer with "; Str.of_Z (Z.of_nat (length sources));
                    " sources"]) ;;
     ret result)
    (fun e =>
       let error_msg := Str.fmt ["Q&A search failed: "; str e] in
       error error_msg ;;
       raise (ValueError error_msg)).

End TavilyServer.

(** ** The tool boundary

    What a tool hands back to the framework that called it: a payload, or
    an exception that leaves the tool function. *)

Inductive payload : Type :=
| Text (s : string)
| Struct (d : dict value)
| Strings (d : dict string)
| Listing (l : FTPDirectoryListing)
| Found (r : TavilySearchResult)
| Extracted (l : list TavilyExtractItem).

Definition returning {Ctx A} (f : A -> payload) (c : M Ctx A) : M Ctx payload :=
  fun st => match c st with
            | (Ok a, st') => (Ok (f a), st')
            | (Raise e, st') => (Raise e, st')
            end.

(** An invocation of one of the tools of the FTP server, with its arguments. *)
Inductive ftp_invocation : Type :=
| Ftp_connect (connection_id host username password : string)
    (port : Z) (passive : bool) (timeout : Z)
| Ftp_disconnect (connection_id : option string)
| Ftp_list_connections
| Ftp_switch_connection (connection_id : string)
| Ftp_pwd
| Ftp_cwd (directory : string)
| Ftp_explore_directory (directory : string)
| Ftp_list_directory (directory : option string) (detailed : bool)
| Ftp_mkdir (directory : string)
| Ftp_rmdir (directory : string)
| Ftp_delete_file (filename : string)
| Ftp_rename (old_name new_name : string)
| Ftp_upload_file (local_path : string) (remote_path : option string) (binary_mode : bool)
| Ftp_upload_content (content remote_path : string) (binary_mode : bool) (encoding : string)
| Ftp_download_file (remote_path : string) (local_path : option string) (binary_mode : bool)
| Ftp_download_content (remote_path : string) (binary_mode : bool) (encoding : string)
    (max_size_mb : Z)
| Ftp_get_file_size (remote_path : string)
| Ftp_set_passive_mode (passive : bool)
| Ftp_get_system_info
| Ftp_send_noop
| Ftp_get_modification_time (remote_path : string)
| Ftp_create_directory_tree (directory_path : string)
| Ftp_transfer_progress (operation : string).

Definition is_list_directory (i : ftp_invocation) : bool :=
  match i with Ftp_list_directory _ _ => true | _ => false end.

Section Boundary.

Variable remote : Oracle.
Variable now : list call -> datetime.
Variable strptime_strftime : string -> string -> string -> option string.
Variable b64decode : string -> result string.
Variable b64encode : string -> string.
Variable encode : string -> string -> result string.
Variable decode : string -> string -> result string.
Variable lib : Py.library.

Definition invoke (i : ftp_invocation) : M FTPContext payload :=
  match i with
  | Ftp_connect connection_id host username password port passive timeout =>
      returning Text
        (ftp_connect remote connection_id host username password port passive timeout)
  | Ftp_disconnect connection_id => returning Text (ftp_disconnect remote connection_id)
  | Ftp_list_connections => returning Strings (ftp_list_connections remote)
  | Ftp_switch_connection connection_id =>
      returning Text (ftp_switch_connection remote connection_id)
  | Ftp_pwd => returning Text (ftp_pwd remote)
  | Ftp_cwd directory => returning Text (ftp_cwd remote directory)
  | Ftp_explore_directory directory =>
      returning Struct (ftp_explore_directory remote directory)
  | Ftp_list_directory directory detailed =>
      returning Listing
        (ftp_list_directory remote now strptime_strftime lib directory detailed)
  | Ftp_mkdir directory => returning Text (ftp_mkdir remote directory)
  | Ftp_rmdir directory => returning Text (ftp_rmdir remote directory)
  | Ftp_delete_file filename => returning Text (ftp_delete_file remote filename)
  | Ftp_rename old_name new_name => returning Text (ftp_rename remote old_name new_name)
  | Ftp_upload_file local_path remote_path binary_mode =>
      returning Text (ftp_upload_file remote local_path remote_path binary_mode)
  | Ftp_upload_content content remote_path binary_mode encoding =>
      returning Text
        (ftp_upload_content remote b64decode encode content remote_path binary_mode encoding)
  | Ftp_download_file remote_path local_path binary_mode =>
      returning Text (ftp_download_file remote remote_path local_path binary_mode)
  | Ftp_download_content remote_path binary_mode encoding max_size_mb =>
      returning Struct
        (ftp_download_content remote b64encode decode remote_path binary_mode encoding
           max_size_mb)
  | Ftp_get_file_size remote_path => returning Struct (ftp_get_file_size remote remote_path)
  | Ftp_set_passive_mode passive => returning Text (ftp_set_passive_mode passive)
  | Ftp_get_system_info => returning Strings (ftp_get_system_info remote)
  | Ftp_send_noop => returning Text (ftp_send_noop remote)
  | Ftp_get_modification_time remote_path =>
      returning Strings (ftp_get_modification_time remote strptime_strftime lib remote_path)
  | Ftp_create_directory_tree directory_path =>
      returning Text (ftp_create_directory_tree remote directory_path)
  | Ftp_transfer_progress operation =>
      returning Text (ftp_transfer_progress remote operation)
  end.

End Boundary.

(** An invocation of one of the tools of the Tavily server. *)
Inductive tavily_invocation : Type :=
| Tavily_search (query search_depth topic : string) (days : option Z) (max_results : Z)
    (include_domains exclude_domains : option (list string))
    (include_answer include_raw_content include_images : bool)
| Tavily_extract_content (urls : list string)
| Tavily_get_search_context (query : string) (max_tokens : Z) (search_depth topic : string)
    (days : option Z)
| Tavily_qna_search (query search_depth topic : string) (days : option Z) (max_results : Z).

Definition invoke_tavily (remote : Oracle) (now : list call -> datetime)
    (lib : Py.library) (i : tavily_invocation) : M TavilyContext payload :=
  match i with
  | Tavily_search query search_depth topic days max_results include_domains
      exclude_domains include_answer include_raw_content include_images =>
      returning Found
        (tavily_search remote now lib query search_depth topic days max_results
           include_domains exclude_domains include_answer include_raw_content
           include_images)
  | Tavily_extract_content urls => returning Extracted (tavily_extract_content remote urls)
  | Tavily_get_search_context query max_tokens search_depth topic days =>
      returning Struct
        (tavily_get_search_context remote lib query max_tokens search_depth topic days)
  | Tavily_qna_search query search_depth topic days max_results =>
      returning Struct (tavily_qna_search remote query search_depth topic days max_results)
  end.

(** The text each Tavily tool puts before the error it raises again. *)
Definition failure_prefix (i : tavily_invocation) : string :=
  match i with
  | Tavily_search _ _ _ _ _ _ _ _ _ _ => "Search failed: "
  | Tavily_extract_content _ => "Content extraction failed: "
  | Tavily_get_search_context _ _ _ _ _ => "Context generation failed: "
  | Tavily_qna_search _ _ _ _ _ => "Q&A search failed: "
  end.

(** ** Sequences of registry operations *)

Inductive registry_op : Type :=
| Op_connect (connection_id host username password : string)
    (port : Z) (passive : bool) (timeout : Z)
| Op_disconnect (connection_id : option string)
| Op_switch (connection_id : string).

Definition run_op (remote : Oracle) (op : registry_op) : M FTPContext string :=
  match op with
  | Op_connect connection_id host username password port passive timeout =>
      ftp_connect remote connection_id host username password port passive timeout
  | Op_disconnect connection_id => ftp_disconnect remote connection_id
  | Op_switch connection_id => ftp_switch_connection remote connection_id
  end.

(** The state after a sequence of tool invocations. *)
Definition run_ops (remote : Oracle) (ops : list registry_op) (st : State FTPContext)
  : State FTPContext :=
  fold_left (fun st op => snd (run_op remote op st)) ops st.

(** [current_connection] is [None] or a key of [connections]. *)
Definition registry_invariant (c : FTPContext) : Prop :=
  match current_connection c with
  | None => True
  | Some id => Dict.mem id (connections c) = true
  end.

(** The context after the entry [id] has been removed by [ftp_disconnect]:
    the entry is deleted and, when it was the current one, the first
    remaining key (or [None]) becomes current. *)
Definition after_disconnect (id : string) (c : FTPContext) : FTPContext :=
  let c1 := set_connections (Dict.del id (connections c)) c in
  if option_string_eqb (current_connection c1) (Some id)
  then set_current_connection (hd_error (Dict.keys (connections c1))) c1
  else c1.

(** The connection [ftp_disconnect] works on: the argument, or the current
    connection when the argument is [None]. *)
Definition disconnect_target (connection_id : option string) (c : FTPContext) : option string :=
  match connection_id with
  | Some _ => connection_id
  | None => current_connection c
  end.

(** ** Directory-tree creation, as the specification words it *)

(** The segments of a path: what lies between the slashes. *)
Definition segments (directory_path : string) : list string :=
  filter Str.truthy (Str.split "/" (Str.strip is_slash directory_path)).

(** The cumulative prefixes [a], [a/b], [a/b/c] of the segments. *)
Fixpoint prefixes_from (current_path : string) (segs : list string) : list string :=
  match segs with
  | [] => []
  | part :: rest =>
      let p := if Str.truthy current_path then Str.fmt [current_path; "/"; part] else part in
      p :: prefixes_from p rest
  end.

Definition cumulative_prefixes (directory_path : string) : list string :=
  prefixes_from "" (segments directory_path).

(** An error of the "already exists" class: a permission-class error whose
    text, in lower case, contains "exists". *)
Definition is_exists_error (e : exn) : bool :=
  match e with
  | error_perm msg => Str.contains "exists" (Str.lower msg)
  | _ => false
  end.

Inductive tree_outcome : Type :=
| Completed (created : list string)
| Aborted (created : list string) (e : exn).

(** Each prefix is attempted in order; an "already exists" error is passed
    over; any other error aborts, with the prefixes created so far. *)
Fixpoint create_prefixes (remote : Oracle) (h : nat) (prefixes : list string)
    (history : list call) (created : list string) : tree_outcome * list call :=
  match prefixes with
  | [] => (Completed created, history)
  | p :: rest =>
      let r := remote _ history (Ftp h (Mkd p)) in
      let history' := Call (Ftp h (Mkd p)) r :: history in
      match r with
      | Ok _ => create_prefixes remote h rest history' (created ++ [p])
      | Raise e =>
          if is_exists_error e then create_prefixes remote h rest history' created
          else (Aborted created e, history')
      end
  end.

(** The message that announces a created prefix. *)
Definition created_message (p : string) : level * string :=
  (Info, Str.fmt ["Created directory: "; p]).

(** The claim as the specification states it: when the creation aborts,
    the text handed back to the caller reports every prefix created before
    the fatal step. *)
Definition abort_reports_created (remote : Oracle) (directory_path : string)
    (st : State FTPContext) (ftp : FTP) : Prop :=
  forall created e text,
    fst (create_prefixes remote (handle ftp) (cumulative_prefixes directory_path)
           (calls st) []) = Aborted created e ->
    fst (ftp_create_directory_tree remote directory_path st) = Ok text ->
    Forall (fun p => Str.contains p text = true) created.

(** The other half of the claim as the specification states it: an error
    whose text contains "exists" does not stop the creation, so that the
    error of an aborted run is never of that kind. *)
Definition exists_errors_passed_over (remote : Oracle) (directory_path : string)
    (st : State FTPContext) : Prop :=
  forall e,
    fst (ftp_create_directory_tree remote directory_path st)
      = Ok (Str.fmt ["Error creating directory tree: "; str e]) ->
    Str.contains "exists" (Str.lower (str e)) = false.

(** ** Size-bounded download, as the specification words it *)

(** A call that transfers the content of a remote file. *)
Definition is_transfer (c : call) : bool :=
  match c with
  | Call e _ =>
      match e with
      | Ftp _ m => match m with Retrbinary _ | Retrlines _ => true | _ => false end
      | _ => false
      end
  end.

(** The download is refused as too large: the result is the error payload
    with the reported [size], it holds no content, and the size query is
    the only call made, so that nothing is transferred. *)
Definition refused_as_too_large (size max_size_mb : Z) (query : call)
    (st : State FTPContext) (out : result (dict value) * State FTPContext) : Prop :=
  fst out =
    Ok [("error", VStr (Str.fmt ["File too large ("; Str.of_Z size;
                                 " bytes). Maximum allowed: "; Str.of_Z max_size_mb; "MB"]));
        ("size", VInt size)] /\
  (forall d, fst out = Ok d -> Dict.mem "content" d = false) /\
  calls (snd out) = query :: calls st /\
  existsb is_transfer [query] = false.

(** The claim as the specification states it: every reported size above
    the bound is refused. *)
Definition size_bound_enforced (remote : Oracle) (b64encode : string -> string)
    (decode : string -> string -> result string) (remote_path : string)
    (binary_mode : bool) (encoding : string) (max_size_mb : Z)
    (st : State FTPContext) (ftp : FTP) : Prop :=
  forall size,
    remote _ (calls st) (Ftp (handle ftp) (Size remote_path)) = Ok (Some size) ->
    size > max_size_mb * 1024 * 1024 ->
    refused_as_too_large size max_size_mb
      (Call (Ftp (handle ftp) (Size remote_path)) (Ok (Some size))) st
      (ftp_download_content remote b64encode decode remote_path binary_mode encoding
         max_size_mb st).

(** ** Listing normalization, as the specification words it *)

(** Case-insensitive order of two entries by name: the order of the
    names in lower case. *)
Definition name_le_ci (lib : Py.library) (x y : FTPFileInfo) : Prop :=
  String.leb (Py.lower lib (name x)) (Py.lower lib (name y)) = true.

(** An entry the listing may hold: not named [.] or [..], a directory or a
    file. *)
Definition entry_ok (x : FTPFileInfo) : Prop :=
  is_dot (name x) = false /\ (type x = "directory" \/ type x = "file").

(** The calls a tool invocation added to the history. *)
Definition new_calls {Ctx} (before after : State Ctx) : list call :=
  firstn (length (calls after) - length (calls before)) (calls after).

(** The structured listing failed with a permission-class error. *)
Definition mlsd_refused (c : call) : bool :=
  match c with
  | Call e r =>
      match e in ev X return result X -> bool with
      | Ftp _ m =>
          match m in ftpE X return result X -> bool with
          | Mlsd => fun r => match r with Raise (error_perm _) => true | _ => false end
          | _ => fun _ => false
          end
      | _ => fun _ => false
      end r
  end.

(** The lines the server sent in answer to LIST. *)
Definition list_reply (c : call) : option (list string) :=
  match c with
  | Call e r =>
      match e in ev X return result X -> option (list string) with
      | Ftp _ m =>
          match m in ftpE X return result X -> option (list string) with
          | Retrlines cmd =>
              fun r => if (cmd =? "LIST")%string
                       then match r with Ok lines => Some lines | Raise _ => None end
                       else None
          | _ => fun _ => None
          end
      | _ => fun _ => None
      end r
  end.

Fixpoint find_reply {A} (f : call -> option A) (history : list call) : option A :=
  match history with
  | [] => None
  | c :: r => match f c with Some a => Some a | None => find_reply f r end
  end.

(** A call that only reads or changes the working directory. *)
Definition is_navigation (c : call) : bool :=
  match c with
  | Call e _ =>
      match e with
      | Ftp _ m => match m with Pwd | Cwd _ => true | _ => false end
      | _ => false
      end
  end.

(** The history at the time [ftp_list_directory] read the entries: the
    history at its end, less the final CWD back when a directory was
    given. *)
Definition history_at_listing (directory : option string) (st' : State FTPContext)
  : list call :=
  skipn (if truthy_opt directory then 1 else 0) (calls st').

(** The legacy parse of one line, token by token: at least 9 tokens;
    token 0 is the permission string, a leading [d] making a directory;
    token 4 is the size, for files only; tokens 5 to 7 are the date, token 7
    being a time of day (with the current year) when it holds a colon and
    the year otherwise; the tokens from 8 on, joined by single spaces, are
    the name.  A line with fewer tokens, or named [.] or [..], gives no
    entry. *)
Definition legacy_entry (lib : Py.library) (current_year : Z) (line : string)
  : option FTPFileInfo :=
  let tokens := Py.split lib line in
  if (9 <=? length tokens)%nat then
    let token i := nth i tokens "" in
    let is_directory := Str.startswith (token 0%nat) "d" in
    let entry_name := Str.join " " (skipn 8 tokens) in
    if is_dot entry_name then None
    else
      Some {| name := entry_name;
              type := if is_directory then "directory" else "file";
              size := if is_directory then None else Py.int lib (token 4%nat);
              modified :=
                Some (if Str.contains ":" (token 7%nat)
                      then Str.fmt [Str.of_Z current_year; "-"; token 5%nat; "-";
                                    token 6%nat; " "; token 7%nat]
                      else Str.fmt [token 7%nat; "-"; token 5%nat; "-"; token 6%nat]);
              permissions := Some (token 0%nat) |}
  else None.

(** The lines that [strip] empties, which the loop skips, hold fewer than
    9 tokens.  With the [strip] and the [split] of Python, which agree on
    what white space is, such a line holds no token at all. *)
Definition blank_lines_hold_no_entry (lib : Py.library) (lines : list string) : bool :=
  forallb (fun line =>
             Str.truthy (Py.strip lib line) || (length (Py.split lib line) <? 9)%nat)
    lines.

Definition legacy_entries (lib : Py.library) (current_year : Z) (lines : list string)
  : list FTPFileInfo :=
  flat_map (fun line => match legacy_entry lib current_year line with
                        | Some x => [x]
                        | None => []
                        end) lines.

(** ** Normalization of the search parameters, as the claim words it *)

Definition normalized_search_depth (search_depth : string) : string :=
  if (search_depth =? "basic")%string || (search_depth =? "advanced")%string
  then search_depth else "basic".

Definition normalized_topic (topic : string) : string :=
  if (topic =? "general")%string || (topic =? "news")%string || (topic =? "finance")%string
  then topic else "general".

Definition normalized_max_results (max_results : Z) : Z :=
  if (1 <=? max_results) && (max_results <=? 20) then max_results else 5.

(** A computation that makes no call to the outside world. *)
Definition calls_preserving {Ctx A} (c : M Ctx A) : Prop :=
  forall st, calls (snd (c st)) = calls st.

(** Every value the computation returns satisfies [P]. *)
Definition returns {Ctx A} (P : A -> Prop) (c : M Ctx A) : Prop :=
  forall st a st', c st = (Ok a, st') -> P a.

(** ** The tool boundary, as the specification words it *)

(** The computation hands back a payload from every state: no exception
    leaves it. *)
Definition returns_payload {Ctx A} (c : M Ctx A) : Prop :=
  forall st, exists a st', c st = (Ok a, st').

(** ** Shutdown of the FTP server and its resources *)

Section FtpResources.

Variable remote : Oracle.

(** The [finally] block of [ftp_lifespan]: clean up all connections on
    shutdown.  [connections] is the dict the context holds. *)
Definition ftp_lifespan_shutdown : M FTPContext unit :=
  c <- get_context ;;
  for_fold (connections c) tt (fun _ item =>
    let (conn_id, ftp) := (item : string * FTP) in
    try_except
      (_ <- send remote ftp Quit ;; ret tt)
      (fun _ => try_except (send remote ftp Close) (fun _ => ret tt))) ;;
  update_context (set_connections []).

(** Resource [ftp://connections]. *)
Definition get_connections_status : M FTPContext string :=
  c <- get_context ;;
  let current := current_connection c in
  match connections c with
  | [] => ret "No active FTP connections."
  | _ :: _ =>
      status_lines <-
        for_fold (connections c) ["Active FTP Connections:"] (fun status_lines item =>
          let (conn_id, ftp) := (item : string * FTP) in
          status <- try_except
                      (_ <- send remote ftp (Voidcmd "NOOP") ;;
                       let status := "✓ Connected" in
                       ret (if option_string_eqb (Some conn_id) current
                            then String.append status " (Current)" else status))
                      (fun _ => ret "✗ Disconnected") ;;
          ret (status_lines ++ [Str.fmt ["  "; conn_id; ": "; status]])) ;;
      ret (Str.join newline status_lines)
  end.

(** Resource [ftp://current-directory]. *)
Definition get_current_directory : M FTPContext string :=
  try_except
    (ftp <- _get_current_ftp ;;
     current_dir <- send remote ftp Pwd ;;
     ret (Str.fmt ["Current directory: "; current_dir]))
    (fun e =>
       match e with
       | ValueError _ => ret (str e)
       | _ => ret (Str.fmt ["Error getting current directory: "; str e])
       end).

(** Resource [ftp://server-info]. *)
Definition get_server_info : M FTPContext string :=
  try_except
    (ftp <- _get_current_ftp ;;
     let info_lines := ["FTP Server Information:"] in
     (* Welcome message *)
     let welcome := getwelcome ftp in
     let info_lines :=
       if Str.truthy welcome then info_lines ++ [Str.fmt ["Welcome: "; welcome]]
       else info_lines in
     (* System info *)
     info_lines <-
       try_except
         (system <- send remote ftp (Sendcmd "SYST") ;;
          ret (info_lines ++ [Str.fmt ["System: "; system]]))
         (fun _ => ret (info_lines ++ ["System: Not available"])) ;;
     (* Current directory *)
     info_lines <-
       try_except
         (pwd <- send remote ftp Pwd ;;
          ret (info_lines ++ [Str.fmt ["Current Directory: "; pwd]]))
         (fun _ => ret (info_lines ++ ["Current Directory: Not available"])) ;;
     ret (Str.join newline info_lines))
    (fun e =>
       match e with
       | ValueError _ => ret (str e)
       | _ => ret (Str.fmt ["Error getting server info: "; str e])
       end).

End FtpResources.

(** A read of one of the resources of the FTP server. *)
Inductive ftp_resource : Type :=
| Connections_status
| Current_directory
| Server_info.

Definition read_resource (remote : Oracle) (r : ftp_resource) : M FTPContext string :=
  match r with
  | Connections_status => get_connections_status remote
  | Current_directory => get_current_directory remote
  | Server_info => get_server_info remote
  end.

(** ** Start-up and status of the Tavily server *)

(** The characters the [strip] of a value removes: the double and the
    single quote. *)
Definition is_quote (c : ascii) : bool :=
  Ascii.eqb c (ascii_of_nat 34) || Ascii.eqb c "'".

(** [s.split(sep, 1)] for a one-character separator that occurs in [s]:
    what precedes the first separator and what follows it. *)
Fixpoint split_once (sep : ascii) (s : string) : string * string :=
  match s with
  | EmptyString => (EmptyString, EmptyString)
  | String c r =>
      if Ascii.eqb c sep then (EmptyString, r)
      else let (k, v) := split_once sep r in (String c k, v)
  end.

(** [os.environ[key] = value], the state being the mapping [os.environ]
    holds: the platform may refuse the assignment (an empty name, a NUL),
    and keeps the value under the name it makes of [key]. *)
Definition environ_setitem (lib : Py.library) (key value : string) : M (dict string) unit :=
  match Py.setenv_error lib key value with
  | Some e => raise e
  | None => update_context (Dict.set (Py.env_name lib key) value)
  end.

(** [os.getenv(key)] *)
Definition getenv (lib : Py.library) (key : string) : M (dict string) (option string) :=
  environ <- get_context ;;
  ret (Dict.get (Py.env_name lib key) environ).

(** What the body of the loop [for line in f] of [load_env] assigns, if
    the line passes the test: the key and the value. *)
Definition env_assignment (lib : Py.library) (line : string) : option (string * string) :=
  let line := Py.strip lib line in
  if Str.truthy line && negb (Str.startswith line "#") && Str.contains "=" line then
    let (key, value) := split_once "=" line in
    (* Remove quotes if present *)
    let value := Str.strip is_quote value in
    Some (key, value)
  else None.

(** Body of the loop [for line in f] of [load_env]. *)
Definition load_env_line (lib : Py.library) (line : string) : M (dict string) unit :=
  match env_assignment lib line with
  | Some (key, value) => environ_setitem lib key value
  | None => ret tt
  end.

(** [load_env()]: [env_file] holds the lines of the [.env] file next to
    the server, [None] when there is no such file.  An assignment that
    raises ends the loading, and with it the import of the module. *)
Definition load_env (lib : Py.library) (env_file : option (list string))
  : M (dict string) unit :=
  match env_file with
  | Some lines => for_fold lines tt (fun _ line => load_env_line lib line)
  | None => ret tt
  end.

(** The context the server starts with: [load_env()] at import, then
    [tavily_lifespan] reads the key from the environment. *)
Definition tavily_startup (lib : Py.library) (env_file : option (list string))
  : M (dict string) TavilyContext :=
  load_env lib env_file ;;
  api_key <- getenv lib "TAVILY_API_KEY" ;;
  ret (tavily_lifespan api_key).

(** A line of the [.env] file that loads without error and leaves the
    variable [name] as it is. *)
Definition passes_over (lib : Py.library) (name line : string) : bool :=
  match env_assignment lib line with
  | Some (key, value) =>
      negb (Py.env_name lib key =? Py.env_name lib name)%string &&
      match Py.setenv_error lib key value with None => true | Some _ => false end
  | None => true
  end.

(** [s[:n]] and [s[-n:]] *)
Definition first_chars (n : nat) (s : string) : string := substring 0 n s.
Definition last_chars (n : nat) (s : string) : string :=
  substring (String.length s - n) n s.

(** Resource [tavily://status]; it reads the key from the environment and
    tests it with a search of its own. *)
Definition get_tavily_status {Ctx} (remote : Oracle) (environ : dict string) : M Ctx string :=
  try_except
    (let api_key := Dict.get "TAVILY_API_KEY" environ in
     if negb (truthy_opt api_key) then
       ret (Str.fmt ["âŒ Tavily API Status: No API key configured"; newline;
                     "Set TAVILY_API_KEY environment variable"])
     else
       let api_key := match api_key with Some k => k | None => "" end in
       (* Test the connection with a simple search *)
       test_result <- request remote
                        (Tavily (Search [("query", VStr "test"); ("max_results", VInt 1)])) ;;
       ret (Str.fmt ["âœ… Tavily API Status: Connected and working"; newline;
                     "API Key: "; first_chars 8 api_key; "..."; last_chars 4 api_key]))
    (fun e =>
       ret (Str.fmt ["âŒ Tavily API Status: Connection failed"; newline;
                     "Error: "; str e])).

(** ** Sequences of tool invocations *)

(** A computation that leaves the lifespan context as it found it and
    creates no object. *)
Definition context_preserving {Ctx A} (c : M Ctx A) : Prop :=
  forall st,
    lifespan_context (snd (c st)) = lifespan_context st /\
    next_handle (snd (c st)) = next_handle st.

(** The session objects registered, in the order of their ids. *)
Definition sessions (c : FTPContext) : list nat :=
  map (fun kv => handle (snd kv)) (connections c).

(** The registry is sound: the ids are pairwise distinct,
    [current_connection] is [None] or one of them, no two ids share a
    session object, and every registered object was created earlier. *)
Definition registry_sound (st : State FTPContext) : Prop :=
  NoDup (Dict.keys (connections (lifespan_context st))) /\
  registry_invariant (lifespan_context st) /\
  NoDup (sessions (lifespan_context st)) /\
  Forall (fun h => (h < next_handle st)%nat) (sessions (lifespan_context st)).

(** The tools that manage the registry of connections. *)
Definition manages_registry (i : ftp_invocation) : bool :=
  match i with
  | Ftp_connect _ _ _ _ _ _ _ | Ftp_disconnect _ | Ftp_switch_connection _ => true
  | _ => false
  end.

Section Invocations.

Variable remote : Oracle.
Variable now : list call -> datetime.
Variable strptime_strftime : string -> string -> string -> option string.
Variable b64decode : string -> result string.
Variable b64encode : string -> string.
Variable encode : string -> string -> result string.
Variable decode : string -> string -> result string.
Variable lib : Py.library.

(** The state after a sequence of invocations of the tools. *)
Definition run_invocations (l : list ftp_invocation) (st : State FTPContext)
  : State FTPContext :=
  fold_left
    (fun st i =>
       snd (invoke remote now strptime_strftime b64decode b64encode encode decode lib i st))
    l st.

End Invocations.

(** The session object a call is addressed to. *)
Definition call_handle (c : call) : option nat :=
  match c with
  | Call e _ => match e with Ftp h _ => Some h | _ => None end
  end.

Definition addressed_to (h : nat) (c : call) : bool :=
  match call_handle c with Some h' => Nat.eqb h' h | None => false end.

(** The status [ftp_list_connections] reports for the connection
    [conn_id] whose NOOP had the outcome [r]. *)
Definition noop_status (current : option string) (conn_id : string) (r : result string)
  : string :=
  match r with
  | Ok _ => if option_string_eqb (Some conn_id) current then "Active (Current)" else "Active"
  | Raise _ => "Disconnected"
  end.

(** What the shutdown sends to one session: QUIT and, when that raised,
    the closing of the socket. *)
Definition shutdown_calls (ftp : FTP) (l : list call) : Prop :=
  (exists reply, l = [Call (Ftp (handle ftp) Quit) (Ok reply)]) \/
  (exists e r, l = [Call (Ftp (handle ftp) Quit) (Raise e); Call (Ftp (handle ftp) Close) r]).

(** The tools that work on the current connection. *)
Definition needs_connection (i : ftp_invocation) : bool :=
  match i with
  | Ftp_connect _ _ _ _ _ _ _ | Ftp_disconnect _ | Ftp_list_connections
  | Ftp_switch_connection _ => false
  | _ => true
  end.

(** The texts a payload carries. *)
Definition payload_texts (p : payload) : list string :=
  match p with
  | Text s => [s]
  | Struct d => flat_map (fun kv => match snd kv with VStr s => [s] | _ => [] end) d
  | Strings d => map snd d
  | _ => []
  end.

Definition mentions (msg : string) (p : payload) : bool :=
  existsb (Str.contains msg) (payload_texts p).

(** The text each connection-dependent tool puts before the error it
    logs. *)
Definition error_prefix (i : ftp_invocation) : string :=
  match i with
  | Ftp_pwd => "Error getting current directory: "
  | Ftp_cwd _ => "Error changing directory: "
  | Ftp_explore_directory _ => "Error exploring directory: "
  | Ftp_list_directory _ _ => "Error listing directory: "
  | Ftp_mkdir _ => "Error creating directory: "
  | Ftp_rmdir _ => "Error removing directory: "
  | Ftp_delete_file _ => "Error deleting file: "
  | Ftp_rename _ _ => "Error renaming: "
  | Ftp_upload_file _ _ _ => "Error uploading file: "
  | Ftp_upload_content _ _ _ _ => "Error uploading content: "
  | Ftp_download_file _ _ _ => "Error downloading file: "
  | Ftp_download_content _ _ _ _ => "Error downloading content: "
  | Ftp_get_file_size _ => "Error getting file size: "
  | Ftp_set_passive_mode _ => "Error setting FTP mode: "
  | Ftp_get_system_info => "Error getting system info: "
  | Ftp_send_noop => "Error sending NOOP: "
  | Ftp_get_modification_time _ => "Error getting modification time: "
  | Ftp_create_directory_tree _ => "Error creating directory tree: "
  | Ftp_transfer_progress _ => "Error getting transfer info: "
  | Ftp_connect _ _ _ _ _ _ _ | Ftp_disconnect _ | Ftp_list_connections
  | Ftp_switch_connection _ => ""
  end.

(** The number of entries of a kind in a listing. *)
Definition count_type (t : string) (l : list FTPFileInfo) : Z :=
  Z.of_nat (length (filter (fun x => (type x =? t)%string) l)).

(** The counters of a listing agree with its entries. *)
Definition counts_agree (l : list FTPFileInfo) (n_files n_directories : Z) : Prop :=
  n_directories = count_type "directory" l /\
  n_files = count_type "file" l /\
  n_files + n_directories = Z.of_nat (length l).

(** The text of a reply, or of the error behind a prefix. *)
Definition reply_or (prefix : string) (r : result string) : string :=
  match r with
  | Ok reply => reply
  | Raise e => Str.fmt [prefix; str e]
  end.

(** A call that looks for a local directory or creates one. *)
Definition touches_local_directory (c : call) : bool :=
  match c with
  | Call e _ =>
      match e with
      | Os c => match c with Path_exists _ | Makedirs _ => true | _ => false end
      | _ => false
      end
  end.

(** An extraction result is either a success without an error text or a
    failure with one. *)
Definition extract_consistent (item : TavilyExtractItem) : bool :=
  if extract_success item
  then match extract_error item with None => true | Some _ => false end
  else match extract_error item with None => false | Some _ => true end.

(** One [client.extract] request per URL, with its outcome. *)
Definition extract_calls (urls : list string) (replies : list (result value)) : list call :=
  map (fun p => Call (Tavily (Extract [fst p])) (snd p)) (combine urls replies).

(** The text [_get_tavily_client] raises without a key. *)
Definition key_not_found : string :=
  "Tavily API key not found. Please set TAVILY_API_KEY environment variable.".

(** A call that is not addressed to a session other than [h]: a command
    sent to [h], or a call to the local system. *)
Definition within_session (h : nat) (c : call) : bool :=
  match call_handle c with Some h' => Nat.eqb h' h | None => true end.

(** A computation whose calls are added to the history and stay within
    the session [h]. *)
Definition calls_confined {Ctx A} (h : nat) (c : M Ctx A) : Prop :=
  forall st, exists l, calls (snd (c st)) = l ++ calls st /\ forallb (within_session h) l = true.

(** Exactly one of the keys ["error"] and [key] is present. *)
Definition error_or {V} (key : string) (d : dict V) : bool :=
  xorb (Dict.mem "error" d) (Dict.mem key d).

(** ** Failures and how a payload encodes them *)

(** The error a call ended with. *)
Definition failure (c : call) : option exn :=
  match c with
  | Call _ r => match r with Raise e => Some e | Ok _ => None end
  end.

(** The error of the last call of a history (newest call first), when
    that call failed. *)
Definition last_failure (l : list call) : option exn :=
  match l with
  | c :: _ => failure c
  | [] => None
  end.

Definition is_error_perm (e : exn) : bool :=
  match e with error_perm _ => true | _ => false end.

(** [p[key] is False] for a payload that is a dict. *)
Definition is_false (key : string) (p : payload) : bool :=
  match p with
  | Struct d => match Dict.get key d with Some (VBool false) => true | _ => false end
  | _ => false
  end.

(** How the payload [p] of the tool [i] tells that the last request of the
    tool failed with [e]: it carries the text of [e]; or, for
    [ftp_list_connections], the status "Disconnected"; for the probe of the
    parent directory in [ftp_explore_directory], [can_go_up] is false; for
    [ftp_get_file_size], the text the tool has for what is not a regular
    file.  [ftp_create_directory_tree] passes over an error that says the
    directory exists: that is no failure to it. *)
Definition encodes_failure (i : ftp_invocation) (e : exn) (p : payload) : bool :=
  match i with
  | Ftp_list_connections => mentions "Disconnected" p
  | Ftp_explore_directory _ => mentions (str e) p || is_false "can_go_up" p
  | Ftp_get_file_size _ =>
      mentions (str e) p || mentions "Not a regular file (possibly a directory)" p
  | Ftp_create_directory_tree _ => mentions (str e) p || is_exists_error e
  | _ => mentions (str e) p
  end.

(** The errors [ftp_list_directory] raises again when its last request
    ended with them: all of them in a detailed listing; in a simple
    listing all but the permission-class ones, with which the probe of a
    name makes the name a file. *)
Definition listing_reraises (detailed : bool) (e : exn) : bool :=
  detailed || negb (is_error_perm e).

(** A computation that raises the error of its last call when that call
    failed with an error of the class [Q]. *)
Definition propagates {Ctx A} (Q : exn -> bool) (c : M Ctx A) : Prop :=
  forall st,
  exists l,
    calls (snd (c st)) = l ++ calls st /\
    forall e, last_failure l = Some e -> Q e = true -> fst (c st) = Raise e.

(** A computation that hands back a payload which, when the last call
    failed, encodes the failure. *)
Definition failure_encoded {Ctx} (encodes : exn -> payload -> bool) (c : M Ctx payload)
  : Prop :=
  forall st,
  exists l p,
    calls (snd (c st)) = l ++ calls st /\
    fst (c st) = Ok p /\
    forall e, last_failure l = Some e -> encodes e p = true.

(** ** An example library

    A [Py.library] to run the tools on examples, made of functions that
    look at the ASCII range only ([Str.lower], [Str.is_space],
    [Str.split_ws], [demo_int]) and of stand-ins.  The theorems do not
    depend on it: they hold for every library. *)

(** [int(s)] for a decimal literal in ASCII: optional sign, digits, single
    underscores between digits, white space around. *)
Definition digit_val (c : ascii) : option Z :=
  let n := nat_of_ascii c in
  if ((48 <=? n) && (n <=? 57))%nat then Some (Z.of_nat (n - 48)) else None.

Fixpoint parse_digits (acc : Z) (after_digit : bool) (s : string) : option Z :=
  match s with
  | EmptyString => if after_digit then Some acc else None
  | String c r =>
      match digit_val c with
      | Some d => parse_digits (acc * 10 + d) true r
      | None =>
          if Ascii.eqb c "_" && after_digit then parse_digits acc false r else None
      end
  end.

Definition demo_int (s : string) : option Z :=
  match Str.strip Str.is_space s with
  | String "+" r => parse_digits 0 false r
  | String "-" r => option_map Z.opp (parse_digits 0 false r)
  | t => parse_digits 0 false t
  end.

(** A duration in microseconds printed with two decimals. *)
Definition demo_format_2f (us : Z) : string :=
  let cs := (us + 5000) / 10000 in
  let frac := cs mod 100 in
  Str.fmt [Str.of_Z (cs / 100); "."; if frac <? 10 then "0" else ""; Str.of_Z frac].

Definition demo_validate_float (v : value) : option value :=
  match v with
  | VFloat _ | VInt _ => Some v
  | _ => None
  end.

Definition demo_lib : Py.library :=
  {| Py.lower := Str.lower;
     Py.strip := Str.strip Str.is_space;
     Py.split := Str.split_ws;
     Py.int := demo_int;
     Py.int_error := fun s => Str.fmt ["invalid literal for int() with base 10: '"; s; "'"];
     Py.strptime_error := fun s f =>
       Str.fmt ["time data '"; s; "' does not match format '"; f; "'"];
     Py.format_2f := demo_format_2f;
     Py.validate_float := demo_validate_float;
     Py.setenv_error := fun key _ =>
       if Str.truthy key then None else Some (OtherError "[Errno 22] Invalid argument");
     Py.env_name := fun key => key |}.

(** ** Example servers

    Concrete oracles on which the tools are run.  [demo_ftp legacy] accepts
    the password "secret"; it has a directory with the entries [sub] (a
    directory), [a.txt] and [B.txt], a file [big.bin] of 2 MiB, and refuses
    to create what lies under [x1]; with [legacy] set it knows neither MLSD
    nor SIZE. *)

Definition demo_mlsd : list (string * facts) :=
  [(".", [("type", "cdir")]);
   ("..", [("type", "pdir")]);
   ("a.txt", [("type", "file"); ("size", "12"); ("modify", "20240131120000")]);
   ("sub", [("type", "dir"); ("perm", "el")]);
   ("B.txt", [("type", "file"); ("size", "7")])].

Definition demo_list : list string :=
  ["total 12";
   "drwxr-xr-x   2 alice staff     4096 Jan 31  2023 .";
   "drwxr-xr-x   5 alice staff     4096 Jan 31  2023 ..";
   "-rw-r--r--   1 alice staff       12 Jan 31 12:00 a.txt";
   "drwxr-xr-x   2 alice staff     4096 Mar  1  2023 sub";
   "-rw-r--r--   1 alice staff        7 Feb  2 08:15 B file.txt"].

Definition demo_ftp (legacy : bool) (X : Type) (m : ftpE X) : result X :=
  match m in ftpE X return result X with
  | Connect _ _ _ => Ok "220 Service ready"
  | Login _ passwd =>
      if (passwd =? "secret")%string then Ok "230 Login successful."
      else Raise (error_perm "530 Login incorrect.")
  | Quit => Ok "221 Goodbye."
  | Close => Ok tt
  | Set_pasv _ => Ok tt
  | Voidcmd _ => Ok "200 OK"
  | Sendcmd cmd => Ok (Str.fmt ["211 "; cmd])
  | Pwd => Ok "/home/alice"
  | Cwd dirname =>
      if Str.contains ".txt" dirname then Raise (error_perm "550 Not a directory.")
      else Ok "250 OK"
  | Mlsd =>
      if legacy then Raise (error_perm "500 Unknown command.") else Ok demo_mlsd
  | Nlst => Ok ["."; ".."; "a.txt"; "sub"; "B.txt"]
  | Retrlines _ => Ok demo_list
  | Retrbinary _ => Ok "hello, world"
  | Storbinary _ _ => Ok "226 Transfer complete."
  | Storlines _ _ => Ok "226 Transfer complete."
  | Mkd dirname =>
      if (dirname =? "a")%string then Raise (error_perm "550 a: File exists.")
      else if Str.startswith dirname "x1/" then Raise (error_perm "550 Permission denied.")
      else Ok dirname
  | Rmd _ => Ok "250 OK"
  | Delete _ => Ok "250 OK"
  | Rename _ _ => Ok "250 OK"
  | Size filename =>
      if legacy then Raise (error_perm "500 Unknown command.")
      else if (filename =? "big.bin")%string then Ok (Some 2097152)
      else if (filename =? "empty")%string then Ok (Some 0)
      else Ok (Some 12)
  end.

Definition demo_os (X : Type) (c : osE X) : result X :=
  match c in osE X return result X with
  | Path_exists _ => Ok true
  | Path_isfile _ => Ok true
  | Path_getsize _ => Ok 12
  | Makedirs _ => Ok tt
  | Open_file _ _ => Ok tt
  | Read_file _ => Ok "hello, world"
  | Write_file _ _ => Ok tt
  end.

Definition demo_search_data : value :=
  VDict [("answer", VStr "Rocq is a proof assistant.");
         ("results",
          VList [VDict [("title", VStr "Rocq"); ("url", VStr "https://rocq-prover.org");
                        ("content", VStr "The Rocq Prover"); ("score", VFloat "0.98")]])].

Definition demo_tavily (X : Type) (c : tavE X) : result X :=
  match c in tavE X return result X with
  | Search _ => Ok demo_search_data
  | Extract _ => Ok (VDict [("results", VList [VDict [("title", VStr "Rocq")]])])
  | Get_search_context _ => Ok (VStr "The Rocq Prover is a proof assistant")
  | Qna_search _ => Ok (VStr "A proof assistant.")
  end.

Definition demo_remote (legacy : bool) : Oracle :=
  fun X _ e =>
    match e in ev X return result X with
    | Ftp _ m => demo_ftp legacy _ m
    | Os c => demo_os _ c
    | Tavily c => demo_tavily _ c
    end.

(** A server that answers every command with a transient error. *)
Definition busy_remote : Oracle :=
  fun X _ _ => Raise (OtherError "450 File exists, try again later.").

(** A remote side that no longer answers. *)
Definition dead_remote : Oracle :=
  fun X _ _ => Raise (OtherError "timed out").

Definition demo_now (history : list call) : datetime :=
  {| year := 2024; timestamp_us := 1700000000000000 + 250000 * Z.of_nat (length history) |}.

Definition demo_strptime_strftime (s fmt_in fmt_out : string) : option string :=
  if (s =? "20240131120000")%string then Some "2024-01-31 12:00:00" else None.

(** Stand-ins for the codecs: text that is already ASCII. *)
Definition demo_b64decode (s : string) : result string := Ok s.
Definition demo_b64encode (s : string) : string := s.
Definition demo_encode (s encoding : string) : result string := Ok s.
Definition demo_decode (s encoding : string) : result string := Ok s.

(** The state after a successful [ftp_connect] of "s1" from start-up. *)
Definition demo_state (legacy : bool) : State FTPContext :=
  snd (ftp_connect (demo_remote legacy) "s1" "ftp.example.org" "alice" "secret" 21 true 30
         (initial_state ftp_lifespan)).

(** A server on which the commands that list a directory time out. *)
Definition stalling_remote : Oracle :=
  fun X history e =>
    match e in ev X return result X with
    | Ftp _ m =>
        match m in ftpE X return result X with
        | Mlsd => Raise (OtherError "timed out")
        | Nlst => Raise (OtherError "timed out")
        | m' => demo_ftp false _ m'
        end
    | e' => demo_remote false _ history e'
    end.

(** A server whose MLSD reply holds a size that is not a number. *)
Definition garbled_remote : Oracle :=
  fun X history e =>
    match e in ev X return result X with
    | Ftp _ m =>
        match m in ftpE X return result X with
        | Mlsd => Ok [("sub", [("type", "dir")]);
                      ("a.txt", [("type", "file"); ("size", "12 bytes")]);
                      ("b.txt", [("type", "file"); ("size", "7")])]
        | m' => demo_ftp false _ m'
        end
    | e' => demo_remote false _ history e'
    end.

(** * Properties *)

(** ** The string operations on examples *)

Example split_path : Str.split "/" (Str.strip (Ascii.eqb "/") "/a/b//c/") = ["a"; "b"; ""; "c"].
Proof. reflexivity. Qed.

Example split_ws_line :
  Str.split_ws "  drwxr-xr-x   2 u g  4096 Jan  1 12:30 my dir " =
  ["drwxr-xr-x"; "2"; "u"; "g"; "4096"; "Jan"; "1"; "12:30"; "my"; "dir"].
Proof. reflexivity. Qed.

Example lower_mixed : Str.lower "File EXISTS 550" = "file exists 550".
Proof. reflexivity. Qed.

Example contains_exists : Str.contains "exists" "550 file exists." = true.
Proof. reflexivity. Qed.

Example of_Z_neg : Str.of_Z (-2097152) = "-2097152".
Proof. reflexivity. Qed.

Example demo_int_examples :
  demo_int " 4096 " = Some 4096 /\ demo_int "-1_000" = Some (-1000) /\
  demo_int "12x" = None /\ demo_int "" = None /\ demo_int "1__0" = None.
Proof. repeat split; reflexivity. Qed.

Example path_examples :
  basename "/var/tmp/a.txt" = "a.txt" /\ dirname "/var/tmp/a.txt" = "/var/tmp" /\
  dirname "a.txt" = "" /\ dirname "/a.txt" = "/" /\ basename "dir/" = "".
Proof. repeat split; reflexivity. Qed.

Example cumulative_prefixes_example :
  cumulative_prefixes "/a//b/c/" = ["a"; "a/b"; "a/b/c"].
Proof. reflexivity. Qed.

Example legacy_entry_example :
  legacy_entry demo_lib 2024 "-rw-r--r--   1 alice staff        7 Feb  2 08:15 B file.txt" =
  Some {| name := "B file.txt"; type := "file"; size := Some 7;
          modified := Some "2024-Feb-2 08:15"; permissions := Some "-rw-r--r--" |}.
Proof. vm_compute. reflexivity. Qed.

(** ** The tools on the example servers *)

(** After a successful connect the session is listed as the current one. *)
Example connect_then_list_connections :
  fst (ftp_list_connections (demo_remote false) (demo_state false))
  = Ok [("s1", "Active (Current)")].
Proof. vm_compute. reflexivity. Qed.

(** Disconnecting without any connection changes nothing. *)
Example disconnect_without_connection :
  ftp_disconnect (demo_remote false) None (initial_state ftp_lifespan)
  = (Ok "No active connection to disconnect", initial_state ftp_lifespan).
Proof. vm_compute. reflexivity. Qed.

(** The bare name listing probes each name with CWD. *)
Example simple_listing :
  match fst (ftp_list_directory (demo_remote false) demo_now demo_strptime_strftime demo_lib
               None false (demo_state false)) with
  | Ok listing => map (fun x => (name x, type x)) (files listing)
  | Raise _ => []
  end = [("sub", "directory"); ("a.txt", "file"); ("B.txt", "file")].
Proof. vm_compute. reflexivity. Qed.

(** A download within the bound returns the content. *)
Example download_within_bound :
  fst (ftp_download_content (demo_remote false) demo_b64encode demo_decode
         "a.txt" false "utf-8" 10 (demo_state false))
  = Ok [("content", VStr "hello, world"); ("size", VInt 12);
        ("binary_mode", VBool false); ("encoding", VStr "utf-8")].
Proof. vm_compute. reflexivity. Qed.

(** ** Dicts *)

Section DictFacts.
Context {V : Type}.
Implicit Types (d : dict V) (k : string) (v : V).

Lemma mem_set_same k v d : Dict.mem k (Dict.set k v d) = true.
Proof.
  unfold Dict.mem. induction d as [|[k' v'] d IH]; simpl.
  - now rewrite String.eqb_refl.
  - destruct (k' =? k)%string eqn:E; simpl.
    + now rewrite String.eqb_refl.
    + now rewrite E.
Qed.

Lemma mem_del_other k k' d :
  k' <> k -> Dict.mem k' d = true -> Dict.mem k' (Dict.del k d) = true.
Proof.
  unfold Dict.mem, Dict.del. intros Hne.
  induction d as [|[k0 v0] d IH]; simpl; [discriminate|].
  destruct (k0 =? k')%string eqn:E.
  - apply String.eqb_eq in E; subst k0.
    intros _. apply String.eqb_neq in Hne. rewrite Hne; simpl.
    now rewrite String.eqb_refl.
  - intros H. destruct (k0 =? k)%string; simpl; [now apply IH|].
    rewrite E. now apply IH.
Qed.

Lemma mem_hd_keys k d : hd_error (Dict.keys d) = Some k -> Dict.mem k d = true.
Proof.
  unfold Dict.mem. destruct d as [|[k0 v0] d]; simpl; [discriminate|].
  intros [= ->]. now rewrite String.eqb_refl.
Qed.

Lemma mem_get k d v : Dict.get k d = Some v -> Dict.mem k d = true.
Proof. unfold Dict.mem. now intros ->. Qed.

Lemma mem_In_keys k d : Dict.mem k d = true <-> In k (Dict.keys d).
Proof.
  unfold Dict.mem. induction d as [|[k0 v0] d IH]; simpl.
  - split; [discriminate | tauto].
  - destruct (k0 =? k)%string eqn:E.
    + apply String.eqb_eq in E. tauto.
    + apply String.eqb_neq in E. rewrite IH. tauto.
Qed.

(** After [del d[k]] the key is gone. *)
Lemma mem_del_same k d : Dict.mem k (Dict.del k d) = false.
Proof.
  unfold Dict.mem, Dict.del. induction d as [|[k0 v0] d IH]; simpl; [reflexivity|].
  destruct (k0 =? k)%string eqn:E; simpl; [exact IH|]. now rewrite E.
Qed.

End DictFacts.

Lemma option_string_eqb_eq a b : option_string_eqb a b = true <-> a = b.
Proof.
  destruct a as [x|], b as [y|]; simpl; split; intros H;
    try discriminate; try reflexivity.
  - apply String.eqb_eq in H. congruence.
  - injection H as ->. apply String.eqb_refl.
Qed.

(** ** Running the monad *)

(** Unfolds the monad operations so that a tool body, run from a state
    given by its components, becomes a cascade of matches on what the
    oracle answers. *)
Ltac run :=
  cbv beta iota zeta delta
    [send set_pasv getwelcome request perform info warning error log fresh_handle
     update_context get_context datetime_now lift try_except bind ret raise record
     lifespan_context calls messages next_handle] in *.

(** Case analysis on the next answer of the oracle. *)
Ltac answer :=
  match goal with
  | |- context [match ?r ?X ?h ?e with Ok _ => _ | Raise _ => _ end] =>
      destruct (r X h e) as [?|[?|?|?]] eqn:?; simpl
  end.

(** ** The registry invariant (C1) *)

Lemma ftp_connect_invariant remote connection_id host username password port passive timeout st :
  registry_invariant (lifespan_context st) ->
  registry_invariant (lifespan_context
    (snd (ftp_connect remote connection_id host username password port passive timeout st))).
Proof.
  intros H. destruct st as [c cs ms n]. unfold ftp_connect. run.
  answer; auto. answer; auto.
  unfold registry_invariant; simpl. apply mem_set_same.
Qed.

Lemma ftp_disconnect_cases remote connection_id st :
  let (r, st') := ftp_disconnect remote connection_id st in
  (lifespan_context st' = lifespan_context st /\
   forall id, r <> Ok (Str.fmt ["Successfully disconnected from "; id])) \/
  (exists id,
     disconnect_target connection_id (lifespan_context st) = Some id /\
     Dict.mem id (connections (lifespan_context st)) = true /\
     r = Ok (Str.fmt ["Successfully disconnected from "; id]) /\
     lifespan_context st' = after_disconnect id (lifespan_context st)).
Proof.
  destruct st as [c cs ms n].
  unfold ftp_disconnect, disconnect_target, after_disconnect. run.
  destruct (match connection_id with
            | Some _ => connection_id
            | None => current_connection c
            end) as [cid|]; simpl.
  2: { left. split; auto. intros id. discriminate. }
  destruct (Str.truthy cid); simpl.
  2: { left. split; auto. intros id. discriminate. }
  destruct (Dict.get cid (connections c)) as [ftp|] eqn:Hget; simpl.
  2: { left. split; auto. intros id. discriminate. }
  assert (Hmem := mem_get _ _ _ Hget).
  repeat (simpl; match goal with
    | |- context [match ?r ?X ?h ?e with Ok _ => _ | Raise _ => _ end] =>
        destruct (r X h e) as [?|?] eqn:?
    | |- context [if ?b then _ else _] => destruct b eqn:?
    end);
  simpl;
  first [ left; split; [reflexivity | intros; discriminate]
        | right; exists cid; repeat split; auto;
          match goal with H : option_string_eqb _ _ = _ |- _ => now rewrite H end ].
Qed.

Lemma after_disconnect_invariant id c :
  registry_invariant c -> registry_invariant (after_disconnect id c).
Proof.
  unfold after_disconnect, registry_invariant. simpl.
  destruct (option_string_eqb _ _) eqn:E; simpl.
  - intros _. destruct (hd_error _) as [k|] eqn:Hk; auto. now apply mem_hd_keys.
  - destruct (current_connection c) as [cur|]; auto.
    intros H. apply mem_del_other; auto. intros ->.
    simpl in E. now rewrite String.eqb_refl in E.
Qed.

Lemma ftp_disconnect_invariant remote connection_id st :
  registry_invariant (lifespan_context st) ->
  registry_invariant (lifespan_context (snd (ftp_disconnect remote connection_id st))).
Proof.
  intros H. generalize (ftp_disconnect_cases remote connection_id st).
  destruct (ftp_disconnect remote connection_id st) as [r st']. simpl.
  intros [[-> _]|(id & _ & _ & _ & ->)]; auto using after_disconnect_invariant.
Qed.

Lemma ftp_switch_connection_invariant remote connection_id st :
  registry_invariant (lifespan_context st) ->
  registry_invariant (lifespan_context (snd (ftp_switch_connection remote connection_id st))).
Proof.
  intros H. destruct st as [c cs ms n]. unfold ftp_switch_connection. run.
  destruct (Dict.get connection_id _) as [ftp|] eqn:Hget; simpl; auto.
  answer; auto.
  unfold registry_invariant; simpl. eapply mem_get; eauto.
Qed.

Lemma run_op_invariant remote op st :
  registry_invariant (lifespan_context st) ->
  registry_invariant (lifespan_context (snd (run_op remote op st))).
Proof.
  destruct op; simpl;
    auto using ftp_connect_invariant, ftp_disconnect_invariant,
      ftp_switch_connection_invariant.
Qed.

Lemma run_ops_invariant remote ops st :
  registry_invariant (lifespan_context st) ->
  registry_invariant (lifespan_context (run_ops remote ops st)).
Proof.
  revert st. induction ops as [|op ops IH]; intros st H; simpl; auto.
  apply IH. now apply run_op_invariant.
Qed.

(** C1.  Whatever the remote side answers, after every operation of every
    sequence of [ftp_connect], [ftp_disconnect] and [ftp_switch_connection]
    run from the start-up context, [current_connection] is [None] or a key
    of [connections]. *)
Theorem registry_invariant_after_every_operation :
  forall (remote : Oracle) (ops : list registry_op) (n : nat),
    registry_invariant
      (lifespan_context (run_ops remote (firstn n ops) (initial_state ftp_lifespan))).
Proof.
  intros remote ops n. apply run_ops_invariant. exact I.
Qed.


(** ** Connect is atomic on failure (C2) *)

(** C2.  When opening the transport or authenticating raises, [ftp_connect]
    leaves the context as it was (no entry added, [current_connection]
    unchanged) and returns the failure text: "Authentication failed" for a
    permission-class error, "Connection failed" otherwise.  From the
    start-up context, both [connections] and [current_connection] are
    still empty afterwards. *)
Theorem ftp_connect_atomic_on_failure :
  forall (remote : Oracle) (st : State FTPContext)
         (connection_id host username password : string)
         (port : Z) (passive : bool) (timeout : Z) (e : exn),
    let h := next_handle st in
    let opening := Ftp h (Connect host port timeout) in
    (remote _ (calls st) opening = Raise e \/
     exists greeting,
       remote _ (calls st) opening = Ok greeting /\
       remote _ (Call (Ftp h (Set_pasv passive)) (Ok tt)
                   :: Call opening (Ok greeting) :: calls st)
         (Ftp h (Login username password)) = Raise e) ->
    let (r, st') :=
      ftp_connect remote connection_id host username password port passive timeout st in
    lifespan_context st' = lifespan_context st /\
    r = Ok (match e with
            | error_perm msg => Str.fmt ["Authentication failed: "; msg]
            | _ => Str.fmt ["Connection failed: "; str e]
            end) /\
    (lifespan_context st = ftp_lifespan ->
     connections (lifespan_context st') = [] /\
     current_connection (lifespan_context st') = None).
Proof.
  intros remote st connection_id host username password port passive timeout e h opening H.
  subst h opening. destruct st as [c cs ms n]. unfold ftp_connect. run.
  destruct H as [H|(greeting & H1 & H2)].
  - rewrite H.
    destruct e; simpl;
      (split; [reflexivity | split; [reflexivity | intros ->; split; reflexivity]]).
  - rewrite H1; simpl. rewrite H2.
    destruct e; simpl;
      (split; [reflexivity | split; [reflexivity | intros ->; split; reflexivity]]).
Qed.

Lemma ftp_connect_atomic_on_failure_witness :
  let (r, st') :=
    ftp_connect (demo_remote false) "s1" "ftp.example.org" "alice" "wrong" 21 true 30
      (initial_state ftp_lifespan) in
  lifespan_context st' = ftp_lifespan /\
  r = Ok "Authentication failed: 530 Login incorrect." /\
  (ftp_lifespan = ftp_lifespan ->
   connections (lifespan_context st') = [] /\
   current_connection (lifespan_context st') = None).
Proof.
  apply (ftp_connect_atomic_on_failure (demo_remote false) (initial_state ftp_lifespan)
           "s1" "ftp.example.org" "alice" "wrong" 21 true 30
           (error_perm "530 Login incorrect.")).
  right. exists "220 Service ready". split; vm_compute; reflexivity.
Defined.

(** ** Switching to a dead session (C8) *)

(** C8.  [ftp_switch_connection id]: when [id] is not a key of
    [connections] the result is the not-found message and nothing changes;
    when the NOOP probe raises, the result is the no-longer-active message
    and the context is unchanged; when the probe succeeds, and only then,
    [current_connection] becomes [id]. *)
Theorem ftp_switch_connection_cases :
  forall (remote : Oracle) (st : State FTPContext) (connection_id : string),
    let (r, st') := ftp_switch_connection remote connection_id st in
    match Dict.get connection_id (connections (lifespan_context st)) with
    | None =>
        r = Ok (Str.fmt ["Connection '"; connection_id; "' not found"]) /\ st' = st
    | Some ftp =>
        match remote _ (calls st) (Ftp (handle ftp) (Voidcmd "NOOP")) with
        | Raise e =>
            r = Ok (Str.fmt ["Connection '"; connection_id; "' is no longer active: "; str e]) /\
            lifespan_context st' = lifespan_context st
        | Ok _ =>
            r = Ok (Str.fmt ["Switched to connection '"; connection_id; "'"]) /\
            connections (lifespan_context st') = connections (lifespan_context st) /\
            current_connection (lifespan_context st') = Some connection_id
        end
    end.
Proof.
  intros remote st connection_id. destruct st as [c cs ms n].
  unfold ftp_switch_connection. run.
  destruct (Dict.get connection_id _) as [ftp|]; simpl; [|now split].
  destruct (remote string cs _) as [a|e]; simpl; repeat split; reflexivity.
Qed.

(** ** Promotion of the current connection on disconnect (C9) *)

(** C9.  After a successful [ftp_disconnect] of the session [id], the entry
    [id] is removed; when [id] was the current connection,
    [current_connection] becomes the first remaining key in insertion
    order, or [None] when none remains; otherwise it is unchanged. *)
Theorem ftp_disconnect_promotes_first_remaining :
  forall (remote : Oracle) (st : State FTPContext) (connection_id : option string)
         (id : string),
    fst (ftp_disconnect remote connection_id st) =
      Ok (Str.fmt ["Successfully disconnected from "; id]) ->
    let c := lifespan_context st in
    let c' := lifespan_context (snd (ftp_disconnect remote connection_id st)) in
    disconnect_target connection_id c = Some id /\
    In id (Dict.keys (connections c)) /\
    connections c' = Dict.del id (connections c) /\
    (current_connection c = Some id ->
     current_connection c' = hd_error (Dict.keys (connections c'))) /\
    (current_connection c <> Some id ->
     current_connection c' = current_connection c).
Proof.
  intros remote st connection_id id H c c'. subst c c'.
  generalize (ftp_disconnect_cases remote connection_id st).
  destruct (ftp_disconnect remote connection_id st) as [r st']. simpl in *.
  intros [[_ Hno]|(id' & Ht & Hmem & Hr & Hc)]; [now elim (Hno id)|].
  assert (id' = id) as ->.
  { rewrite Hr in H. unfold Str.fmt in H. simpl in H. now injection H. }
  rewrite Hc. unfold after_disconnect. simpl.
  split; [exact Ht|]. split; [now apply mem_In_keys|].
  destruct (option_string_eqb _ _) eqn:E; simpl.
  - apply option_string_eqb_eq in E. repeat split; auto. congruence.
  - repeat split; auto. intros E'. rewrite E' in E. simpl in E.
    now rewrite String.eqb_refl in E.
Qed.

Lemma ftp_disconnect_promotes_first_remaining_witness :
  let st := snd (ftp_connect (demo_remote false) "s2" "ftp.example.org" "alice" "secret"
                   21 true 30 (demo_state false)) in
  let st1 := snd (ftp_switch_connection (demo_remote false) "s1" st) in
  let c' := lifespan_context (snd (ftp_disconnect (demo_remote false) None st1)) in
  Dict.keys (connections (lifespan_context st1)) = ["s1"; "s2"] /\
  current_connection (lifespan_context st1) = Some "s1" /\
  Dict.keys (connections c') = ["s2"] /\
  current_connection c' = Some "s2".
Proof.
  intros st st1 c'.
  destruct (ftp_disconnect_promotes_first_remaining (demo_remote false) st1 None "s1"
              eq_refl) as (_ & _ & Hdel & Hcur & _).
  fold c' in Hdel, Hcur.
  split; [vm_compute; reflexivity|]. split; [vm_compute; reflexivity|].
  rewrite (Hcur eq_refl), Hdel. split; vm_compute; reflexivity.
Defined.

(** ** Directory-tree creation (C4) *)

(** One turn of the loop of [ftp_create_directory_tree]. *)
Lemma create_part_step (remote : Oracle) ftp current_path created part c cs ms n :
  let p := if Str.truthy current_path then Str.fmt [current_path; "/"; part] else part in
  let r := remote _ cs (Ftp (handle ftp) (Mkd p)) in
  let cs' := Call (Ftp (handle ftp) (Mkd p)) r :: cs in
  create_part remote ftp (current_path, created) part (mkState c cs ms n) =
  if Str.truthy part then
    match r with
    | Ok _ => (Ok (p, created ++ [p]), mkState c cs' (created_message p :: ms) n)
    | Raise e =>
        if is_exists_error e then (Ok (p, created), mkState c cs' ms n)
        else (Raise e, mkState c cs' ms n)
    end
  else (Ok (current_path, created), mkState c cs ms n).
Proof.
  intros p r cs'. subst cs' r. unfold create_part. fold p.
  destruct (Str.truthy part); cbn [negb]; [|reflexivity].
  run. destruct (remote string cs _) as [a|[msg|msg|msg]]; cbn [is_exists_error str];
    try reflexivity.
  destruct (Str.contains "exists" (Str.lower msg)); reflexivity.
Qed.

(** The loop of [ftp_create_directory_tree] does what [create_prefixes]
    says, and announces each created prefix with one info message. *)
Lemma create_part_loop remote ftp parts :
  forall current_path created c cs ms n,
    let (outcome, history) :=
      create_prefixes remote (handle ftp)
        (prefixes_from current_path (filter Str.truthy parts)) cs created in
    exists new,
      match outcome with
      | Completed created' =>
          created' = created ++ new /\
          exists current_path',
            for_fold parts (current_path, created) (create_part remote ftp)
              (mkState c cs ms n) =
            (Ok (current_path', created'),
             mkState c history (rev (map created_message new) ++ ms) n)
      | Aborted created' e =>
          created' = created ++ new /\
          for_fold parts (current_path, created) (create_part remote ftp)
            (mkState c cs ms n) =
          (Raise e, mkState c history (rev (map created_message new) ++ ms) n)
      end.
Proof.
  induction parts as [|part parts IH]; intros current_path created c cs ms n.
  - simpl. exists []. split; [now rewrite app_nil_r|]. now exists current_path.
  - cbn [filter for_fold]. unfold bind. rewrite create_part_step.
    destruct (Str.truthy part) eqn:Hpart; cbn [prefixes_from create_prefixes]; [|apply IH].
    set (p := if Str.truthy current_path then Str.fmt [current_path; "/"; part] else part).
    destruct (remote string cs (Ftp (handle ftp) (Mkd p))) as [a|e] eqn:Hr.
    + specialize (IH p (created ++ [p]) c
                    (Call (Ftp (handle ftp) (Mkd p)) (Ok a) :: cs)
                    (created_message p :: ms) n).
      destruct (create_prefixes _ _ _ _ _) as [[created'|created' e'] history].
      * destruct IH as (new & -> & cp & ->). exists (p :: new).
        split; [now rewrite <- app_assoc|]. exists cp.
        simpl. now rewrite <- !app_assoc.
      * destruct IH as (new & -> & ->). exists (p :: new).
        split; [now rewrite <- app_assoc|].
        simpl. now rewrite <- !app_assoc.
    + destruct (is_exists_error e) eqn:Hex.
      * specialize (IH p created c
                      (Call (Ftp (handle ftp) (Mkd p)) (Raise e) :: cs) ms n).
        destruct (create_prefixes _ _ _ _ _) as [[created'|created' e'] history];
          exact IH.
      * exists []. split; [now rewrite app_nil_r|]. reflexivity.
Qed.

(** C4 (as amended).  [ftp_create_directory_tree] attempts the cumulative
    prefixes of the path in order, passes over a permission-class error
    whose text contains "exists", and aborts on any other error.  On abort
    the text handed back is the error text alone; the prefixes created
    before the fatal step were announced by one info message each and are
    not part of the result. *)
Theorem ftp_create_directory_tree_outcome :
  forall (remote : Oracle) (st : State FTPContext) (directory_path : string) (ftp : FTP),
    fst (_get_current_ftp st) = Ok ftp ->
    let (r, st') := ftp_create_directory_tree remote directory_path st in
    let (outcome, history) :=
      create_prefixes remote (handle ftp) (cumulative_prefixes directory_path)
        (calls st) [] in
    calls st' = history /\
    lifespan_context st' = lifespan_context st /\
    match outcome with
    | Completed [] =>
        r = Ok (Str.fmt ["Directory path already exists: "; directory_path]) /\
        messages st' = messages st
    | Completed created =>
        r = Ok (Str.fmt ["Successfully created directories: "; Str.join ", " created]) /\
        messages st' = rev (map created_message created) ++ messages st
    | Aborted created e =>
        r = Ok (Str.fmt ["Error creating directory tree: "; str e]) /\
        messages st' =
          (Error, Str.fmt ["Error creating directory tree: "; str e])
            :: rev (map created_message created) ++ messages st
    end.
Proof.
  intros remote st directory_path ftp Hftp. destruct st as [c cs ms n].
  unfold ftp_create_directory_tree, cumulative_prefixes, segments.
  unfold _get_current_ftp in *. run.
  destruct (current_connection c) as [id|]; [|discriminate].
  destruct (negb (Str.truthy id)); [discriminate|].
  destruct (Dict.get id (connections c)) as [ftp'|]; [|discriminate].
  injection Hftp as ->.
  generalize (create_part_loop remote ftp
                (Str.split "/" (Str.strip is_slash directory_path)) "" [] c cs ms n).
  destruct (create_prefixes _ _ _ _ _) as [[created|created e] history].
  - intros (new & Hnew & cp & ->). simpl in Hnew. subst new.
    destruct created; simpl; auto.
  - intros (new & Hnew & ->). simpl in Hnew. subst new. simpl. auto.
Qed.

Lemma ftp_create_directory_tree_outcome_witness :
  let (r, st') := ftp_create_directory_tree (demo_remote true) "/a/b/c" (demo_state true) in
  r = Ok "Successfully created directories: a/b, a/b/c" /\
  messages st' =
    [(Info, "Created directory: a/b/c"); (Info, "Created directory: a/b")]
      ++ messages (demo_state true).
Proof.
  generalize (ftp_create_directory_tree_outcome (demo_remote true) (demo_state true)
                "/a/b/c" {| handle := 0; welcome := "220 Service ready" |} eq_refl).
  vm_compute. intros (_ & _ & Hr & Hm). split; [exact Hr | exact Hm].
Defined.

(** C4, counterexample.  Creating "x1/y2" on a server that creates [x1] and
    refuses [x1/y2]: the run aborts after having created [x1], and the text
    handed back does not mention it.  And on a server that answers with a
    transient error whose text contains "exists", the run aborts on that
    error: only a permission-class error is passed over. *)
Lemma ftp_create_directory_tree_abort_not_reported :
  ~ abort_reports_created (demo_remote true) "x1/y2" (demo_state true)
      {| handle := 0; welcome := "220 Service ready" |} /\
  ~ exists_errors_passed_over busy_remote "x1/y2" (demo_state true).
Proof.
  split; intros H.
  - assert (Hc : Forall
                   (fun p => Str.contains p
                               "Error creating directory tree: 550 Permission denied." = true)
                   ["x1"]).
    { apply (H ["x1"] (error_perm "550 Permission denied.")); vm_compute; reflexivity. }
    inversion Hc as [|? ? Hx _]. vm_compute in Hx. discriminate.
  - specialize (H (OtherError "450 File exists, try again later.")).
    assert (Hc : Str.contains "exists" (Str.lower "450 File exists, try again later.") = false).
    { apply H. vm_compute. reflexivity. }
    vm_compute in Hc. discriminate.
Qed.

(** ** Size-bounded download (C5) *)

Lemma _get_current_ftp_inv (st : State FTPContext) (ftp : FTP) :
  fst (_get_current_ftp st) = Ok ftp -> _get_current_ftp st = (Ok ftp, st).
Proof.
  destruct st as [c cs ms n]. unfold _get_current_ftp. run.
  destruct (current_connection c) as [id|]; [|discriminate].
  destruct (negb (Str.truthy id)); [discriminate|].
  destruct (Dict.get id (connections c)); [|discriminate].
  simpl. now intros [= ->].
Qed.

(** C5 (as amended).  With a current connection: when the size query
    reports a size that is not zero and exceeds [max_size_mb] megabytes,
    [ftp_download_content] returns the error payload with that size, makes
    no other call than the size query and returns no content; when the
    size query reports a size of zero, no size, or a size within the
    bound, the check is passed and the transfer is the next call, whatever
    [max_size_mb] is; when the size query fails with a permission-class
    error, the transfer is the next call as well; when it fails with
    another error, that error is the payload and nothing is transferred. *)
Theorem ftp_download_content_size_bound :
  forall (remote : Oracle) (b64encode : string -> string)
         (decode : string -> string -> result string) (st : State FTPContext)
         (remote_path : string) (binary_mode : bool) (encoding : string)
         (max_size_mb : Z) (ftp : FTP),
    fst (_get_current_ftp st) = Ok ftp ->
    let query := Ftp (handle ftp) (Size remote_path) in
    let out := ftp_download_content remote b64encode decode remote_path binary_mode
                 encoding max_size_mb st in
    (forall size,
        remote _ (calls st) query = Ok (Some size) ->
        size <> 0 ->
        size > max_size_mb * 1024 * 1024 ->
        refused_as_too_large size max_size_mb (Call query (Ok (Some size))) st out) /\
    (forall reported,
        remote _ (calls st) query = Ok reported ->
        match reported with
        | Some size => size = 0 \/ size <= max_size_mb * 1024 * 1024
        | None => True
        end ->
        exists transferred,
          calls (snd out) =
            Call (Ftp (handle ftp) (Retrbinary (Str.fmt ["RETR "; remote_path]))) transferred
              :: Call query (Ok reported) :: calls st) /\
    (forall msg,
        remote _ (calls st) query = Raise (error_perm msg) ->
        exists transferred,
          calls (snd out) =
            Call (Ftp (handle ftp) (Retrbinary (Str.fmt ["RETR "; remote_path]))) transferred
              :: Call query (Raise (error_perm msg)) :: calls st) /\
    (forall e,
        remote _ (calls st) query = Raise e ->
        (forall msg, e <> error_perm msg) ->
        fst out = Ok [("error", VStr (str e))] /\
        calls (snd out) = Call query (Raise e) :: calls st).
Proof.
  intros remote b64encode decode st remote_path binary_mode encoding max_size_mb ftp Hftp
    query out.
  apply _get_current_ftp_inv in Hftp. subst query out.
  destruct st as [c cs ms n]. unfold ftp_download_content.
  run. rewrite Hftp. clear Hftp. run. split; [|split; [|split]].
  - intros size Hsize Hnz Hgt. rewrite Hsize.
    assert (Hcond : negb (size =? 0) && (size >? max_size_mb * 1024 * 1024) = true).
    { apply andb_true_iff. split.
      - apply negb_true_iff. now apply Z.eqb_neq.
      - apply Z.gtb_lt. lia. }
    rewrite Hcond. unfold refused_as_too_large. simpl.
    split; [reflexivity|]. split; [|split; reflexivity].
    intros d [= <-]. reflexivity.
  - intros reported Hsize Hwithin. rewrite Hsize.
    assert (Hcond : match reported with
                    | Some size =>
                        if negb (size =? 0) && (size >? max_size_mb * 1024 * 1024)
                        then Some size else None
                    | None => None
                    end = None).
    { destruct reported as [size|]; [|reflexivity].
      destruct (Z.eqb_spec size 0) as [->|Hnz]; [reflexivity|].
      destruct Hwithin as [?|Hle]; [contradiction|].
      replace (size >? max_size_mb * 1024 * 1024) with false; [reflexivity|].
      symmetry. rewrite Z.gtb_ltb. apply Z.ltb_ge. lia. }
    rewrite Hcond.
    destruct (remote string _ (Ftp (handle ftp) (Retrbinary _))) as [a|e] eqn:Hr.
    + exists (Ok a). destruct binary_mode; simpl; [reflexivity|].
      destruct (decode a encoding); reflexivity.
    + exists (Raise e). reflexivity.
  - intros msg Hsize. rewrite Hsize.
    destruct (remote string _ (Ftp (handle ftp) (Retrbinary _))) as [a|e] eqn:Hr.
    + exists (Ok a). destruct binary_mode; simpl; [reflexivity|].
      destruct (decode a encoding); reflexivity.
    + exists (Raise e). reflexivity.
  - intros e Hsize Hclass. rewrite Hsize.
    destruct e as [msg|msg|msg]; [now elim (Hclass msg)| |]; split; reflexivity.
Qed.

Lemma ftp_download_content_size_bound_witness :
  (let out := ftp_download_content (demo_remote false) demo_b64encode demo_decode
                "big.bin" false "utf-8" 1 (demo_state false) in
   fst out =
     Ok [("error", VStr "File too large (2097152 bytes). Maximum allowed: 1MB");
         ("size", VInt 2097152)] /\
   calls (snd out) =
     Call (Ftp 0 (Size "big.bin")) (Ok (Some 2097152)) :: calls (demo_state false)) /\
  (let out := ftp_download_content (demo_remote true) demo_b64encode demo_decode
                "big.bin" false "utf-8" 1 (demo_state true) in
   exists transferred,
     calls (snd out) =
       Call (Ftp 0 (Retrbinary "RETR big.bin")) transferred
         :: Call (Ftp 0 (Size "big.bin")) (Raise (error_perm "500 Unknown command."))
         :: calls (demo_state true)).
Proof.
  split.
  - destruct (ftp_download_content_size_bound (demo_remote false) demo_b64encode demo_decode
                (demo_state false) "big.bin" false "utf-8" 1
                {| handle := 0; welcome := "220 Service ready" |} eq_refl) as (H & _).
    destruct (H 2097152 eq_refl ltac:(discriminate) eq_refl) as (Hr & _ & Hc & _).
    split; [exact Hr | exact Hc].
  - destruct (ftp_download_content_size_bound (demo_remote true) demo_b64encode demo_decode
                (demo_state true) "big.bin" false "utf-8" 1
                {| handle := 0; welcome := "220 Service ready" |} eq_refl) as (_ & _ & H & _).
    exact (H "500 Unknown command." eq_refl).
Defined.

(** C5, counterexample.  With [max_size_mb = -1] and a reported size of 0,
    the size exceeds the bound and the content is transferred all the
    same: a size of 0 counts as no size. *)
Lemma ftp_download_content_zero_size_not_refused :
  ~ size_bound_enforced (demo_remote false) demo_b64encode demo_decode
      "empty" false "utf-8" (-1) (demo_state false)
      {| handle := 0; welcome := "220 Service ready" |}.
Proof.
  intros H. destruct (H 0 eq_refl eq_refl) as (Hr & _).
  vm_compute in Hr. discriminate.
Qed.

(** ** Sorting *)

Lemma string_leb_trans (a b c : string) :
  String.leb a b = true -> String.leb b c = true -> String.leb a c = true.
Proof.
  unfold String.leb. revert b c.
  induction a as [|x a IH]; intros [|y b] [|z c]; simpl; try congruence.
  unfold Ascii.compare.
  destruct (N.compare_spec (N_of_ascii x) (N_of_ascii y)) as [Hxy|Hxy|Hxy];
    destruct (N.compare_spec (N_of_ascii y) (N_of_ascii z)) as [Hyz|Hyz|Hyz];
    try congruence.
  - rewrite Hxy, Hyz, N.compare_refl. apply IH.
  - rewrite Hxy. apply N.compare_lt_iff in Hyz. now rewrite Hyz.
  - rewrite <- Hyz. apply N.compare_lt_iff in Hxy. now rewrite Hxy.
  - assert (H : (N_of_ascii x < N_of_ascii z)%N) by lia.
    apply N.compare_lt_iff in H. now rewrite H.
Qed.

Lemma key_leb_total (a b : bool * string) : key_leb a b = true \/ key_leb b a = true.
Proof.
  destruct a as [[] s], b as [[] t]; unfold key_leb; simpl; auto using String.leb_total.
Qed.

Lemma key_leb_trans (a b c : bool * string) :
  key_leb a b = true -> key_leb b c = true -> key_leb a c = true.
Proof.
  destruct a as [[] s], b as [[] t], c as [[] u]; unfold key_leb; simpl;
    try congruence; apply string_leb_trans.
Qed.

Section Sorted.
Context {A : Type} (leb : A -> A -> bool).
Hypothesis leb_total : forall x y, leb x y = true \/ leb y x = true.
Hypothesis leb_trans : forall x y z, leb x y = true -> leb y z = true -> leb x z = true.

Lemma insert_sorted_permutation x l : Permutation (x :: l) (insert_sorted leb x l).
Proof.
  induction l as [|y l IH]; simpl; [reflexivity|].
  destruct (leb x y); [reflexivity|].
  rewrite perm_swap. now constructor.
Qed.

Lemma sorted_permutation l : Permutation l (sorted leb l).
Proof.
  induction l as [|x l IH]; simpl; [constructor|].
  rewrite <- insert_sorted_permutation. now constructor.
Qed.

Lemma insert_sorted_strongly x l :
  StronglySorted (fun a b => leb a b = true) l ->
  StronglySorted (fun a b => leb a b = true) (insert_sorted leb x l).
Proof.
  induction 1 as [|y l Hs IH Hy]; simpl.
  - repeat constructor.
  - destruct (leb x y) eqn:E.
    + constructor; [now constructor|].
      constructor; [exact E|].
      eapply Forall_impl; [|exact Hy]. intros z Hz. eauto.
    + constructor; [exact IH|].
      eapply Permutation_Forall; [apply insert_sorted_permutation|].
      constructor; [|exact Hy].
      destruct (leb_total x y) as [H|H]; congruence.
Qed.

Lemma sorted_strongly l : StronglySorted (fun a b => leb a b = true) (sorted leb l).
Proof.
  induction l as [|x l IH]; simpl; [constructor|]. now apply insert_sorted_strongly.
Qed.

Lemma sorted_Forall (P : A -> Prop) l : Forall P l -> Forall P (sorted leb l).
Proof. apply Permutation_Forall, sorted_permutation. Qed.

End Sorted.

(** A list in the order of the sort keys, of directories and files only,
    is the directories by name followed by the files by name. *)
Lemma listing_order_split lib (l : list FTPFileInfo) :
  StronglySorted (fun x y => listing_leb lib x y = true) l ->
  Forall (fun x => type x = "directory" \/ type x = "file") l ->
  exists dirs regular,
    l = dirs ++ regular /\
    Forall (fun x => type x = "directory") dirs /\
    Forall (fun x => type x = "file") regular /\
    StronglySorted (name_le_ci lib) dirs /\
    StronglySorted (name_le_ci lib) regular.
Proof.
  induction 1 as [|x l Hs IH Hx]; intros Ht.
  - exists [], []. repeat split; constructor.
  - inversion Ht as [|? ? Hxt Hlt]; subst.
    destruct (IH Hlt) as (dirs & regular & -> & Hd & Hr & Hsd & Hsr).
    apply Forall_app in Hx. destruct Hx as [Hxd Hxr].
    destruct Hxt as [Hxt|Hxt].
    + exists (x :: dirs), regular. repeat split; auto.
      constructor; [exact Hsd|].
      rewrite Forall_forall in *. intros y Hy.
      specialize (Hxd y Hy). specialize (Hd y Hy).
      unfold listing_leb, key_leb, listing_key in Hxd. simpl in Hxd.
      rewrite Hxt, Hd in Hxd. exact Hxd.
    + assert (dirs = []) as ->.
      { destruct dirs as [|d dirs]; [reflexivity|].
        inversion Hxd as [|? ? Hxd1 _]; subst. inversion Hd as [|? ? Hd1 _]; subst.
        unfold listing_leb, key_leb, listing_key in Hxd1. simpl in Hxd1.
        rewrite Hxt, Hd1 in Hxd1. discriminate. }
      exists [], (x :: regular). repeat split; auto.
      constructor; [exact Hsr|].
      rewrite Forall_forall in *. intros y Hy.
      specialize (Hxr y Hy). specialize (Hr y Hy).
      unfold listing_leb, key_leb, listing_key in Hxr. simpl in Hxr.
      rewrite Hxt, Hr in Hxr. exact Hxr.
Qed.

(** ** Invariants of the listing loops *)

Lemma for_fold_invariant {Ctx A B} (P : B -> Prop) (body : B -> A -> M Ctx B) :
  (forall acc x st acc' st', P acc -> body acc x st = (Ok acc', st') -> P acc') ->
  forall l acc st acc' st',
    P acc -> for_fold l acc body st = (Ok acc', st') -> P acc'.
Proof.
  intros Hbody. induction l as [|x l IH]; intros acc st acc' st' Hacc; simpl.
  - unfold ret. now intros [= <- _].
  - unfold bind. destruct (body acc x st) as [[acc1|e] st1] eqn:Hb; [|discriminate].
    apply IH. eapply Hbody; eauto.
Qed.

(** Case analysis on the innermost scrutinee of a match in [H]. *)
Ltac split_match H :=
  match type of H with
  | context [match ?x with _ => _ end] =>
      lazymatch x with
      | context [match _ with _ => _ end] => fail
      | _ => destruct x eqn:?
      end
  end.

Ltac invert_run H := repeat (split_match H; try discriminate H).

Lemma append_entry_ok x is_directory a :
  entry_ok x -> Forall entry_ok (acc_files a) ->
  Forall entry_ok (acc_files (append_entry x is_directory a)).
Proof. intros Hx Ha. simpl. apply Forall_app. split; [exact Ha|]. now constructor. Qed.

Lemma mlsd_entry_ok strp lib a entry st a' st' :
  Forall entry_ok (acc_files a) ->
  mlsd_entry strp lib a entry st = (Ok a', st') ->
  Forall entry_ok (acc_files a').
Proof.
  intros Ha H. destruct st as [c cs ms n]. destruct entry as [nm fs].
  unfold mlsd_entry, int in H.
  destruct (is_dot nm) eqn:Hdot; run; [now injection H as <- _|].
  invert_run H; injection H as <- _; apply append_entry_ok; auto;
    split; simpl; auto.
Qed.

Lemma list_line_ok now lib a line st a' st' :
  Forall entry_ok (acc_files a) ->
  list_line now lib a line st = (Ok a', st') ->
  Forall entry_ok (acc_files a').
Proof.
  intros Ha H. destruct st as [c cs ms n].
  unfold list_line, int in H.
  destruct (negb (Str.truthy (Py.strip lib line))); run;
    [now injection H as <- _|].
  destruct (9 <=? length (Py.split lib line))%nat; [|now injection H as <- _].
  destruct (is_dot _) eqn:Hdot; [now injection H as <- _|].
  invert_run H; injection H as <- _; apply append_entry_ok; auto;
    split; simpl; auto.
Qed.

Lemma nlst_name_ok remote ftp a nm st a' st' :
  Forall entry_ok (acc_files a) ->
  nlst_name remote ftp a nm st = (Ok a', st') ->
  Forall entry_ok (acc_files a').
Proof.
  intros Ha H. destruct st as [c cs ms n].
  unfold nlst_name in H.
  destruct (is_dot nm) eqn:Hdot; run; [now injection H as <- _|].
  invert_run H; injection H as <- _; apply append_entry_ok; auto;
    split; simpl; auto.
Qed.

Lemma for_fold_raise {Ctx A B} (Q : exn -> Prop) (body : B -> A -> M Ctx B) :
  (forall acc x st e st', body acc x st = (Raise e, st') -> Q e) ->
  forall l acc st e st', for_fold l acc body st = (Raise e, st') -> Q e.
Proof.
  intros Hbody. induction l as [|x l IH]; intros acc st e st'; simpl.
  - unfold ret. discriminate.
  - unfold bind. destruct (body acc x st) as [[acc1|e1] st1] eqn:Hb.
    + apply IH.
    + intros [= <- _]. eauto.
Qed.

(** The loop over the MLSD entries raises nothing but the [ValueError] of
    [int]. *)
Lemma mlsd_entry_raise strp lib a entry st e st' :
  mlsd_entry strp lib a entry st = (Raise e, st') -> exists msg, e = ValueError msg.
Proof.
  intros H. destruct st as [c cs ms n]. destruct entry as [nm fs].
  unfold mlsd_entry, int in H.
  destruct (is_dot nm); run; [discriminate|].
  invert_run H; injection H as <- _; eauto.
Qed.

Lemma collect_entries_ok remote now strp lib ftp detailed st a st' :
  collect_entries remote now strp lib ftp detailed st = (Ok a, st') ->
  Forall entry_ok (acc_files a).
Proof.
  intros H. destruct st as [c cs ms n]. unfold collect_entries in H.
  destruct detailed; run.
  - destruct (remote _ cs (Ftp (handle ftp) Mlsd)) as [entries|e] eqn:Hm.
    + destruct (for_fold entries _ _ _) as [[a1|e1] st1] eqn:Hf.
      * injection H as <- _.
        eapply (for_fold_invariant (fun a => Forall entry_ok (acc_files a))); eauto.
        -- intros. eapply mlsd_entry_ok; eauto.
        -- constructor.
      * apply (for_fold_raise (fun e => exists msg, e = ValueError msg)) in Hf;
          [|intros; eapply mlsd_entry_raise; eauto].
        destruct Hf as [msg ->]. discriminate.
    + destruct e; try discriminate.
      destruct (remote _ _ (Ftp (handle ftp) (Retrlines "LIST"))) as [lines|e] eqn:Hl;
        [|discriminate].
      eapply (for_fold_invariant (fun a => Forall entry_ok (acc_files a))); eauto.
      * intros. eapply list_line_ok; eauto.
      * constructor.
  - destruct (remote _ cs (Ftp (handle ftp) Nlst)) as [names|e] eqn:Hn; [|discriminate].
    eapply (for_fold_invariant (fun a => Forall entry_ok (acc_files a))); eauto.
    + intros. eapply nlst_name_ok; eauto.
    + constructor.
Qed.

(** [ftp_list_directory] navigates, collects the entries, navigates back
    and sorts. *)
Lemma ftp_list_directory_inv remote now strp lib directory detailed st listing st' :
  ftp_list_directory remote now strp lib directory detailed st = (Ok listing, st') ->
  exists ftp pre post a st1 st2,
    calls st1 = pre ++ calls st /\
    collect_entries remote now strp lib ftp detailed st1 = (Ok a, st2) /\
    calls st' = post ++ calls st2 /\
    length post = (if truthy_opt directory then 1 else 0)%nat /\
    forallb is_navigation pre = true /\
    forallb is_navigation post = true /\
    files listing = sorted (listing_leb lib) (acc_files a).
Proof.
  intros H. destruct st as [c cs ms n]. unfold ftp_list_directory in H. run.
  destruct (_get_current_ftp _) as [[ftp|e] st0] eqn:Hftp.
  2: { destruct e; discriminate. }
  apply (f_equal fst) in Hftp as Hftp'. simpl in Hftp'.
  apply _get_current_ftp_inv in Hftp'. rewrite Hftp' in Hftp. injection Hftp as <-.
  run. exists ftp.
  destruct (remote _ cs (Ftp (handle ftp) Pwd)) as [original|e] eqn:H1.
  2: { destruct e; discriminate. }
  destruct (truthy_opt directory) eqn:Hd; run.
  - destruct (remote _ _ (Ftp (handle ftp) (Cwd _))) as [r2|e] eqn:H2.
    2: { destruct e; discriminate. }
    destruct (remote _ _ (Ftp (handle ftp) Pwd)) as [current|e] eqn:H3 in H.
    2: { destruct e; discriminate. }
    destruct (collect_entries _ _ _ _ _ _ _) as [[a|e] [c2 cs2 ms2 n2]] eqn:Hc.
    2: { destruct e; discriminate. }
    run.
    destruct (remote _ cs2 (Ftp (handle ftp) (Cwd original))) as [r4|e] eqn:H4.
    2: { destruct e; discriminate. }
    injection H as <- <-.
    match type of Hc with
    | collect_entries _ _ _ _ _ _ ?s1 = (_, ?s2) => eexists [_; _; _], [_], a, s1, s2
    end.
    simpl. split; [reflexivity|]. split; [exact Hc|]. repeat split; reflexivity.
  - destruct (remote _ _ (Ftp (handle ftp) Pwd)) as [current|e] eqn:H3 in H.
    2: { destruct e; discriminate. }
    destruct (collect_entries _ _ _ _ _ _ _) as [[a|e] [c2 cs2 ms2 n2]] eqn:Hc.
    2: { destruct e; discriminate. }
    injection H as <- <-.
    match type of Hc with
    | collect_entries _ _ _ _ _ _ ?s1 = (_, ?s2) => eexists [_; _], [], a, s1, s2
    end.
    simpl. split; [reflexivity|]. split; [exact Hc|]. repeat split; reflexivity.
Qed.

(** C6.  Whatever mechanism produced it (MLSD, the parse of LIST, or NLST),
    a listing returned by [ftp_list_directory] has no entry named [.] or
    [..], and its [files] are the directories followed by the files, each
    group in case-insensitive order of the names: the order of the names
    once [str.lower()] is applied to them, whatever that function does
    outside ASCII. *)
Theorem ftp_list_directory_normalized :
  forall (remote : Oracle) (now : list call -> datetime)
         (strptime_strftime : string -> string -> string -> option string)
         (lib : Py.library)
         (st : State FTPContext) (directory : option string) (detailed : bool)
         (listing : FTPDirectoryListing) (st' : State FTPContext),
    ftp_list_directory remote now strptime_strftime lib directory detailed st
      = (Ok listing, st') ->
    Forall (fun x => name x <> "." /\ name x <> "..") (files listing) /\
    exists dirs regular,
      files listing = dirs ++ regular /\
      Forall (fun x => type x = "directory") dirs /\
      Forall (fun x => type x = "file") regular /\
      StronglySorted (name_le_ci lib) dirs /\
      StronglySorted (name_le_ci lib) regular.
Proof.
  intros remote now strp lib st directory detailed listing st' H.
  apply ftp_list_directory_inv in H.
  destruct H as (ftp & pre & post & a & st1 & st2 & _ & Hc & _ & _ & _ & _ & ->).
  apply collect_entries_ok in Hc.
  apply (sorted_Forall (listing_leb lib)) in Hc.
  split.
  - eapply Forall_impl; [|exact Hc]. intros x [Hdot _].
    unfold is_dot in Hdot. apply orb_false_iff in Hdot. destruct Hdot as [H1 H2].
    split; intros E; rewrite E in *; discriminate.
  - apply listing_order_split.
    + apply sorted_strongly.
      * intros x y. apply key_leb_total.
      * intros x y z. apply key_leb_trans.
    + eapply Forall_impl; [|exact Hc]. now intros x [_ Ht].
Qed.

Lemma ftp_list_directory_normalized_witness :
  exists listing st',
    ftp_list_directory (demo_remote false) demo_now demo_strptime_strftime demo_lib None true
      (demo_state false) = (Ok listing, st') /\
    map name (files listing) = ["sub"; "a.txt"; "B.txt"] /\
    Forall (fun x => name x <> "." /\ name x <> "..") (files listing).
Proof.
  destruct (ftp_list_directory (demo_remote false) demo_now demo_strptime_strftime demo_lib None true
              (demo_state false)) as [[listing|e] st'] eqn:Hrun.
  - exists listing, st'. split; [reflexivity|]. split.
    + vm_compute in Hrun. injection Hrun as <- _. reflexivity.
    + exact (proj1 (ftp_list_directory_normalized _ _ _ _ _ _ _ _ _ Hrun)).
  - vm_compute in Hrun. discriminate.
Defined.

(** ** The legacy parse (C7) *)

(** One turn of the loop over the LIST lines is the legacy parse of the
    line; the state is left as it was. *)
Lemma list_line_legacy now lib a line c cs ms n :
  Str.truthy (Py.strip lib line) || (length (Py.split lib line) <? 9)%nat = true ->
  list_line now lib a line (mkState c cs ms n) =
  (Ok match legacy_entry lib (year (now cs)) line with
      | Some x => append_entry x (type x =? "directory")%string a
      | None => a
      end,
   mkState c cs ms n).
Proof.
  intros Hline. unfold list_line, legacy_entry, int.
  destruct (Str.truthy (Py.strip lib line)) eqn:Hblank; cbn [negb].
  2: { simpl in Hline. now rewrite Nat.leb_antisym, Hline. }
  destruct (9 <=? length (Py.split lib line))%nat; [|reflexivity].
  destruct (is_dot _); [reflexivity|].
  run.
  destruct (Str.startswith _ "d"); cbn;
    [|destruct (Py.int lib _); cbn];
    destruct (Str.contains ":" _); reflexivity.
Qed.

Lemma list_line_loop now lib lines :
  blank_lines_hold_no_entry lib lines = true ->
  forall a c cs ms n,
  exists a',
    for_fold lines a (list_line now lib) (mkState c cs ms n) = (Ok a', mkState c cs ms n) /\
    acc_files a' = acc_files a ++ legacy_entries lib (year (now cs)) lines.
Proof.
  induction lines as [|line lines IH]; intros Hlines a c cs ms n; simpl.
  - exists a. split; [reflexivity|]. now rewrite app_nil_r.
  - simpl in Hlines. apply andb_true_iff in Hlines. destruct Hlines as [Hline Hlines].
    unfold bind. rewrite list_line_legacy by exact Hline.
    destruct (IH Hlines (match legacy_entry lib (year (now cs)) line with
                  | Some x => append_entry x (type x =? "directory")%string a
                  | None => a
                  end) c cs ms n) as (a' & -> & Ha').
    exists a'. split; [reflexivity|]. rewrite Ha'.
    destruct (legacy_entry _ _ line); simpl; [now rewrite <- app_assoc|reflexivity].
Qed.

(** The loop over the MLSD entries leaves the state as it was. *)
Lemma mlsd_entry_state strp lib a entry st r st' :
  mlsd_entry strp lib a entry st = (r, st') -> st' = st.
Proof.
  intros H. destruct st as [c cs ms n]. destruct entry as [nm fs].
  unfold mlsd_entry, int in H.
  destruct (is_dot nm); run; [now injection H as _ <-|].
  invert_run H; now injection H as _ <-.
Qed.

Lemma mlsd_loop_state strp lib entries :
  forall a st r st', for_fold entries a (mlsd_entry strp lib) st = (r, st') -> st' = st.
Proof.
  induction entries as [|entry entries IH]; intros a st r st'; simpl.
  - unfold ret. now intros [= _ <-].
  - unfold bind. destruct (mlsd_entry strp lib a entry st) as [[a1|e] st1] eqn:Hb.
    + apply mlsd_entry_state in Hb. subst st1. apply IH.
    + apply mlsd_entry_state in Hb. now intros [= _ <-].
Qed.

(** The loop over the LIST lines leaves the state as it was. *)
Lemma list_line_state now lib a line st r st' :
  list_line now lib a line st = (r, st') -> st' = st.
Proof.
  intros H. destruct st as [c cs ms n]. unfold list_line, int in H.
  destruct (negb _); run; [now injection H as _ <-|].
  destruct (9 <=? _)%nat; [|now injection H as _ <-].
  destruct (is_dot _); [now injection H as _ <-|].
  invert_run H; now injection H as _ <-.
Qed.

Lemma list_loop_state now lib lines :
  forall a st r st', for_fold lines a (list_line now lib) st = (r, st') -> st' = st.
Proof.
  induction lines as [|line lines IH]; intros a st r st'; simpl.
  - unfold ret. now intros [= _ <-].
  - unfold bind. destruct (list_line now lib a line st) as [[a1|e] st1] eqn:Hb.
    + apply list_line_state in Hb. subst st1. apply IH.
    + apply list_line_state in Hb. now intros [= _ <-].
Qed.

(** The detailed listing is the MLSD one, or, after a permission-class
    error of MLSD, the legacy parse of the LIST lines. *)
Lemma collect_entries_detailed remote now strp lib ftp st a st' :
  collect_entries remote now strp lib ftp true st = (Ok a, st') ->
  (exists entries, calls st' = Call (Ftp (handle ftp) Mlsd) (Ok entries) :: calls st) \/
  (exists msg lines,
     calls st' =
       Call (Ftp (handle ftp) (Retrlines "LIST")) (Ok lines)
         :: Call (Ftp (handle ftp) Mlsd) (Raise (error_perm msg)) :: calls st /\
     (blank_lines_hold_no_entry lib lines = true ->
      acc_files a = legacy_entries lib (year (now (calls st'))) lines)).
Proof.
  intros H. destruct st as [c cs ms n]. unfold collect_entries in H. run.
  destruct (remote _ cs (Ftp (handle ftp) Mlsd)) as [entries|e] eqn:Hm.
  - left. exists entries.
    destruct (for_fold entries _ _ _) as [r st1] eqn:Hf.
    apply mlsd_loop_state in Hf as Hst. subst st1.
    destruct r as [a1|e1].
    + now injection H as _ <-.
    + apply (for_fold_raise (fun e => exists msg, e = ValueError msg)) in Hf;
        [|intros; eapply mlsd_entry_raise; eauto].
      destruct Hf as [msg ->]. discriminate.
  - destruct e as [msg|msg|msg]; try discriminate.
    right. exists msg.
    destruct (remote _ _ (Ftp (handle ftp) (Retrlines "LIST"))) as [lines|e] eqn:Hl;
      [|discriminate].
    exists lines.
    apply list_loop_state in H as Hst. subst st'. split; [reflexivity|].
    intros Hlines.
    match type of H with
    | for_fold _ ?a0 _ (mkState ?c0 ?cs0 ?ms0 ?n0) = _ =>
        destruct (list_line_loop now lib lines Hlines a0 c0 cs0 ms0 n0)
          as (a' & Hrun & Hfiles)
    end.
    rewrite Hrun in H. injection H as <-. exact Hfiles.
Qed.

Lemma new_calls_app {Ctx} (before after : State Ctx) (l : list call) :
  calls after = l ++ calls before -> new_calls before after = l.
Proof.
  unfold new_calls. intros ->. rewrite length_app, Nat.add_sub.
  rewrite firstn_app, Nat.sub_diag, firstn_all. simpl. apply app_nil_r.
Qed.

Lemma navigation_not_listing c :
  is_navigation c = true -> mlsd_refused c = false /\ list_reply c = None.
Proof.
  destruct c as [X e r]. destruct e as [h X m|X o|X t]; try discriminate.
  destruct m; try discriminate; split; reflexivity.
Qed.

Lemma navigation_no_mlsd l : forallb is_navigation l = true -> existsb mlsd_refused l = false.
Proof.
  induction l as [|c l IH]; simpl; [reflexivity|].
  intros H. apply andb_true_iff in H. destruct H as [Hc Hl].
  now rewrite (proj1 (navigation_not_listing c Hc)), IH.
Qed.

Lemma navigation_no_list_reply l r :
  forallb is_navigation l = true ->
  find_reply list_reply (l ++ r) = find_reply list_reply r.
Proof.
  induction l as [|c l IH]; simpl; [reflexivity|].
  intros H. apply andb_true_iff in H. destruct H as [Hc Hl].
  now rewrite (proj2 (navigation_not_listing c Hc)), IH.
Qed.



(** ** Computations that make no call *)

Section CallsPreserving.
Context {Ctx : Type}.

Lemma cp_ret {A} (a : A) : calls_preserving (@ret Ctx A a).
Proof. intros st. reflexivity. Qed.

Lemma cp_raise {A} (e : exn) : calls_preserving (@raise Ctx A e).
Proof. intros st. reflexivity. Qed.

Lemma cp_bind {A B} (c : M Ctx A) (k : A -> M Ctx B) :
  calls_preserving c -> (forall a, calls_preserving (k a)) -> calls_preserving (bind c k).
Proof.
  intros Hc Hk st. unfold bind. specialize (Hc st).
  destruct (c st) as [[a|e] st1]; simpl in *; [|exact Hc].
  now rewrite Hk.
Qed.

Lemma cp_try_except {A} (c : M Ctx A) (h : exn -> M Ctx A) :
  calls_preserving c -> (forall e, calls_preserving (h e)) ->
  calls_preserving (try_except c h).
Proof.
  intros Hc Hh st. unfold try_except. specialize (Hc st).
  destruct (c st) as [[a|e] st1]; simpl in *; [exact Hc|].
  now rewrite Hh.
Qed.

Lemma cp_log l msg : calls_preserving (@log Ctx l msg).
Proof. intros st. reflexivity. Qed.

Lemma cp_datetime_now now : calls_preserving (@datetime_now Ctx now).
Proof. intros st. reflexivity. Qed.

Lemma cp_get_context : calls_preserving (@get_context Ctx).
Proof. intros st. reflexivity. Qed.

Lemma cp_for_fold {A B} (body : B -> A -> M Ctx B) (l : list A) :
  (forall acc x, calls_preserving (body acc x)) ->
  forall acc, calls_preserving (for_fold l acc body).
Proof.
  intros Hbody. induction l as [|x l IH]; intros acc; simpl.
  - apply cp_ret.
  - apply cp_bind; auto.
Qed.

Lemma cp_json_get d k v : calls_preserving (@Json.get Ctx d k v).
Proof. destruct d; intros st; reflexivity. Qed.

Lemma cp_json_iter v : calls_preserving (@Json.iter Ctx v).
Proof. destruct v; intros st; reflexivity. Qed.

Lemma cp_json_str_field v : calls_preserving (@Json.str_field Ctx v).
Proof. destruct v; intros st; reflexivity. Qed.

Lemma cp_json_optional_str_field v : calls_preserving (@Json.optional_str_field Ctx v).
Proof. destruct v; intros st; reflexivity. Qed.

Lemma cp_json_float_field lib v : calls_preserving (@Json.float_field Ctx lib v).
Proof.
  unfold Json.float_field. destruct (Py.validate_float lib v); intros st; reflexivity.
Qed.

End CallsPreserving.

Create HintDb calls_preserving.
#[local] Hint Resolve cp_ret cp_raise cp_log cp_datetime_now cp_get_context cp_json_get
  cp_json_iter cp_json_str_field cp_json_optional_str_field cp_json_float_field
  : calls_preserving.

(** Decomposes a computation into its binds. *)
Ltac no_calls :=
  repeat first
    [ apply cp_bind; [|intros ?]
    | apply cp_try_except; [|intros ?]
    | apply cp_for_fold; intros ? ?
    | solve [unfold info, warning, error; auto with calls_preserving] ].

Lemma cp_search_item lib item : calls_preserving (search_item lib item).
Proof. unfold search_item. no_calls. Qed.

Lemma cp_search_image img : calls_preserving (search_image img).
Proof. unfold search_image. no_calls. Qed.

(** ** Normalization of the search parameters (C10) *)

Lemma search_depth_guard d :
  (if negb (str_in d ["basic"; "advanced"]) then "basic" else d) = normalized_search_depth d.
Proof.
  unfold normalized_search_depth, str_in. simpl. rewrite orb_false_r.
  now destruct (_ || _).
Qed.

Lemma topic_guard t :
  (if negb (str_in t ["general"; "news"; "finance"]) then "general" else t)
  = normalized_topic t.
Proof.
  unfold normalized_topic, str_in. simpl. rewrite orb_false_r, orb_assoc.
  now destruct (_ || _).
Qed.

Lemma max_results_guard m :
  (if (m <? 1) || (m >? 20) then 5 else m) = normalized_max_results m.
Proof.
  unfold normalized_max_results. rewrite Z.gtb_ltb.
  destruct (Z.ltb_spec m 1), (Z.ltb_spec 20 m), (Z.leb_spec 1 m), (Z.leb_spec m 20);
    simpl; try lia; reflexivity.
Qed.

Lemma normalized_search_depth_idempotent d :
  normalized_search_depth (normalized_search_depth d) = normalized_search_depth d.
Proof.
  unfold normalized_search_depth.
  destruct ((d =? "basic")%string || (d =? "advanced")%string) eqn:E;
    [now rewrite E | reflexivity].
Qed.

Lemma normalized_topic_idempotent t :
  normalized_topic (normalized_topic t) = normalized_topic t.
Proof.
  unfold normalized_topic.
  destruct ((t =? "general")%string || (t =? "news")%string || (t =? "finance")%string)
    eqn:E; [now rewrite E | reflexivity].
Qed.

Lemma normalized_max_results_idempotent m :
  normalized_max_results (normalized_max_results m) = normalized_max_results m.
Proof.
  unfold normalized_max_results.
  destruct ((1 <=? m) && (m <=? 20)) eqn:E; [now rewrite E | reflexivity].
Qed.

(** ** Postconditions on returned values *)

Section Returns.
Context {Ctx : Type}.

Lemma returns_ret {A} (P : A -> Prop) (a : A) : P a -> returns P (@ret Ctx A a).
Proof. intros H st a' st'. unfold ret. now intros [= <- _]. Qed.

Lemma returns_raise {A} (P : A -> Prop) (e : exn) : returns P (@raise Ctx A e).
Proof. intros st a st'. unfold raise. discriminate. Qed.

Lemma returns_bind {A B} (P : B -> Prop) (c : M Ctx A) (k : A -> M Ctx B) :
  (forall a, returns P (k a)) -> returns P (bind c k).
Proof.
  intros Hk st b st'. unfold bind.
  destruct (c st) as [[a|e] st1]; [apply Hk | discriminate].
Qed.

Lemma returns_try_except {A} (P : A -> Prop) (c : M Ctx A) (h : exn -> M Ctx A) :
  returns P c -> (forall e, returns P (h e)) -> returns P (try_except c h).
Proof.
  intros Hc Hh st a st'. unfold try_except.
  destruct (c st) as [[a1|e] st1] eqn:E; [|apply Hh].
  intros [= <- _]. eapply Hc; eauto.
Qed.

End Returns.

Lemma _get_tavily_client_configured (st : State TavilyContext) (c : TavilyClient) :
  truthy_opt (api_key (lifespan_context st)) = true ->
  client (lifespan_context st) = Some c ->
  _get_tavily_client st = (Ok c, st).
Proof.
  intros Hkey Hclient. destruct st as [ctx cs ms n]. unfold _get_tavily_client. run.
  simpl in *. now rewrite Hkey, Hclient.
Qed.

(** [tavily_search] uses its three checked parameters through their
    normalized values only. *)
Lemma tavily_search_normalized_call remote now lib query search_depth topic days max_results
    include_domains exclude_domains include_answer include_raw_content include_images :
  tavily_search remote now lib query search_depth topic days max_results
    include_domains exclude_domains include_answer include_raw_content include_images
  = tavily_search remote now lib query (normalized_search_depth search_depth)
      (normalized_topic topic) days (normalized_max_results max_results)
      include_domains exclude_domains include_answer include_raw_content include_images.
Proof.
  unfold tavily_search.
  rewrite !search_depth_guard, !topic_guard, !max_results_guard.
  now rewrite normalized_search_depth_idempotent, normalized_topic_idempotent,
    normalized_max_results_idempotent.
Qed.

(** The keyword arguments [tavily_search] builds hold the three checked
    values under their keys, whatever optional keys are added. *)
Lemma search_params_checked query d t m ia ir ii days include_domains exclude_domains :
  let base :=
    [("query", VStr query); ("search_depth", VStr d); ("topic", VStr t);
     ("max_results", VInt m); ("include_answer", VBool ia);
     ("include_raw_content", VBool ir); ("include_images", VBool ii)] in
  let p1 := match days with Some x => Dict.set "days" (VInt x) base | None => base end in
  let p2 := match include_domains with
            | Some ((_ :: _) as l) => Dict.set "include_domains" (VList (map VStr l)) p1
            | _ => p1
            end in
  let p3 := match exclude_domains with
            | Some ((_ :: _) as l) => Dict.set "exclude_domains" (VList (map VStr l)) p2
            | _ => p2
            end in
  Dict.get "search_depth" p3 = Some (VStr d) /\
  Dict.get "topic" p3 = Some (VStr t) /\
  Dict.get "max_results" p3 = Some (VInt m).
Proof.
  destruct days, include_domains as [[|? ?]|], exclude_domains as [[|? ?]|];
    repeat split; reflexivity.
Qed.

(** C10.  With a configured client, [tavily_search] passes to the backend
    the normalized values of [search_depth] ("basic" unless "basic" or
    "advanced"), [topic] ("general" unless "general", "news" or "finance")
    and [max_results] (5 unless within 1..20); a returned result echoes
    the normalized [search_depth] and [topic]; and the call is the very
    call made with the normalized values, so that the replacement reports
    no error of its own. *)
Theorem tavily_search_normalizes :
  forall (remote : Oracle) (now : list call -> datetime) (lib : Py.library)
         (st : State TavilyContext)
         (c : TavilyClient) (asked requested_depth requested_topic : string)
         (days : option Z) (requested_max : Z)
         (include_domains exclude_domains : option (list string))
         (include_answer include_raw_content include_images : bool),
    truthy_opt (api_key (lifespan_context st)) = true ->
    client (lifespan_context st) = Some c ->
    let d := normalized_search_depth requested_depth in
    let t := normalized_topic requested_topic in
    let m := normalized_max_results requested_max in
    let out := tavily_search remote now lib asked requested_depth requested_topic days
                 requested_max include_domains exclude_domains include_answer
                 include_raw_content include_images st in
    (exists kwargs reply,
        calls (snd out) = Call (Tavily (Search kwargs)) reply :: calls st /\
        Dict.get "search_depth" kwargs = Some (VStr d) /\
        Dict.get "topic" kwargs = Some (VStr t) /\
        Dict.get "max_results" kwargs = Some (VInt m)) /\
    (forall result, fst out = Ok result -> search_depth result = d /\ topic result = t) /\
    out = tavily_search remote now lib asked d t days m include_domains exclude_domains
            include_answer include_raw_content include_images st.
Proof.
  intros remote now lib st c asked requested_depth requested_topic days requested_max
    include_domains exclude_domains include_answer include_raw_content include_images
    Hkey Hclient d t m out.
  assert (Hget := _get_tavily_client_configured st c Hkey Hclient).
  assert (Hout : out = tavily_search remote now lib asked d t days m include_domains
                         exclude_domains include_answer include_raw_content
                         include_images st).
  { subst out d t m. now rewrite tavily_search_normalized_call. }
  split; [|split; [|exact Hout]].
  - subst out. unfold tavily_search.
    rewrite search_depth_guard, topic_guard, max_results_guard. fold d t m.
    destruct (search_params_checked asked d t m include_answer include_raw_content
                include_images days include_domains exclude_domains) as (Hd & Ht & Hm).
    cbv zeta in Hd, Ht, Hm.
    match type of Hd with Dict.get _ ?p = _ => set (kwargs := p) in * end.
    exists kwargs, (remote _ (calls st) (Tavily (Search kwargs))).
    split; [|auto].
    unfold try_except. unfold bind at 1. rewrite Hget.
    unfold bind at 1. unfold info at 1, log at 1.
    unfold bind at 1. unfold datetime_now at 1.
    unfold bind at 1. unfold request at 1.
    cbn [calls lifespan_context messages next_handle record].
    destruct (remote value (calls st) (Tavily (Search kwargs))) as [data|e].
    + lazymatch goal with
      | |- calls (snd (let (r, st') := ?rest ?s in _)) = _ =>
          transitivity (calls s); [|reflexivity];
          apply (cp_try_except rest
                   (fun e => error (Str.fmt ["Search failed: "; str e]) ;;
                             raise (ValueError (Str.fmt ["Search failed: "; str e]))))
      end.
      * no_calls; auto using cp_search_item, cp_search_image.
      * intros e. no_calls.
    + reflexivity.
  - intros result Hres.
    assert (Hret : returns (fun r => search_depth r = d /\ topic r = t)
                     (tavily_search remote now lib asked requested_depth requested_topic days
                        requested_max include_domains exclude_domains include_answer
                        include_raw_content include_images)).
    { unfold tavily_search.
      rewrite search_depth_guard, topic_guard, max_results_guard. fold d t m.
      apply returns_try_except.
      - repeat (apply returns_bind; intros ?). apply returns_ret. split; reflexivity.
      - intros e. apply returns_bind. intros _. apply returns_raise. }
    subst out. clear Hout.
    destruct (tavily_search _ _ _ _ _ _ _ _ _ _ _ _ _ st) as [r st'] eqn:E.
    simpl in Hres. subst r. exact (Hret _ _ _ E).
Qed.

Lemma tavily_search_normalizes_witness :
  let out := tavily_search (demo_remote true) demo_now demo_lib "rocq" "deep" "sports" None 50
               None None true false false
               (initial_state (tavily_lifespan (Some "tvly-key"))) in
  (exists result,
      fst out = Ok result /\ search_depth result = "basic" /\ topic result = "general") /\
  (exists kwargs reply,
      calls (snd out) = [Call (Tavily (Search kwargs)) reply] /\
      Dict.get "search_depth" kwargs = Some (VStr "basic") /\
      Dict.get "topic" kwargs = Some (VStr "general") /\
      Dict.get "max_results" kwargs = Some (VInt 5)).
Proof.
  intros out.
  destruct (tavily_search_normalizes (demo_remote true) demo_now demo_lib
              (initial_state (tavily_lifespan (Some "tvly-key")))
              {| client_api_key := "tvly-key" |} "rocq" "deep" "sports" None 50
              None None true false false eq_refl eq_refl) as (Hcall & Hecho & _).
  fold out in Hcall, Hecho. split.
  - destruct (fst out) as [result|e] eqn:E; [|vm_compute in E; discriminate].
    exists result. split; [reflexivity|]. exact (Hecho result eq_refl).
  - exact Hcall.
Defined.

(** ** The tool boundary (C3) *)

Section ReturnsPayload.
Context {Ctx : Type}.

Lemma rp_ret {A} (a : A) : returns_payload (@ret Ctx A a).
Proof. intros st. now exists a, st. Qed.

Lemma rp_log l msg : returns_payload (@log Ctx l msg).
Proof. intros st. unfold log. eauto. Qed.

Lemma rp_bind {A B} (c : M Ctx A) (k : A -> M Ctx B) :
  returns_payload c -> (forall a, returns_payload (k a)) -> returns_payload (bind c k).
Proof.
  intros Hc Hk st. unfold bind. destruct (Hc st) as (a & st1 & ->). apply Hk.
Qed.

(** A handler that returns makes the whole [try] return. *)
Lemma rp_try_except {A} (c : M Ctx A) (h : exn -> M Ctx A) :
  (forall e, returns_payload (h e)) -> returns_payload (try_except c h).
Proof.
  intros Hh st. unfold try_except. destruct (c st) as [[a|e] st1]; [eauto|apply Hh].
Qed.

Lemma rp_for_fold {A B} (body : B -> A -> M Ctx B) (l : list A) :
  (forall acc x, returns_payload (body acc x)) ->
  forall acc, returns_payload (for_fold l acc body).
Proof.
  intros Hbody. induction l as [|x l IH]; intros acc; simpl.
  - apply rp_ret.
  - apply rp_bind; auto.
Qed.

Lemma rp_returning {A} (f : A -> payload) (c : M Ctx A) :
  returns_payload c -> returns_payload (returning f c).
Proof.
  intros Hc st. unfold returning. destruct (Hc st) as (a & st1 & ->). eauto.
Qed.

End ReturnsPayload.

(** The handler of a tool that logs the error and returns a payload. *)
Ltac handler_returns :=
  intros ?;
  repeat first
    [ apply rp_ret
    | apply rp_log
    | apply rp_bind; [|intros ?]
    | progress unfold info, warning, error
    | match goal with |- returns_payload (match ?e with _ => _ end) => destruct e end ].

Lemma ftp_list_connections_returns remote : returns_payload (ftp_list_connections remote).
Proof.
  unfold ftp_list_connections. intros st. unfold bind at 1, get_context.
  apply rp_for_fold. intros acc [conn_id ftp].
  apply rp_bind; [|intros ?; apply rp_ret].
  apply rp_try_except. intros _. apply rp_ret.
Qed.

Lemma ftp_switch_connection_returns remote connection_id :
  returns_payload (ftp_switch_connection remote connection_id).
Proof.
  unfold ftp_switch_connection. intros st. unfold bind at 1, get_context.
  destruct (Dict.get connection_id _); [|apply rp_ret].
  apply rp_try_except. intros e. apply rp_ret.
Qed.

Lemma invoke_returns remote now strp b64decode b64encode encode decode lib i :
  is_list_directory i = false ->
  returns_payload (invoke remote now strp b64decode b64encode encode decode lib i).
Proof.
  destruct i; simpl; try discriminate; intros _; apply rp_returning;
    first [ apply ftp_list_connections_returns
          | apply ftp_switch_connection_returns
          | apply rp_try_except; handler_returns ].
Qed.

(** A handler that logs the error and raises a [ValueError] with a prefix:
    nothing else leaves the [try]. *)
Lemma raising_handler {Ctx A} (body : M Ctx A) (prefix : string) st e st' :
  try_except body
    (fun e => error (Str.fmt [prefix; str e]) ;; raise (ValueError (Str.fmt [prefix; str e])))
    st = (Raise e, st') ->
  exists cause, e = ValueError (Str.fmt [prefix; str cause]).
Proof.
  unfold try_except. destruct (body st) as [[a|cause] st1]; [discriminate|].
  unfold bind, error, log, raise. intros [= <- _]. now exists cause.
Qed.

Lemma returning_raise {Ctx A} (f : A -> payload) (c : M Ctx A) st e st' :
  returning f c st = (Raise e, st') -> c st = (Raise e, st').
Proof.
  unfold returning. destruct (c st) as [[a|e1] st1]; [discriminate|].
  now intros [= <- <-].
Qed.

Lemma invoke_tavily_raises remote now lib i st e st' :
  invoke_tavily remote now lib i st = (Raise e, st') ->
  exists cause, e = ValueError (Str.fmt [failure_prefix i; str cause]).
Proof.
  destruct i; simpl; intros H; apply returning_raise in H;
    eapply raising_handler; exact H.
Qed.

(** ** Tools that leave the context alone *)

Section ContextPreserving.
Context {Ctx : Type}.

Lemma kc_ret {A} (a : A) : context_preserving (@ret Ctx A a).
Proof. intros st. split; reflexivity. Qed.

Lemma kc_raise {A} (e : exn) : context_preserving (@raise Ctx A e).
Proof. intros st. split; reflexivity. Qed.

Lemma kc_bind {A B} (c : M Ctx A) (k : A -> M Ctx B) :
  context_preserving c -> (forall a, context_preserving (k a)) ->
  context_preserving (bind c k).
Proof.
  intros Hc Hk st. unfold bind. specialize (Hc st).
  destruct (c st) as [[a|e] st1]; simpl in *; [|exact Hc].
  destruct Hc as [<- <-]. apply Hk.
Qed.

Lemma kc_try_except {A} (c : M Ctx A) (h : exn -> M Ctx A) :
  context_preserving c -> (forall e, context_preserving (h e)) ->
  context_preserving (try_except c h).
Proof.
  intros Hc Hh st. unfold try_except. specialize (Hc st).
  destruct (c st) as [[a|e] st1]; simpl in *; [exact Hc|].
  destruct Hc as [<- <-]. apply Hh.
Qed.

Lemma kc_log l msg : context_preserving (@log Ctx l msg).
Proof. intros st. split; reflexivity. Qed.

Lemma kc_request remote {X} (e : ev X) : context_preserving (@request Ctx remote X e).
Proof. intros st. split; reflexivity. Qed.

Lemma kc_perform e : context_preserving (@perform Ctx e).
Proof. intros st. split; reflexivity. Qed.

Lemma kc_datetime_now now : context_preserving (@datetime_now Ctx now).
Proof. intros st. split; reflexivity. Qed.

Lemma kc_get_context : context_preserving (@get_context Ctx).
Proof. intros st. split; reflexivity. Qed.

Lemma kc_int lib s : context_preserving (@int Ctx lib s).
Proof. unfold int. destruct (Py.int lib s); intros st; split; reflexivity. Qed.

Lemma kc_for_fold {A B} (body : B -> A -> M Ctx B) (l : list A) :
  (forall acc x, context_preserving (body acc x)) ->
  forall acc, context_preserving (for_fold l acc body).
Proof.
  intros Hbody. induction l as [|x l IH]; intros acc; simpl.
  - apply kc_ret.
  - apply kc_bind; auto.
Qed.

Lemma kc_returning {A} (f : A -> payload) (c : M Ctx A) :
  context_preserving c -> context_preserving (returning f c).
Proof.
  intros Hc st. unfold returning. specialize (Hc st).
  now destruct (c st) as [[a|e] st1].
Qed.

End ContextPreserving.

Lemma kc_get_current_ftp : context_preserving _get_current_ftp.
Proof.
  intros [c cs ms n]. unfold _get_current_ftp. run.
  destruct (current_connection c) as [id|]; [|split; reflexivity].
  destruct (negb (Str.truthy id)); [split; reflexivity|].
  destruct (Dict.get id (connections c)); split; reflexivity.
Qed.

Create HintDb context_preserving.
#[local] Hint Resolve kc_ret kc_raise kc_log kc_request kc_perform kc_datetime_now
  kc_get_context kc_int kc_get_current_ftp : context_preserving.

(** Decomposes a computation into its binds, its handlers and the cases of
    its tests. *)
Ltac keeps_context :=
  repeat first
    [ apply kc_bind; [|intros ?]
    | apply kc_try_except; [|intros ?]
    | apply kc_for_fold; intros ? ?
    | solve [unfold info, warning, error, send, set_pasv, lift;
             auto with context_preserving]
    | progress cbv zeta
    | match goal with
      | |- context_preserving (match ?x with _ => _ end) => destruct x
      | |- context_preserving (lift ?x) => destruct x
      end ].

Lemma invoke_keeps_context remote now strp b64decode b64encode encode decode lib i :
  manages_registry i = false ->
  context_preserving (invoke remote now strp b64decode b64encode encode decode lib i).
Proof.
  destruct i; simpl; try discriminate; intros _; apply kc_returning.
  all: unfold ftp_list_connections, ftp_pwd, ftp_cwd, ftp_explore_directory,
         ftp_list_directory, collect_entries, mlsd_entry, list_line, nlst_name,
         ftp_mkdir, ftp_rmdir, ftp_delete_file, ftp_rename, ftp_upload_file,
         ftp_upload_content, ftp_download_file, ftp_download_content, ftp_get_file_size,
         ftp_set_passive_mode, ftp_get_system_info, ftp_send_noop,
         ftp_get_modification_time, ftp_create_directory_tree, create_part,
         ftp_transfer_progress.
  all: keeps_context.
Qed.

(** ** More on dicts *)

Section DictMore.
Context {V : Type}.
Implicit Types (d : dict V) (k : string) (v : V).

Lemma get_set_same k v d : Dict.get k (Dict.set k v d) = Some v.
Proof.
  induction d as [|[k' v'] d IH]; simpl.
  - now rewrite String.eqb_refl.
  - destruct (k' =? k)%string eqn:E; simpl; [now rewrite String.eqb_refl | now rewrite E].
Qed.

Lemma get_set_other k k' v d : k' <> k -> Dict.get k' (Dict.set k v d) = Dict.get k' d.
Proof.
  intros Hne. apply String.eqb_neq in Hne.
  induction d as [|[k0 v0] d IH]; simpl.
  - rewrite String.eqb_sym. now rewrite Hne.
  - destruct (k0 =? k)%string eqn:E; simpl.
    + apply String.eqb_eq in E; subst k0.
      rewrite String.eqb_sym. now rewrite Hne.
    + destruct (k0 =? k')%string; auto.
Qed.

(** Assigning to a key that is present keeps the keys and their order. *)
Lemma keys_set_present k v d : Dict.mem k d = true -> Dict.keys (Dict.set k v d) = Dict.keys d.
Proof.
  unfold Dict.mem, Dict.keys. induction d as [|[k0 v0] d IH]; simpl; [discriminate|].
  destruct (k0 =? k)%string eqn:E; simpl.
  - apply String.eqb_eq in E. now subst.
  - intros H. now rewrite IH.
Qed.

(** Assigning to a new key appends it. *)
Lemma keys_set_absent k v d :
  Dict.mem k d = false -> Dict.keys (Dict.set k v d) = Dict.keys d ++ [k].
Proof.
  unfold Dict.mem, Dict.keys. induction d as [|[k0 v0] d IH]; simpl; [reflexivity|].
  destruct (k0 =? k)%string eqn:E; simpl; [discriminate|].
  intros H. now rewrite IH.
Qed.

Lemma mem_false_keys k d : Dict.mem k d = false <-> ~ In k (Dict.keys d).
Proof.
  rewrite <- mem_In_keys. destruct (Dict.mem k d); split; intros H; congruence.
Qed.

Lemma NoDup_keys_set k v d : NoDup (Dict.keys d) -> NoDup (Dict.keys (Dict.set k v d)).
Proof.
  intros H. destruct (Dict.mem k d) eqn:E.
  - now rewrite keys_set_present.
  - rewrite keys_set_absent by exact E.
    apply NoDup_app; [exact H | repeat constructor; intros [] | ].
    intros x Hx [<-|[]]. now apply mem_false_keys in E.
Qed.

Lemma NoDup_keys_del k d : NoDup (Dict.keys d) -> NoDup (Dict.keys (Dict.del k d)).
Proof.
  unfold Dict.keys, Dict.del. induction d as [|[k0 v0] d IH]; simpl; [auto|].
  intros H. inversion H as [|? ? Hnotin Hnd]; subst.
  destruct (negb (k0 =? k)%string); simpl; auto.
  constructor; auto.
  intros Hin. apply Hnotin. apply in_map_iff in Hin as ([k1 v1] & <- & Hin).
  apply filter_In in Hin as [Hin _]. now apply (in_map fst) in Hin.
Qed.

(** The values after an assignment are the new one and old ones. *)
Lemma values_set {B} (g : V -> B) k v d :
  incl (map (fun kv => g (snd kv)) (Dict.set k v d)) (g v :: map (fun kv => g (snd kv)) d).
Proof.
  induction d as [|[k0 v0] d IH]; simpl.
  - apply incl_refl.
  - destruct (k0 =? k)%string; simpl.
    + intros x [<-|H]; [now left | now right; right].
    + intros x [<-|H]; [now right; left|].
      destruct (IH x H) as [<-|H']; [now left | now right; right].
Qed.

Lemma NoDup_values_set {B} (g : V -> B) k v d :
  NoDup (map (fun kv => g (snd kv)) d) ->
  ~ In (g v) (map (fun kv => g (snd kv)) d) ->
  NoDup (map (fun kv => g (snd kv)) (Dict.set k v d)).
Proof.
  induction d as [|[k0 v0] d IH]; simpl; intros Hnd Hnew.
  - repeat constructor. intros [].
  - inversion Hnd as [|? ? Hnotin Hnd']; subst.
    destruct (k0 =? k)%string; simpl.
    + constructor; [tauto | exact Hnd'].
    + constructor; [|apply IH; tauto].
      intros Hin. destruct (values_set g k v d _ Hin) as [E|Hin']; [|tauto].
      apply Hnew. now left.
Qed.

Lemma values_del {B} (g : V -> B) k d :
  incl (map (fun kv => g (snd kv)) (Dict.del k d)) (map (fun kv => g (snd kv)) d).
Proof.
  unfold Dict.del. induction d as [|[k0 v0] d IH]; simpl; [apply incl_refl|].
  destruct (negb (k0 =? k)%string); simpl.
  - intros x [<-|H]; [now left | right; now apply IH].
  - intros x H. right. now apply IH.
Qed.

Lemma NoDup_values_del {B} (g : V -> B) k d :
  NoDup (map (fun kv => g (snd kv)) d) ->
  NoDup (map (fun kv => g (snd kv)) (Dict.del k d)).
Proof.
  induction d as [|[k0 v0] d IH]; simpl; intros Hnd; [constructor|].
  inversion Hnd as [|? ? Hnotin Hnd']; subst.
  unfold Dict.del in *. simpl. destruct (negb (k0 =? k)%string); simpl; auto.
  constructor; auto. intros Hin. apply Hnotin. exact (values_del g k d _ Hin).
Qed.

End DictMore.

(** ** The registry under every tool *)

Lemma ftp_connect_cases remote connection_id host username password port passive timeout st :
  let st' := snd (ftp_connect remote connection_id host username password port passive
                    timeout st) in
  next_handle st' = S (next_handle st) /\
  (lifespan_context st' = lifespan_context st \/
   exists greeting,
     lifespan_context st'
     = {| connections :=
            Dict.set connection_id {| handle := next_handle st; welcome := greeting |}
              (connections (lifespan_context st));
          current_connection := Some connection_id |}).
Proof.
  destruct st as [c cs ms n]. unfold ftp_connect. run.
  answer; auto. answer; auto.
  split; [reflexivity|]. right. eexists. reflexivity.
Qed.

Lemma ftp_disconnect_next_handle remote connection_id st :
  next_handle (snd (ftp_disconnect remote connection_id st)) = next_handle st.
Proof.
  destruct st as [c cs ms n]. unfold ftp_disconnect. run.
  destruct (match connection_id with
            | Some _ => connection_id
            | None => current_connection c
            end) as [cid|]; simpl; [|reflexivity].
  destruct (Str.truthy cid); simpl; [|reflexivity].
  destruct (Dict.get cid (connections c)) as [ftp|]; simpl; [|reflexivity].
  repeat (simpl; match goal with
    | |- context [match ?r ?X ?h ?e with Ok _ => _ | Raise _ => _ end] =>
        destruct (r X h e) as [?|?]
    | |- context [if ?b then _ else _] => destruct b
    end); reflexivity.
Qed.

Lemma ftp_switch_connection_frame remote connection_id st :
  let st' := snd (ftp_switch_connection remote connection_id st) in
  connections (lifespan_context st') = connections (lifespan_context st) /\
  next_handle st' = next_handle st.
Proof.
  destruct st as [c cs ms n]. unfold ftp_switch_connection. run.
  destruct (Dict.get connection_id _) as [ftp|]; simpl; auto.
  answer; auto.
Qed.

Lemma Forall_lt_S (l : list nat) n :
  Forall (fun h => (h < n)%nat) l -> Forall (fun h => (h < S n)%nat) l.
Proof. apply Forall_impl. intros; lia. Qed.

(** Every tool keeps the registry sound. *)
Lemma invoke_registry remote now strp b64decode b64encode encode decode lib i st :
  registry_sound st ->
  registry_sound (snd (invoke remote now strp b64decode b64encode encode decode lib i st)).
Proof.
  intros (Hnd & Hinv & Hobj & Hold).
  destruct (manages_registry i) eqn:Hi.
  - destruct i; try discriminate Hi; simpl; unfold returning.
    + pose proof (ftp_connect_cases remote connection_id host username password port
                    passive timeout st) as [Hn Hc].
      pose proof (ftp_connect_invariant remote connection_id host username password port
                    passive timeout st Hinv) as Hi'.
      destruct (ftp_connect _ _ _ _ _ _ _ _ st) as [[r|e] st']; simpl in *;
        unfold registry_sound; rewrite Hn;
        (destruct Hc as [Hc|[greeting Hc]]; rewrite Hc in *;
         [ auto using Forall_lt_S
         | unfold sessions; simpl;
           assert (Hfresh : ~ In (next_handle st) (sessions (lifespan_context st)))
             by (intros Hin; rewrite Forall_forall in Hold; specialize (Hold _ Hin); lia);
           repeat split;
           [ now apply NoDup_keys_set
           | exact Hi'
           | now apply (NoDup_values_set handle)
           | apply Forall_forall; intros x Hx;
             destruct (values_set handle _ _ _ _ Hx) as [<-|Hx']; [simpl; lia|];
             rewrite Forall_forall in Hold; specialize (Hold _ Hx'); lia ] ]).
    + pose proof (ftp_disconnect_cases remote connection_id st) as Hc.
      pose proof (ftp_disconnect_invariant remote connection_id st Hinv) as Hi'.
      pose proof (ftp_disconnect_next_handle remote connection_id st) as Hn.
      destruct (ftp_disconnect _ _ st) as [[r|e] st']; simpl in *;
        unfold registry_sound; rewrite Hn;
        (destruct Hc as [[Hc _]|(id & _ & _ & _ & Hc)]; rewrite Hc in *; [auto|];
         assert (Hconn : connections (after_disconnect id (lifespan_context st))
                         = Dict.del id (connections (lifespan_context st)))
           by (unfold after_disconnect; now destruct (option_string_eqb _ _));
         unfold sessions; rewrite Hconn;
         repeat split;
         [ now apply NoDup_keys_del
         | exact Hi'
         | now apply (NoDup_values_del handle)
         | apply Forall_forall; intros x Hx;
           rewrite Forall_forall in Hold; apply Hold;
           exact (values_del handle _ _ _ Hx) ]).
    + pose proof (ftp_switch_connection_frame remote connection_id st) as [Hc Hn].
      pose proof (ftp_switch_connection_invariant remote connection_id st Hinv) as Hi'.
      destruct (ftp_switch_connection _ _ st) as [[r|e] st']; simpl in *;
        unfold registry_sound, sessions; rewrite Hn, Hc; auto.
  - destruct (invoke_keeps_context remote now strp b64decode b64encode encode decode lib i Hi st)
      as [Hc Hn].
    unfold registry_sound. rewrite Hc, Hn. auto.
Qed.

Lemma run_invocations_registry remote now strp b64decode b64encode encode decode lib l :
  forall st,
    registry_sound st ->
    registry_sound (run_invocations remote now strp b64decode b64encode encode decode lib l st).
Proof.
  induction l as [|i l IH]; intros st H; simpl; auto.
  apply IH. now apply invoke_registry.
Qed.

Lemma registry_sound_initial : registry_sound (initial_state ftp_lifespan).
Proof. repeat split; constructor. Qed.

(** X1.  Whatever tools are invoked from start-up, with whatever arguments
    and whatever the remote side and the local system answer, the registry
    stays sound: the ids of the registered connections are pairwise
    distinct, [current_connection] is [None] or one of them, and no two ids
    share a session. *)
Theorem registry_sound_under_all_tools :
  forall (remote : Oracle) (now : list call -> datetime)
         (strptime_strftime : string -> string -> string -> option string)
         (b64decode : string -> result string) (b64encode : string -> string)
         (encode decode : string -> string -> result string)
         (lib : Py.library)
         (l : list ftp_invocation),
    let st := run_invocations remote now strptime_strftime b64decode b64encode encode
                decode lib l (initial_state ftp_lifespan) in
    NoDup (Dict.keys (connections (lifespan_context st))) /\
    registry_invariant (lifespan_context st) /\
    NoDup (sessions (lifespan_context st)).
Proof.
  intros.
  destruct (run_invocations_registry remote now strptime_strftime b64decode b64encode
              encode decode lib l _ registry_sound_initial) as (H1 & H2 & H3 & _).
  auto.
Qed.

(** X2.  The tools other than [ftp_connect], [ftp_disconnect] and
    [ftp_switch_connection] leave [connections] and [current_connection] as
    they found them, whatever they are given and whatever is answered. *)
Theorem only_registry_tools_change_context :
  forall (remote : Oracle) (now : list call -> datetime)
         (strptime_strftime : string -> string -> string -> option string)
         (b64decode : string -> result string) (b64encode : string -> string)
         (encode decode : string -> string -> result string)
         (lib : Py.library)
         (i : ftp_invocation) (st : State FTPContext),
    manages_registry i = false ->
    lifespan_context
      (snd (invoke remote now strptime_strftime b64decode b64encode encode decode lib i st))
    = lifespan_context st.
Proof.
  intros. now apply invoke_keeps_context.
Qed.

Lemma only_registry_tools_change_context_witness :
  lifespan_context
    (snd (invoke (demo_remote false) demo_now demo_strptime_strftime demo_b64decode
            demo_b64encode demo_encode demo_decode demo_lib
            (Ftp_create_directory_tree "a/b/c") (demo_state false)))
  = lifespan_context (demo_state false).
Proof.
  apply (only_registry_tools_change_context (demo_remote false) demo_now
           demo_strptime_strftime demo_b64decode demo_b64encode demo_encode demo_decode demo_lib
           (Ftp_create_directory_tree "a/b/c") (demo_state false)).
  reflexivity.
Defined.

(** X3.  In every state the tools can reach from start-up,
    [_get_current_ftp] either returns the session registered under
    [current_connection] or raises "No active FTP connection": its "not
    found" error does not occur. *)
Theorem current_connection_always_resolves :
  forall (remote : Oracle) (now : list call -> datetime)
         (strptime_strftime : string -> string -> string -> option string)
         (b64decode : string -> result string) (b64encode : string -> string)
         (encode decode : string -> string -> result string)
         (lib : Py.library)
         (l : list ftp_invocation),
    let st := run_invocations remote now strptime_strftime b64decode b64encode encode
                decode lib l (initial_state ftp_lifespan) in
    (exists id ftp,
        current_connection (lifespan_context st) = Some id /\
        Dict.get id (connections (lifespan_context st)) = Some ftp /\
        _get_current_ftp st = (Ok ftp, st)) \/
    (truthy_opt (current_connection (lifespan_context st)) = false /\
     _get_current_ftp st
     = (Raise (ValueError "No active FTP connection. Use ftp_connect first."), st)).
Proof.
  intros.
  destruct (run_invocations_registry remote now strptime_strftime b64decode b64encode
              encode decode lib l _ registry_sound_initial) as (_ & Hinv & _).
  fold st in Hinv. clearbody st. destruct st as [c cs ms n].
  unfold registry_invariant, Dict.mem in Hinv. unfold _get_current_ftp. run. simpl in *.
  destruct (current_connection c) as [id|]; [|right; split; reflexivity].
  simpl. destruct (Str.truthy id); simpl; [|right; split; reflexivity].
  destruct (Dict.get id (connections c)) as [ftp|] eqn:Hget; [|discriminate].
  left. exists id, ftp. repeat split; auto.
Qed.

(** ** Connecting and disconnecting *)

(** X4.  After a successful [ftp_connect] under a non-empty id, the new
    session is registered under that id, the other entries are as before,
    and the connection-dependent tools resolve the new session, whether or
    not the id was in use. *)
Theorem ftp_connect_establishes_current :
  forall (remote : Oracle) (connection_id host username password : string)
         (port : Z) (passive : bool) (timeout : Z) (st : State FTPContext)
         (greeting reply : string),
    let h := next_handle st in
    let ftp := {| handle := h; welcome := greeting |} in
    Str.truthy connection_id = true ->
    remote _ (calls st) (Ftp h (Connect host port timeout)) = Ok greeting ->
    remote _ (Call (Ftp h (Set_pasv passive)) (Ok tt)
                :: Call (Ftp h (Connect host port timeout)) (Ok greeting) :: calls st)
      (Ftp h (Login username password)) = Ok reply ->
    let out := ftp_connect remote connection_id host username password port passive
                 timeout st in
    fst out = Ok (Str.fmt ["Connected to "; host; ":"; Str.of_Z port; " as "; username;
                           ". Welcome message: "; greeting]) /\
    Dict.get connection_id (connections (lifespan_context (snd out))) = Some ftp /\
    (forall other,
        other <> connection_id ->
        Dict.get other (connections (lifespan_context (snd out)))
        = Dict.get other (connections (lifespan_context st))) /\
    _get_current_ftp (snd out) = (Ok ftp, snd out).
Proof.
  intros remote connection_id host username password port passive timeout st greeting
    reply h ftp Hid Hconnect Hlogin out. subst out h ftp.
  destruct st as [c cs ms n]. unfold ftp_connect. run. simpl in *.
  rewrite Hconnect. simpl. rewrite Hlogin. simpl.
  split; [reflexivity|]. split; [apply get_set_same|].
  split; [intros other Hne; now apply get_set_other|].
  unfold _get_current_ftp. run. simpl. rewrite Hid. simpl.
  now rewrite get_set_same.
Qed.

Lemma ftp_connect_establishes_current_witness :
  let out := ftp_connect (demo_remote false) "s2" "ftp.example.org" "alice" "secret" 21
               true 30 (demo_state false) in
  let ftp := {| handle := 1; welcome := "220 Service ready" |} in
  fst out = Ok "Connected to ftp.example.org:21 as alice. Welcome message: 220 Service ready" /\
  Dict.get "s2" (connections (lifespan_context (snd out))) = Some ftp /\
  (forall other,
      other <> "s2" ->
      Dict.get other (connections (lifespan_context (snd out)))
      = Dict.get other (connections (lifespan_context (demo_state false)))) /\
  _get_current_ftp (snd out) = (Ok ftp, snd out).
Proof.
  exact (ftp_connect_establishes_current (demo_remote false) "s2" "ftp.example.org" "alice"
           "secret" 21 true 30 (demo_state false) "220 Service ready"
           "230 Login successful." eq_refl eq_refl eq_refl).
Defined.

(** X5.  A session connected under the empty id is registered and made
    current, yet the connection-dependent tools report that there is no
    active connection, and [ftp_disconnect] neither with that id nor without
    an argument closes or removes it: both answer "No active connection to
    disconnect" and change nothing. *)
Theorem ftp_connect_empty_id_unreachable :
  forall (remote : Oracle) (host username password : string)
         (port : Z) (passive : bool) (timeout : Z) (st : State FTPContext)
         (greeting reply : string),
    let h := next_handle st in
    remote _ (calls st) (Ftp h (Connect host port timeout)) = Ok greeting ->
    remote _ (Call (Ftp h (Set_pasv passive)) (Ok tt)
                :: Call (Ftp h (Connect host port timeout)) (Ok greeting) :: calls st)
      (Ftp h (Login username password)) = Ok reply ->
    let st1 := snd (ftp_connect remote "" host username password port passive timeout st) in
    Dict.get "" (connections (lifespan_context st1))
    = Some {| handle := h; welcome := greeting |} /\
    current_connection (lifespan_context st1) = Some "" /\
    _get_current_ftp st1
    = (Raise (ValueError "No active FTP connection. Use ftp_connect first."), st1) /\
    ftp_disconnect remote None st1 = (Ok "No active connection to disconnect", st1) /\
    ftp_disconnect remote (Some "") st1 = (Ok "No active connection to disconnect", st1).
Proof.
  intros remote host username password port passive timeout st greeting reply h
    Hconnect Hlogin st1. subst st1 h.
  destruct st as [c cs ms n]. unfold ftp_connect. run. simpl in *.
  rewrite Hconnect. simpl. rewrite Hlogin. simpl.
  split; [apply get_set_same|]. repeat split.
Qed.

Lemma ftp_connect_empty_id_unreachable_witness :
  let st1 := snd (ftp_connect (demo_remote false) "" "ftp.example.org" "alice" "secret" 21
                    true 30 (initial_state ftp_lifespan)) in
  Dict.get "" (connections (lifespan_context st1))
  = Some {| handle := 0; welcome := "220 Service ready" |} /\
  current_connection (lifespan_context st1) = Some "" /\
  _get_current_ftp st1
  = (Raise (ValueError "No active FTP connection. Use ftp_connect first."), st1) /\
  ftp_disconnect (demo_remote false) None st1
  = (Ok "No active connection to disconnect", st1) /\
  ftp_disconnect (demo_remote false) (Some "") st1
  = (Ok "No active connection to disconnect", st1).
Proof.
  exact (ftp_connect_empty_id_unreachable (demo_remote false) "ftp.example.org" "alice"
           "secret" 21 true 30 (initial_state ftp_lifespan) "220 Service ready"
           "230 Login successful." eq_refl eq_refl).
Defined.

(** The calls [ftp_connect] makes are addressed to the object it creates. *)
Lemma ftp_connect_calls remote connection_id host username password port passive timeout st :
  exists l,
    calls (snd (ftp_connect remote connection_id host username password port passive
                  timeout st)) = l ++ calls st /\
    Forall (fun c => call_handle c = Some (next_handle st)) l.
Proof.
  destruct st as [c cs ms n]. unfold ftp_connect. run.
  destruct (remote _ cs (Ftp n (Connect host port timeout))) as [greeting|e].
  2: { eexists [_]. destruct e; simpl; split; try reflexivity; repeat constructor. }
  simpl.
  destruct (remote _ _ (Ftp n (Login username password))) as [reply|e].
  2: { eexists [_; _; _]. destruct e; simpl; split; try reflexivity; repeat constructor. }
  eexists [_; _; _]. simpl; split; try reflexivity; repeat constructor.
Qed.

(** X6.  [ftp_connect] under an id that is in use calls no method of the
    session object registered there, whatever the outcome: it sends no
    QUIT and no other command to the old server, and does not call
    [close].  When the new connection succeeds, the new object takes the
    place of the old one in [connections], the ids and their order being as
    before; what the runtime does with the old object, once nothing refers
    to it, is not part of the model. *)
Theorem ftp_connect_calls_nothing_on_replaced_session :
  forall (remote : Oracle) (connection_id host username password : string)
         (port : Z) (passive : bool) (timeout : Z) (st : State FTPContext) (old : FTP),
    Dict.get connection_id (connections (lifespan_context st)) = Some old ->
    handle old <> next_handle st ->
    let h := next_handle st in
    let out := ftp_connect remote connection_id host username password port passive
                 timeout st in
    existsb (addressed_to (handle old)) (new_calls st (snd out)) = false /\
    (forall greeting reply,
        remote _ (calls st) (Ftp h (Connect host port timeout)) = Ok greeting ->
        remote _ (Call (Ftp h (Set_pasv passive)) (Ok tt)
                    :: Call (Ftp h (Connect host port timeout)) (Ok greeting) :: calls st)
          (Ftp h (Login username password)) = Ok reply ->
        Dict.keys (connections (lifespan_context (snd out)))
        = Dict.keys (connections (lifespan_context st)) /\
        Dict.get connection_id (connections (lifespan_context (snd out)))
        = Some {| handle := h; welcome := greeting |}).
Proof.
  intros remote connection_id host username password port passive timeout st old Hold
    Hfresh h out. subst out h. split.
  - destruct (ftp_connect_calls remote connection_id host username password port passive
                timeout st) as (l & Hcalls & Hl).
    rewrite (new_calls_app _ _ _ Hcalls). clear Hcalls.
    induction Hl as [|x l Hx Hl IH]; simpl; [reflexivity|].
    rewrite IH, orb_false_r. unfold addressed_to. rewrite Hx.
    apply Nat.eqb_neq. congruence.
  - intros greeting reply Hconnect Hlogin.
    destruct st as [c cs ms n]. unfold ftp_connect. run. simpl in *.
    rewrite Hconnect. simpl. rewrite Hlogin. simpl. split.
    + apply keys_set_present. eapply mem_get; eauto.
    + apply get_set_same.
Qed.

Lemma ftp_connect_calls_nothing_on_replaced_session_witness :
  let out := ftp_connect (demo_remote false) "s1" "ftp.example.org" "alice" "secret" 2121
               false 30 (demo_state false) in
  existsb (addressed_to 0) (new_calls (demo_state false) (snd out)) = false /\
  Dict.keys (connections (lifespan_context (snd out))) = ["s1"] /\
  Dict.get "s1" (connections (lifespan_context (snd out)))
  = Some {| handle := 1; welcome := "220 Service ready" |}.
Proof.
  cbv zeta.
  destruct (ftp_connect_calls_nothing_on_replaced_session (demo_remote false) "s1" "ftp.example.org"
              "alice" "secret" 2121 false 30 (demo_state false)
              {| handle := 0; welcome := "220 Service ready" |} eq_refl)
    as [Hcalls Hsuccess].
  - vm_compute. discriminate.
  - split; [exact Hcalls|].
    exact (Hsuccess "220 Service ready" "230 Login successful." eq_refl eq_refl).
Defined.

(** X7.  When neither QUIT nor the closing of the socket succeeds,
    [ftp_disconnect] reports the error and the session stays registered: the
    context is unchanged. *)
Theorem ftp_disconnect_keeps_session_it_cannot_close :
  forall (remote : Oracle) (connection_id : option string) (st : State FTPContext)
         (id : string) (ftp : FTP) (e1 e2 : exn),
    disconnect_target connection_id (lifespan_context st) = Some id ->
    Str.truthy id = true ->
    Dict.get id (connections (lifespan_context st)) = Some ftp ->
    remote _ (calls st) (Ftp (handle ftp) Quit) = Raise e1 ->
    remote _ (Call (Ftp (handle ftp) Quit) (Raise e1) :: calls st) (Ftp (handle ftp) Close)
    = Raise e2 ->
    let out := ftp_disconnect remote connection_id st in
    fst out = Ok (Str.fmt ["Error disconnecting: "; str e2]) /\
    lifespan_context (snd out) = lifespan_context st /\
    calls (snd out)
    = Call (Ftp (handle ftp) Close) (Raise e2)
        :: Call (Ftp (handle ftp) Quit) (Raise e1) :: calls st.
Proof.
  intros remote connection_id st id ftp e1 e2 Htarget Hid Hget Hquit Hclose out.
  subst out. destruct st as [c cs ms n].
  unfold ftp_disconnect, disconnect_target in *. run. simpl in *.
  rewrite Htarget. simpl. rewrite Hid. simpl. rewrite Hget. simpl.
  rewrite Hquit. simpl. rewrite Hclose. simpl. repeat split.
Qed.

Lemma ftp_disconnect_keeps_session_it_cannot_close_witness :
  let out := ftp_disconnect dead_remote None (demo_state false) in
  fst out = Ok "Error disconnecting: timed out" /\
  lifespan_context (snd out) = lifespan_context (demo_state false) /\
  calls (snd out)
  = Call (Ftp 0 Close) (Raise (OtherError "timed out"))
      :: Call (Ftp 0 Quit) (Raise (OtherError "timed out")) :: calls (demo_state false).
Proof.
  exact (ftp_disconnect_keeps_session_it_cannot_close dead_remote None (demo_state false)
           "s1" {| handle := 0; welcome := "220 Service ready" |}
           (OtherError "timed out") (OtherError "timed out")
           eq_refl eq_refl eq_refl eq_refl eq_refl).
Defined.

(** ** Listing the connections, shutting down, reading the resources *)

Section DictAppend.
Context {V : Type}.
Implicit Types (d : dict V) (k : string) (v : V).

Lemma set_absent k v d : Dict.mem k d = false -> Dict.set k v d = d ++ [(k, v)].
Proof.
  unfold Dict.mem. induction d as [|[k0 v0] d IH]; simpl; [reflexivity|].
  destruct (k0 =? k)%string; [discriminate|]. intros H. now rewrite IH.
Qed.

Lemma mem_app_singleton k k' v d :
  k' <> k -> Dict.mem k' d = false -> Dict.mem k' (d ++ [(k, v)]) = false.
Proof.
  unfold Dict.mem. intros Hne. induction d as [|[k0 v0] d IH]; simpl.
  - apply String.eqb_neq in Hne. rewrite String.eqb_sym. now rewrite Hne.
  - destruct (k0 =? k')%string; [discriminate | exact IH].
Qed.

End DictAppend.

(** The loop of [ftp_list_connections] over connections whose ids are new
    to [result] and distinct, [body] being its body. *)
Lemma ftp_list_connections_loop (remote : Oracle) current
    (body : dict string -> string * FTP -> M FTPContext (dict string)) :
  (forall result id ftp c cs ms n,
      body result (id, ftp) (mkState c cs ms n)
      = let r := remote _ cs (Ftp (handle ftp) (Voidcmd "NOOP")) in
        (Ok (Dict.set id (noop_status current id r) result),
         mkState c (Call (Ftp (handle ftp) (Voidcmd "NOOP")) r :: cs) ms n)) ->
  forall (l : dict FTP) (result : dict string) (st : State FTPContext),
    NoDup (Dict.keys l) ->
    (forall k, In k (Dict.keys l) -> Dict.mem k result = false) ->
    exists replies,
      length replies = length l /\
      for_fold l result body st
      = (Ok (result
             ++ map (fun p => (fst (fst p), noop_status current (fst (fst p)) (snd p)))
                  (combine l replies)),
         mkState (lifespan_context st)
           (rev (map (fun p => Call (Ftp (handle (snd (fst p))) (Voidcmd "NOOP")) (snd p))
                   (combine l replies)) ++ calls st)
           (messages st) (next_handle st)).
Proof.
  intros Hbody.
  induction l as [|[id ftp] l IH]; intros result st Hnd Hnew.
  - exists []. destruct st. simpl. unfold ret. now rewrite app_nil_r.
  - inversion Hnd as [|? ? Hnotin Hnd']; subst.
    destruct st as [c cs ms n]. simpl for_fold.
    unfold bind at 1. rewrite Hbody. cbv zeta.
    set (r := remote string cs (Ftp (handle ftp) (Voidcmd "NOOP"))).
    rewrite set_absent by (apply Hnew; now left).
    destruct (IH (result ++ [(id, noop_status current id r)])
                (mkState c (Call (Ftp (handle ftp) (Voidcmd "NOOP")) r :: cs) ms n) Hnd')
      as (replies & Hlen & Hrun).
    { intros k Hk. apply mem_app_singleton.
      - intros ->. exact (Hnotin Hk).
      - apply Hnew. now right. }
    exists (r :: replies). split; [simpl; now rewrite Hlen|].
    rewrite Hrun. cbn [combine map fst snd rev calls lifespan_context messages next_handle].
    now rewrite <- !app_assoc.
Qed.

(** X8.  With distinct ids, [ftp_list_connections] sends one NOOP to each
    registered session, in the order of registration, and returns one entry
    per connection in that order: "Disconnected" where the NOOP raised,
    "Active (Current)" at the current connection and "Active" elsewhere. It
    never raises and changes neither the context nor the log. *)
Theorem ftp_list_connections_reports_each :
  forall (remote : Oracle) (st : State FTPContext),
    let c := lifespan_context st in
    NoDup (Dict.keys (connections c)) ->
    exists replies,
      length replies = length (connections c) /\
      ftp_list_connections remote st
      = (Ok (map (fun p => (fst (fst p),
                            noop_status (current_connection c) (fst (fst p)) (snd p)))
               (combine (connections c) replies)),
         mkState c
           (rev (map (fun p => Call (Ftp (handle (snd (fst p))) (Voidcmd "NOOP")) (snd p))
                   (combine (connections c) replies)) ++ calls st)
           (messages st) (next_handle st)).
Proof.
  intros remote st c Hnd. subst c.
  unfold ftp_list_connections. unfold bind at 1, get_context.
  eapply (ftp_list_connections_loop remote (current_connection (lifespan_context st)))
    with (result := []); [|exact Hnd|reflexivity].
  intros result id ftp c cs ms n. run.
  now destruct (remote _ cs (Ftp (handle ftp) (Voidcmd "NOOP"))).
Qed.

Lemma ftp_list_connections_reports_each_witness :
  exists replies,
    length replies = 1%nat /\
    fst (ftp_list_connections dead_remote (demo_state false))
    = Ok (map (fun p => (fst (fst p), noop_status (Some "s1") (fst (fst p)) (snd p)))
            (combine (connections (lifespan_context (demo_state false))) replies)).
Proof.
  destruct (ftp_list_connections_reports_each dead_remote (demo_state false))
    as (replies & Hlen & Hrun).
  - vm_compute. repeat constructor. intros [].
  - exists replies. split; [exact Hlen | now rewrite Hrun].
Defined.

(** The loop of the shutdown, [body] being its body. *)
Lemma shutdown_loop (body : unit -> string * FTP -> M FTPContext unit) :
  (forall id ftp c cs ms n,
      exists l,
        shutdown_calls ftp l /\
        body tt (id, ftp) (mkState c cs ms n) = (Ok tt, mkState c (rev l ++ cs) ms n)) ->
  forall (l : dict FTP) (st : State FTPContext),
    exists log,
      Forall2 (fun item sent => shutdown_calls (snd item) sent) l log /\
      for_fold l tt body st
      = (Ok tt,
         mkState (lifespan_context st) (rev (concat log) ++ calls st) (messages st)
           (next_handle st)).
Proof.
  intros Hbody. induction l as [|[id ftp] l IH]; intros [c cs ms n].
  - exists []. split; [constructor | reflexivity].
  - simpl for_fold. unfold bind at 1.
    destruct (Hbody id ftp c cs ms n) as (sent & Hsent & ->).
    destruct (IH (mkState c (rev sent ++ cs) ms n)) as (log & Hlog & ->).
    exists (sent :: log). split; [now constructor|].
    cbn [calls lifespan_context messages next_handle concat].
    now rewrite rev_app_distr, <- app_assoc.
Qed.


(** X10.  Reading a resource of the FTP server never raises and leaves
    [connections] and [current_connection] as they were, whatever the
    servers answer. *)
Theorem ftp_resources_total_and_read_only :
  forall (remote : Oracle) (r : ftp_resource) (st : State FTPContext),
    exists text st',
      read_resource remote r st = (Ok text, st') /\
      lifespan_context st' = lifespan_context st.
Proof.
  intros remote r st.
  assert (Hret : returns_payload (read_resource remote r)).
  { destruct r; simpl.
    - unfold get_connections_status. intros s. unfold bind at 1, get_context.
      destruct (connections (lifespan_context s)); [apply rp_ret|].
      apply rp_bind; [|intros ?; apply rp_ret].
      apply rp_for_fold. intros acc [conn_id ftp].
      apply rp_bind; [|intros ?; apply rp_ret].
      apply rp_try_except. intros _. apply rp_ret.
    - apply rp_try_except. handler_returns.
    - apply rp_try_except. handler_returns. }
  assert (Hctx : context_preserving (read_resource remote r)).
  { destruct r; simpl.
    - unfold get_connections_status. keeps_context.
    - unfold get_current_directory. keeps_context.
    - unfold get_server_info. keeps_context. }
  destruct (Hret st) as (text & st' & Hrun).
  exists text, st'. split; [exact Hrun|].
  destruct (Hctx st) as [Hc _]. now rewrite Hrun in Hc.
Qed.

(** ** Without an active connection *)

Lemma prefix_append s t : String.prefix s (s ++ t)%string = true.
Proof.
  induction s as [|a s IH]; simpl; [now destruct t|].
  destruct (ascii_dec a a); [exact IH | congruence].
Qed.

Lemma contains_append needle p q : Str.contains needle (p ++ needle ++ q)%string = true.
Proof.
  induction p as [|c p IH]; simpl.
  - pose proof (prefix_append needle q) as H.
    destruct (needle ++ q)%string; cbn [Str.contains]; now rewrite H.
  - rewrite IH. apply orb_true_r.
Qed.

Lemma append_empty_r s : (s ++ "")%string = s.
Proof. induction s; simpl; congruence. Qed.

Lemma contains_suffix needle p : Str.contains needle (p ++ needle)%string = true.
Proof.
  rewrite <- (append_empty_r needle) at 2. apply contains_append.
Qed.

Lemma _get_current_ftp_none (st : State FTPContext) :
  truthy_opt (current_connection (lifespan_context st)) = false ->
  _get_current_ftp st
  = (Raise (ValueError "No active FTP connection. Use ftp_connect first."), st).
Proof.
  destruct st as [c cs ms n]. unfold _get_current_ftp. run. simpl.
  destruct (current_connection c) as [id|]; simpl; [|reflexivity].
  now intros ->.
Qed.

(** X11.  Without a current connection (none, or the empty id), a tool that
    works on the current connection sends nothing, neither to a server nor
    to the local system, leaves the context as it is, logs the error "No
    active FTP connection. Use ftp_connect first." behind its own prefix,
    and hands back a payload that carries this text; [ftp_list_directory]
    raises it instead. The resources for the current directory and the
    server information answer with the bare text. *)
Theorem without_connection_nothing_is_sent :
  forall (remote : Oracle) (now : list call -> datetime)
         (strptime_strftime : string -> string -> string -> option string)
         (b64decode : string -> result string) (b64encode : string -> string)
         (encode decode : string -> string -> result string)
         (lib : Py.library)
         (st : State FTPContext),
    truthy_opt (current_connection (lifespan_context st)) = false ->
    let msg := "No active FTP connection. Use ftp_connect first." in
    (forall i,
        needs_connection i = true ->
        let out := invoke remote now strptime_strftime b64decode b64encode encode decode lib
                     i st in
        snd out
        = mkState (lifespan_context st) (calls st)
            ((Error, Str.fmt [error_prefix i; msg]) :: messages st) (next_handle st) /\
        (if is_list_directory i then fst out = Raise (ValueError msg)
         else exists p, fst out = Ok p /\ mentions msg p = true)) /\
    get_current_directory remote st = (Ok msg, st) /\
    get_server_info remote st = (Ok msg, st).
Proof.
  intros remote now strp b64decode b64encode encode decode lib st Hcur msg.
  pose proof (_get_current_ftp_none st Hcur) as Hnone. fold msg in Hnone.
  split; [|split].
  - intros i Hi out. subst out.
    destruct st as [c cs ms n].
    destruct i; try discriminate Hi; simpl invoke; unfold returning;
      unfold ftp_pwd, ftp_cwd, ftp_explore_directory, ftp_list_directory, ftp_mkdir,
        ftp_rmdir, ftp_delete_file, ftp_rename, ftp_upload_file, ftp_upload_content,
        ftp_download_file, ftp_download_content, ftp_get_file_size, ftp_set_passive_mode,
        ftp_get_system_info, ftp_send_noop, ftp_get_modification_time,
        ftp_create_directory_tree, ftp_transfer_progress;
      run; rewrite Hnone; cbn [fst snd is_list_directory error_prefix];
      (split; [reflexivity|]);
      try reflexivity;
      (eexists; split; [reflexivity|]);
      unfold mentions; cbn [payload_texts flat_map map snd app existsb];
      rewrite ?(contains_suffix msg); rewrite ?orb_true_r; try reflexivity.
  - destruct st as [c cs ms n]. unfold get_current_directory. run. now rewrite Hnone.
  - destruct st as [c cs ms n]. unfold get_server_info. run. now rewrite Hnone.
Qed.

Lemma without_connection_nothing_is_sent_witness :
  let out := invoke (demo_remote false) demo_now demo_strptime_strftime demo_b64decode
               demo_b64encode demo_encode demo_decode demo_lib (Ftp_mkdir "pub")
               (initial_state ftp_lifespan) in
  snd out
  = mkState ftp_lifespan []
      [(Error, "Error creating directory: No active FTP connection. Use ftp_connect first.")]
      0 /\
  (exists p,
      fst out = Ok p /\
      mentions "No active FTP connection. Use ftp_connect first." p = true) /\
  get_current_directory (demo_remote false) (initial_state ftp_lifespan)
  = (Ok "No active FTP connection. Use ftp_connect first.", initial_state ftp_lifespan).
Proof.
  destruct (without_connection_nothing_is_sent (demo_remote false) demo_now
              demo_strptime_strftime demo_b64decode demo_b64encode demo_encode demo_decode demo_lib
              (initial_state ftp_lifespan) eq_refl) as (Htools & Hdir & _).
  destruct (Htools (Ftp_mkdir "pub") eq_refl) as [Hstate Hpayload].
  split; [exact Hstate|]. split; [exact Hpayload | exact Hdir].
Defined.

(** ** The counters of a listing *)

Section ReturnsMore.
Context {Ctx : Type}.

(** The rule for [bind] that uses what the first computation returns. *)
Lemma returns_bind_post {A B} (Q : A -> Prop) (P : B -> Prop) (c : M Ctx A)
    (k : A -> M Ctx B) :
  returns Q c -> (forall a, Q a -> returns P (k a)) -> returns P (bind c k).
Proof.
  intros Hc Hk st b st'. unfold bind.
  destruct (c st) as [[a|e] st1] eqn:E; [|discriminate].
  apply Hk. eapply Hc; eauto.
Qed.

Lemma returns_for_fold {A B} (P : B -> Prop) (body : B -> A -> M Ctx B) (l : list A) :
  (forall acc x, P acc -> returns P (body acc x)) ->
  forall acc, P acc -> returns P (for_fold l acc body).
Proof.
  intros Hbody acc Hacc st acc' st' H.
  eapply (for_fold_invariant P body); eauto.
  intros a x s a' s' Ha Hb. eapply Hbody; eauto.
Qed.

End ReturnsMore.

Lemma count_type_app t l x :
  count_type t (l ++ [x]) = count_type t l + (if (type x =? t)%string then 1 else 0).
Proof.
  unfold count_type. rewrite filter_app, length_app. simpl.
  destruct (type x =? t)%string; simpl; lia.
Qed.

Lemma append_entry_counts x (is_directory : bool) a :
  type x = (if is_directory then "directory" else "file") ->
  counts_agree (acc_files a) (acc_total_files a) (acc_total_directories a) ->
  let a' := append_entry x is_directory a in
  counts_agree (acc_files a') (acc_total_files a') (acc_total_directories a').
Proof.
  intros Hx (Hd & Hf & Hsum). unfold counts_agree. simpl.
  rewrite !count_type_app, length_app, Hx. simpl.
  destruct is_directory; simpl; lia.
Qed.

Lemma filter_length_permutation {A} (f : A -> bool) (l l' : list A) :
  Permutation l l' -> length (filter f l) = length (filter f l').
Proof.
  induction 1 as [|x l l' _ IH|x y l|l l' l'' _ IH1 _ IH2]; simpl.
  - reflexivity.
  - destruct (f x); simpl; congruence.
  - destruct (f x), (f y); reflexivity.
  - congruence.
Qed.

Lemma counts_agree_sorted leb l n_files n_directories :
  counts_agree l n_files n_directories ->
  counts_agree (sorted leb l) n_files n_directories.
Proof.
  intros (Hd & Hf & Hsum). pose proof (sorted_permutation leb l) as Hp.
  unfold counts_agree, count_type.
  rewrite <- !(filter_length_permutation _ _ _ Hp), <- (Permutation_length Hp).
  auto.
Qed.

Lemma collect_entries_counts remote now strp lib ftp detailed :
  returns (fun a => counts_agree (acc_files a) (acc_total_files a) (acc_total_directories a))
    (collect_entries remote now strp lib ftp detailed).
Proof.
  set (P := fun a => counts_agree (acc_files a) (acc_total_files a)
                       (acc_total_directories a)).
  assert (Hstart : P {| acc_files := []; acc_total_files := 0; acc_total_directories := 0 |}).
  { repeat split. }
  assert (Hmlsd : forall a entry, P a -> returns P (mlsd_entry strp lib a entry)).
  { intros a [nm fs] Ha. unfold mlsd_entry.
    destruct (is_dot nm); [now apply returns_ret|].
    repeat (apply returns_bind; intros ?). apply returns_ret.
    apply append_entry_counts; [|exact Ha]. simpl.
    now destruct (_ =? "dir")%string. }
  assert (Hlist : forall a line, P a -> returns P (list_line now lib a line)).
  { intros a line Ha. unfold list_line.
    destruct (negb _); [now apply returns_ret|].
    destruct (9 <=? _)%nat; [|now apply returns_ret].
    destruct (is_dot _); [now apply returns_ret|].
    repeat (apply returns_bind; intros ?). apply returns_ret.
    apply append_entry_counts; [|exact Ha]. simpl.
    now destruct (Str.startswith _ _). }
  assert (Hnlst : forall a nm, P a -> returns P (nlst_name remote ftp a nm)).
  { intros a nm Ha. unfold nlst_name.
    destruct (is_dot nm); [now apply returns_ret|].
    apply returns_bind; intros is_directory. apply returns_ret.
    apply append_entry_counts; [|exact Ha]. simpl. now destruct is_directory. }
  unfold collect_entries. destruct detailed.
  - apply returns_try_except.
    + apply returns_bind; intros entries. now apply returns_for_fold.
    + intros [msg|msg|msg]; try apply returns_raise.
      repeat (apply returns_bind; intros ?). now apply returns_for_fold.
  - apply returns_bind; intros names. now apply returns_for_fold.
Qed.

(** X12.  In a listing [ftp_list_directory] returns, whatever mechanism
    produced it, [total_directories] is the number of entries of type
    "directory", [total_files] the number of entries of type "file", and the
    two add up to the number of entries. *)
Theorem ftp_list_directory_counters :
  forall (remote : Oracle) (now : list call -> datetime)
         (strptime_strftime : string -> string -> string -> option string)
         (lib : Py.library)
         (directory : option string) (detailed : bool)
         (st : State FTPContext) (listing : FTPDirectoryListing) (st' : State FTPContext),
    ftp_list_directory remote now strptime_strftime lib directory detailed st = (Ok listing, st') ->
    total_directories listing = count_type "directory" (files listing) /\
    total_files listing = count_type "file" (files listing) /\
    total_files listing + total_directories listing = Z.of_nat (length (files listing)).
Proof.
  intros remote now strp lib directory detailed st listing st' H.
  assert (Hret : returns (fun l => counts_agree (files l) (total_files l) (total_directories l))
                   (ftp_list_directory remote now strp lib directory detailed)).
  { unfold ftp_list_directory. apply returns_try_except.
    - do 4 (apply returns_bind; intros ?).
      eapply returns_bind_post; [apply collect_entries_counts|].
      intros acc Hacc. apply returns_bind; intros _. apply returns_ret.
      now apply counts_agree_sorted.
    - intros e. apply returns_bind; intros _. apply returns_raise. }
  exact (Hret _ _ _ H).
Qed.

Lemma ftp_list_directory_counters_witness :
  exists listing,
    fst (ftp_list_directory (demo_remote true) demo_now demo_strptime_strftime demo_lib
           (Some "pub") true (demo_state true)) = Ok listing /\
    total_directories listing = count_type "directory" (files listing) /\
    total_files listing = count_type "file" (files listing) /\
    total_files listing + total_directories listing = Z.of_nat (length (files listing)).
Proof.
  destruct (ftp_list_directory (demo_remote true) demo_now demo_strptime_strftime demo_lib
              (Some "pub") true (demo_state true)) as [[listing|e] st'] eqn:Hrun;
    [|vm_compute in Hrun; discriminate].
  exists listing. split; [reflexivity|].
  exact (ftp_list_directory_counters _ _ _ _ _ _ _ _ _ Hrun).
Defined.

(** ** The working directory around a listing *)

(** X13.  Once [ftp_list_directory] has entered the directory it was given:
    when reading the entries succeeds, the next command is the CWD back to
    the directory the first PWD reported; when reading the entries raises,
    no further command is sent, the error is raised again, and the session
    stays in the directory entered. *)
Theorem ftp_list_directory_working_directory :
  forall (remote : Oracle) (now : list call -> datetime)
         (strptime_strftime : string -> string -> string -> option string)
         (lib : Py.library)
         (d : string) (detailed : bool) (st : State FTPContext) (ftp : FTP)
         (original reply current : string),
    let h := handle ftp in
    let c1 := Call (Ftp h Pwd) (Ok original) in
    let c2 := Call (Ftp h (Cwd d)) (Ok reply) in
    let c3 := Call (Ftp h Pwd) (Ok current) in
    Str.truthy d = true ->
    fst (_get_current_ftp st) = Ok ftp ->
    remote _ (calls st) (Ftp h Pwd) = Ok original ->
    remote _ (c1 :: calls st) (Ftp h (Cwd d)) = Ok reply ->
    remote _ (c2 :: c1 :: calls st) (Ftp h Pwd) = Ok current ->
    let entered := mkState (lifespan_context st) (c3 :: c2 :: c1 :: calls st)
                     (messages st) (next_handle st) in
    let out := ftp_list_directory remote now strptime_strftime lib (Some d) detailed st in
    match collect_entries remote now strptime_strftime lib ftp detailed entered with
    | (Ok a, st2) =>
        calls (snd out)
        = Call (Ftp h (Cwd original)) (remote _ (calls st2) (Ftp h (Cwd original)))
            :: calls st2
    | (Raise e, st2) =>
        fst out = Raise e /\ calls (snd out) = calls st2
    end.
Proof.
  intros remote now strp lib d detailed st ftp original reply current h c1 c2 c3
    Hd Hftp H1 H2 H3 entered out. subst out entered c1 c2 c3 h.
  apply _get_current_ftp_inv in Hftp. destruct st as [c cs ms n].
  unfold ftp_list_directory. run. rewrite Hftp. run. simpl in *.
  rewrite H1, Hd. run. rewrite H2. run. rewrite H3.
  destruct (collect_entries _ _ _ _ _ _ _) as [[a|e] [c4 cs4 ms4 n4]]; run.
  - now destruct (remote _ cs4 (Ftp (handle ftp) (Cwd original))).
  - split; reflexivity.
Qed.

Lemma ftp_list_directory_working_directory_witness :
  let out := ftp_list_directory stalling_remote demo_now demo_strptime_strftime demo_lib
               (Some "pub") true (demo_state false) in
  fst out = Raise (OtherError "timed out") /\
  calls (snd out)
  = Call (Ftp 0 Mlsd) (Raise (OtherError "timed out"))
      :: Call (Ftp 0 Pwd) (Ok "/home/alice")
      :: Call (Ftp 0 (Cwd "pub")) (Ok "250 OK")
      :: Call (Ftp 0 Pwd) (Ok "/home/alice")
      :: calls (demo_state false).
Proof.
  exact (ftp_list_directory_working_directory stalling_remote demo_now
           demo_strptime_strftime demo_lib "pub" true (demo_state false)
           {| handle := 0; welcome := "220 Service ready" |}
           "/home/alice" "250 OK" "/home/alice" eq_refl eq_refl eq_refl eq_refl eq_refl).
Defined.

(** ** Content that is uploaded and downloaded again *)

(** X14.  With a current connection, a server that keeps what it is sent and
    codecs that are inverse to each other on the content, what
    [ftp_upload_content] stored is what [ftp_download_content] returns, in
    text mode and in binary mode, with its size in bytes, provided the
    stored bytes pass the size check of the download: they are empty or
    no more than [max_size_mb] megabytes. *)
Theorem upload_then_download_content :
  forall (remote : Oracle)
         (b64decode : string -> result string) (b64encode : string -> string)
         (encode decode : string -> string -> result string)
         (content remote_path : string) (binary_mode : bool) (encoding : string)
         (max_size_mb : Z) (st : State FTPContext) (ftp : FTP) (bytes stored : string),
    let h := handle ftp in
    fst (_get_current_ftp st) = Ok ftp ->
    (if binary_mode then b64decode content else encode content encoding) = Ok bytes ->
    (if binary_mode then Ok (b64encode bytes) else decode bytes encoding) = Ok content ->
    len bytes = 0 \/ len bytes <= max_size_mb * 1024 * 1024 ->
    remote _ (calls st) (Ftp h (Storbinary (Str.fmt ["STOR "; remote_path]) bytes))
    = Ok stored ->
    (forall history, remote _ history (Ftp h (Size remote_path)) = Ok (Some (len bytes))) ->
    (forall history,
        remote _ history (Ftp h (Retrbinary (Str.fmt ["RETR "; remote_path]))) = Ok bytes) ->
    let up := ftp_upload_content remote b64decode encode content remote_path binary_mode
                encoding st in
    fst up = Ok (Str.fmt ["Successfully uploaded content to "; remote_path;
                          " ("; Str.of_Z (len bytes); " bytes)"]) /\
    fst (ftp_download_content remote b64encode decode remote_path binary_mode encoding
           max_size_mb (snd up))
    = Ok [("content", VStr content);
          ("size", VInt (len bytes));
          ("binary_mode", VBool binary_mode);
          ("encoding", VStr (if binary_mode then "base64" else encoding))].
Proof.
  intros remote b64decode b64encode encode decode content remote_path binary_mode encoding
    max_size_mb st ftp bytes stored h Hftp Hto Hfrom Hsize Hstor Hsz Hretr up.
  subst up h. apply _get_current_ftp_inv in Hftp.
  assert (Hftp' : forall cs ms,
             _get_current_ftp (mkState (lifespan_context st) cs ms (next_handle st))
             = (Ok ftp, mkState (lifespan_context st) cs ms (next_handle st))).
  { intros cs ms. destruct st as [c cs0 ms0 n]. revert Hftp.
    unfold _get_current_ftp. run. simpl.
    destruct (current_connection c) as [id|]; [|discriminate].
    destruct (negb (Str.truthy id)); [discriminate|].
    destruct (Dict.get id (connections c)); [|discriminate].
    now intros [= ->]. }
  assert (Hguard : negb (len bytes =? 0) && (len bytes >? max_size_mb * 1024 * 1024) = false).
  { destruct Hsize as [->|Hsize]; [reflexivity|].
    rewrite Z.gtb_ltb. destruct (Z.ltb_spec (max_size_mb * 1024 * 1024) (len bytes));
      [lia | apply andb_false_r]. }
  destruct st as [c cs ms n]. simpl in *.
  assert (Hup : ftp_upload_content remote b64decode encode content remote_path binary_mode
                  encoding (mkState c cs ms n)
                = (Ok (Str.fmt ["Successfully uploaded content to "; remote_path;
                                " ("; Str.of_Z (len bytes); " bytes)"]),
                   mkState c
                     (Call (Ftp (handle ftp)
                              (Storbinary (Str.fmt ["STOR "; remote_path]) bytes))
                        (Ok stored) :: cs)
                     ((Info, Str.fmt ["Uploaded content to "; remote_path; " (";
                                      Str.of_Z (len bytes); " bytes)"]) :: ms) n)).
  { unfold ftp_upload_content. run. rewrite Hftp.
    destruct binary_mode; run; rewrite Hto; run; now rewrite Hstor. }
  rewrite Hup. cbn [fst snd]. split; [reflexivity|].
  unfold ftp_download_content. run. rewrite Hftp'. run. rewrite Hsz. run.
  rewrite Hguard, Hretr.
  destruct binary_mode; run.
  - now injection Hfrom as ->.
  - now rewrite Hfrom.
Qed.

Lemma upload_then_download_content_witness :
  let up := ftp_upload_content (demo_remote false) demo_b64decode demo_encode
              "hello, world" "notes.txt" false "utf-8" (demo_state false) in
  fst up = Ok "Successfully uploaded content to notes.txt (12 bytes)" /\
  fst (ftp_download_content (demo_remote false) demo_b64encode demo_decode "notes.txt"
         false "utf-8" 10 (snd up))
  = Ok [("content", VStr "hello, world"); ("size", VInt 12);
        ("binary_mode", VBool false); ("encoding", VStr "utf-8")].
Proof.
  refine (upload_then_download_content (demo_remote false) demo_b64decode demo_b64encode
            demo_encode demo_decode "hello, world" "notes.txt" false "utf-8" 10
            (demo_state false) {| handle := 0; welcome := "220 Service ready" |}
            "hello, world" "226 Transfer complete."
            eq_refl eq_refl eq_refl _ eq_refl (fun _ => eq_refl) (fun _ => eq_refl)).
  right. vm_compute. discriminate.
Defined.

(** ** Paths given to the directory-tree creation *)

Lemma create_part_empty (remote : Oracle) ftp locals st :
  create_part remote ftp locals "" st = (Ok locals, st).
Proof. now destruct locals. Qed.

Lemma create_parts_empty (remote : Oracle) ftp parts :
  filter Str.truthy parts = [] ->
  forall locals st, for_fold parts locals (create_part remote ftp) st = (Ok locals, st).
Proof.
  induction parts as [|part parts IH]; intros H locals st; [reflexivity|].
  simpl in H. destruct part as [|ch part]; [|discriminate].
  simpl for_fold. unfold bind. rewrite create_part_empty. now apply IH.
Qed.

(** X15.  A leading slash of the path given to [ftp_create_directory_tree]
    is ignored: the directories are created relative to the working
    directory, with the same commands, messages and outcome as for the path
    without the slash, except that the text "Directory path already exists"
    repeats the path as given. A path without segments (empty or made of
    slashes) sends nothing and gives that text. *)
Theorem ftp_create_directory_tree_path_edges :
  forall (remote : Oracle) (p : string) (st : State FTPContext),
    let absolute := ftp_create_directory_tree remote (String "/" p) st in
    let relative := ftp_create_directory_tree remote p st in
    snd absolute = snd relative /\
    (fst absolute = fst relative \/
     fst absolute = Ok (Str.fmt ["Directory path already exists: "; String "/" p]) /\
     fst relative = Ok (Str.fmt ["Directory path already exists: "; p])) /\
    (forall ftp,
        fst (_get_current_ftp st) = Ok ftp ->
        segments p = [] ->
        relative = (Ok (Str.fmt ["Directory path already exists: "; p]), st)).
Proof.
  intros remote p st absolute relative. subst absolute relative.
  unfold ftp_create_directory_tree.
  change (Str.strip is_slash (String "/" p)) with (Str.strip is_slash p).
  unfold try_except, bind.
  destruct (_get_current_ftp st) as [[ftp|e] st0] eqn:Hftp.
  - split; [|split].
    + destruct (for_fold _ _ _ st0) as [[[current created]|e] st1]; [|reflexivity].
      now destruct created.
    + destruct (for_fold _ _ _ st0) as [[[current created]|e] st1]; [|now left].
      destruct created; [right; split; reflexivity | now left].
    + intros ftp' Hftp' Hsegs. simpl in Hftp'. injection Hftp' as <-.
      pose proof (_get_current_ftp_inv st ftp) as Hinv.
      rewrite Hftp in Hinv. specialize (Hinv eq_refl). injection Hinv as ->.
      unfold segments in Hsegs. now rewrite (create_parts_empty remote ftp _ Hsegs).
  - split; [reflexivity|]. split; [now left|].
    intros ftp Hftp'. simpl in Hftp'. discriminate.
Qed.

(** ** The fields of the system information *)

(** X16.  With a current connection, [ftp_get_system_info] sends SYST, STAT
    and FEAT, each whatever the outcome of the ones before; the result
    always has the four fields [system], [status], [features] and [welcome];
    a command that fails is reported in its field and nothing is logged. *)
Theorem ftp_get_system_info_fields :
  forall (remote : Oracle) (st : State FTPContext) (ftp : FTP),
    fst (_get_current_ftp st) = Ok ftp ->
    let h := handle ftp in
    let r1 := remote _ (calls st) (Ftp h (Sendcmd "SYST")) in
    let c1 := Call (Ftp h (Sendcmd "SYST")) r1 in
    let r2 := remote _ (c1 :: calls st) (Ftp h (Sendcmd "STAT")) in
    let c2 := Call (Ftp h (Sendcmd "STAT")) r2 in
    let r3 := remote _ (c2 :: c1 :: calls st) (Ftp h (Sendcmd "FEAT")) in
    let c3 := Call (Ftp h (Sendcmd "FEAT")) r3 in
    ftp_get_system_info remote st
    = (Ok [("system", reply_or "Error: " r1);
           ("status", reply_or "Error: " r2);
           ("features", reply_or "FEAT not supported: " r3);
           ("welcome", welcome ftp)],
       mkState (lifespan_context st) (c3 :: c2 :: c1 :: calls st) (messages st)
         (next_handle st)).
Proof.
  intros remote st ftp Hftp h r1 c1 r2 c2 r3 c3.
  apply _get_current_ftp_inv in Hftp. destruct st as [c cs ms n].
  unfold ftp_get_system_info. run. rewrite Hftp. run. simpl in *.
  fold h. fold r1. destruct r1 as [s1|e1] eqn:E1; subst c1; fold r2;
    destruct r2 as [s2|e2] eqn:E2; subst c2; fold r3;
    destruct r3 as [s3|e3] eqn:E3; reflexivity.
Qed.

Lemma ftp_get_system_info_fields_witness :
  fst (ftp_get_system_info dead_remote (demo_state false))
  = Ok [("system", "Error: timed out");
        ("status", "Error: timed out");
        ("features", "FEAT not supported: timed out");
        ("welcome", "220 Service ready")].
Proof.
  exact (f_equal fst
           (ftp_get_system_info_fields dead_remote (demo_state false)
              {| handle := 0; welcome := "220 Service ready" |} eq_refl)).
Defined.

(** ** The local path of a download *)

(** A string without the separator is the only part of its split. *)
Lemma split_without_separator sep s :
  Forall (fun c => Ascii.eqb c sep = false) (list_ascii_of_string s) ->
  Str.split sep s = [s].
Proof.
  induction s as [|c s IH]; simpl; [reflexivity|].
  intros H. inversion H as [|? ? Hc Hs]; subst.
  rewrite Hc, IH by exact Hs. reflexivity.
Qed.

(** No part of a split holds the separator. *)
Lemma split_parts_without_separator sep s :
  Forall (fun part => Forall (fun c => Ascii.eqb c sep = false) (list_ascii_of_string part))
    (Str.split sep s).
Proof.
  induction s as [|c s IH]; simpl.
  - repeat constructor.
  - destruct (Ascii.eqb c sep) eqn:E.
    + constructor; [constructor | exact IH].
    + destruct (Str.split sep s) as [|w ws]; [repeat constructor; exact E|].
      inversion IH; subst. constructor; [|assumption].
      simpl. now constructor.
Qed.

Lemma split_nonempty sep s : Str.split sep s <> [].
Proof.
  destruct s as [|c s]; simpl; [discriminate|].
  destruct (Ascii.eqb c sep); [discriminate|].
  destruct (Str.split sep s); discriminate.
Qed.

(** The base name of a path has no directory part. *)
Lemma dirname_basename p : dirname (basename p) = "".
Proof.
  unfold dirname, basename.
  assert (H : Forall (fun c => Ascii.eqb c "/" = false)
                (list_ascii_of_string (last (Str.split "/" p) ""))).
  { pose proof (split_parts_without_separator "/" p) as Hall.
    pose proof (split_nonempty "/" p) as Hne.
    induction (Str.split "/" p) as [|w ws IH]; [congruence|].
    inversion Hall; subst. destruct ws as [|w' ws']; [assumption|].
    apply IH; [assumption | discriminate]. }
  now rewrite (split_without_separator _ _ H).
Qed.

(** Splits a history into the calls added to [cs] and [cs]. *)
Ltac added_calls :=
  first [ exists []; split; [reflexivity|]
        | eexists [_]; split; [reflexivity|]
        | eexists [_; _]; split; [reflexivity|]
        | eexists [_; _; _]; split; [reflexivity|]
        | eexists [_; _; _; _]; split; [reflexivity|]
        | eexists [_; _; _; _; _]; split; [reflexivity|] ].

(** X17.  Without a local path, [ftp_download_file] writes the file under
    the base name of the remote path, which has no directory part: whatever
    is answered, it neither looks for a local directory nor creates one. *)
Theorem ftp_download_file_default_local_path :
  forall (remote : Oracle) (remote_path : string) (binary_mode : bool)
         (st : State FTPContext),
    dirname (basename remote_path) = "" /\
    exists l,
      calls (snd (ftp_download_file remote remote_path None binary_mode st))
      = l ++ calls st /\
      existsb touches_local_directory l = false.
Proof.
  intros remote remote_path binary_mode st. split; [apply dirname_basename|].
  destruct st as [c cs ms n]. unfold ftp_download_file.
  rewrite dirname_basename. cbn [Str.truthy String.eqb negb].
  unfold try_except at 1. unfold bind at 1.
  destruct (_get_current_ftp _) as [[ftp|e] st0] eqn:Hftp.
  2: { assert (Hst : st0 = mkState c cs ms n).
       { revert Hftp. unfold _get_current_ftp. run.
         destruct (current_connection c) as [id|]; [|now intros [= _ <-]].
         destruct (negb (Str.truthy id)); [now intros [= _ <-]|].
         destruct (Dict.get id (connections c)); intros [= _ <-]; reflexivity. }
       subst st0. run. exists []. split; reflexivity. }
  pose proof (_get_current_ftp_inv _ ftp (f_equal fst Hftp)) as Hinv.
  rewrite Hftp in Hinv. injection Hinv as ->.
  run.
  repeat match goal with
         | |- context [match ?r ?X ?h ?e with Ok _ => _ | Raise _ => _ end] =>
             destruct (r X h e) as [?|?]; run
         | |- context [if binary_mode then _ else _] => destruct binary_mode; run
         end.
  all: added_calls; reflexivity.
Qed.

(** ** The Tavily tools and the API key *)

(** X18.  A context made by [tavily_lifespan] either holds a client for the
    key of the environment, which [_get_tavily_client] returns, or has no
    usable key, and then each of the four tools logs and raises a
    [ValueError] that says so behind the prefix of the tool, without any
    request to the backend. The error "Tavily client not initialized" does
    not occur. *)
Theorem tavily_key_decides :
  forall (remote : Oracle) (now : list call -> datetime) (lib : Py.library)
         (env_key : option string)
         (cs : list call) (ms : list (level * string)) (n : nat) (i : tavily_invocation),
    let st := mkState (tavily_lifespan env_key) cs ms n in
    (exists k,
        env_key = Some k /\ Str.truthy k = true /\
        _get_tavily_client st = (Ok {| client_api_key := k |}, st)) \/
    (truthy_opt env_key = false /\
     invoke_tavily remote now lib i st
     = (Raise (ValueError (Str.fmt [failure_prefix i; key_not_found])),
        mkState (tavily_lifespan env_key) cs
          ((Error, Str.fmt [failure_prefix i; key_not_found]) :: ms) n)).
Proof.
  intros remote now lib env_key cs ms n i st. subst st.
  destruct (truthy_opt env_key) eqn:Hkey.
  - left. destruct env_key as [k|]; [|discriminate]. exists k.
    split; [reflexivity|]. split; [exact Hkey|].
    apply _get_tavily_client_configured; [exact Hkey|].
    unfold tavily_lifespan. cbn [client lifespan_context]. now rewrite Hkey.
  - right. split; [reflexivity|].
    assert (Hget : _get_tavily_client (mkState (tavily_lifespan env_key) cs ms n)
                   = (Raise (ValueError key_not_found),
                      mkState (tavily_lifespan env_key) cs ms n)).
    { unfold _get_tavily_client. run. simpl. now rewrite Hkey. }
    destruct i; simpl; unfold returning, tavily_search, tavily_extract_content,
      tavily_get_search_context, tavily_qna_search; run; rewrite Hget; reflexivity.
Qed.

(** ** One extraction result per URL *)

Lemma extract_one_step remote results url st :
  exists item st',
    extract_one remote results url st = (Ok (results ++ [item]), st') /\
    extract_url item = url /\
    extract_consistent item = true /\
    calls st'
    = Call (Tavily (Extract [url])) (remote _ (calls st) (Tavily (Extract [url]))) :: calls st.
Proof.
  assert (Hpost : returns (fun res => exists item,
                               res = results ++ [item] /\ extract_url item = url /\
                               extract_consistent item = true)
                    (extract_one remote results url)).
  { unfold extract_one. apply returns_try_except.
    - do 2 (apply returns_bind; intros ?).
      eapply (returns_bind_post
                (fun item => extract_url item = url /\ extract_consistent item = true)).
      + destruct a0.
        * repeat (apply returns_bind; intros ?). apply returns_ret. split; reflexivity.
        * apply returns_ret. split; reflexivity.
      + intros item [Hu Hc]. apply returns_ret. now exists item.
    - intros e. apply returns_bind; intros _. apply returns_ret.
      eexists. split; [reflexivity|]. split; reflexivity. }
  assert (Htotal : returns_payload (extract_one remote results url)).
  { unfold extract_one. apply rp_try_except. handler_returns. }
  destruct (Htotal st) as (res & st' & Hrun).
  destruct (Hpost _ _ _ Hrun) as (item & -> & Hu & Hc).
  exists item, st'. split; [exact Hrun|]. split; [exact Hu|]. split; [exact Hc|].
  apply (f_equal (fun out => calls (snd out))) in Hrun. simpl in Hrun. rewrite <- Hrun.
  destruct st as [c cs ms n]. unfold extract_one.
  unfold try_except at 1. unfold bind at 1. unfold request at 1.
  cbn [calls lifespan_context messages next_handle record].
  destruct (remote value cs (Tavily (Extract [url]))) as [data|e].
  - lazymatch goal with
    | |- calls (snd (let (r, st') := ?rest ?s in _)) = _ =>
        transitivity (calls s); [|reflexivity];
        apply (cp_try_except rest
                 (fun e =>
                    warning (Str.fmt ["Failed to extract content from "; url; ": "; str e]) ;;
                    ret (results
                         ++ [{| extract_url := url; extract_title := "";
                                extract_content := ""; extract_author := None;
                                extract_published_date := None;
                                extract_language := None; extract_success := false;
                                extract_error := Some (str e) |}])))
    end.
    + repeat first
        [ apply cp_bind; [|intros ?]
        | solve [auto with calls_preserving]
        | match goal with
          | |- calls_preserving (match ?x with _ => _ end) => destruct x
          | |- calls_preserving (Json.contains _ ?v) => destruct v; intros ?; reflexivity
          | |- calls_preserving (Json.item ?v _) =>
              destruct v; try (intros ?; reflexivity);
              unfold Json.item; destruct (Dict.get _ _); intros ?; reflexivity
          | |- calls_preserving (Json.first ?v) =>
              destruct v as [| | | |[|? ?]|[|? ?]|]; intros ?; reflexivity
          end ].
    + intros e. no_calls.
  - reflexivity.
Qed.

Lemma extract_loop remote urls :
  forall results st,
    exists items replies st',
      for_fold urls results (extract_one remote) st = (Ok (results ++ items), st') /\
      map extract_url items = urls /\
      forallb extract_consistent items = true /\
      length replies = length urls /\
      calls st' = rev (extract_calls urls replies) ++ calls st.
Proof.
  induction urls as [|url urls IH]; intros results st.
  - exists [], [], st. simpl. unfold ret. rewrite app_nil_r. repeat split.
  - destruct (extract_one_step remote results url st) as (item & st1 & Hrun & Hu & Hc & Hcalls).
    destruct (IH (results ++ [item]) st1) as (items & replies & st' & Hloop & Hus & Hcs & Hlen & Hh).
    exists (item :: items), (remote _ (calls st) (Tavily (Extract [url])) :: replies), st'.
    simpl for_fold. unfold bind at 1. rewrite Hrun, Hloop.
    rewrite <- app_assoc. simpl. rewrite Hu, Hus, Hc, Hcs, Hlen, Hh, Hcalls.
    unfold extract_calls. rewrite <- app_assoc. repeat split.
Qed.

(** X19.  With a configured client and at least one URL,
    [tavily_extract_content] never raises: it sends one extraction request
    per URL, for the first ten URLs only, in order, and returns one result
    per request in the same order, each either a success without an error
    text or a failure with one; a request that fails does not stop the ones
    after it. *)
Theorem tavily_extract_content_one_result_per_url :
  forall (remote : Oracle) (urls : list string) (st : State TavilyContext)
         (c : TavilyClient),
    truthy_opt (api_key (lifespan_context st)) = true ->
    client (lifespan_context st) = Some c ->
    urls <> [] ->
    exists results replies st',
      tavily_extract_content remote urls st = (Ok results, st') /\
      map extract_url results = firstn 10 urls /\
      forallb extract_consistent results = true /\
      length replies = length (firstn 10 urls) /\
      calls st' = rev (extract_calls (firstn 10 urls) replies) ++ calls st.
Proof.
  intros remote urls st c Hkey Hclient Hurls.
  assert (Hget := _get_tavily_client_configured st c Hkey Hclient).
  destruct urls as [|u urls]; [congruence|]. clear Hurls.
  set (all := u :: urls) in *.
  assert (Hfirst : (if (10 <? length all)%nat then firstn 10 all else all) = firstn 10 all).
  { destruct (Nat.ltb_spec 10 (length all)); [reflexivity|].
    symmetry. now apply firstn_all2. }
  destruct st as [ctx cs ms n].
  unfold tavily_extract_content. unfold try_except, bind at 1. rewrite Hget.
  fold all. subst all.
  destruct (10 <? length (u :: urls))%nat eqn:Hlong.
  - unfold bind at 1. unfold bind at 1. unfold warning at 1, log at 1, ret at 1.
    cbn [calls lifespan_context messages next_handle].
    unfold bind at 1. unfold info at 1, log at 1.
    cbn [calls lifespan_context messages next_handle].
    unfold bind at 1.
    match goal with
    | |- context [for_fold ?l [] (extract_one remote) ?s] =>
        destruct (extract_loop remote l [] s)
          as (items & replies & st' & Hloop & Hus & Hcs & Hlen & Hh)
    end.
    rewrite Hloop. destruct st' as [ctx' cs' ms' n'].
    exists items, replies. eexists.
    split; [reflexivity|]. simpl in Hh. now repeat split.
  - unfold bind at 1. unfold bind at 1. unfold ret at 1.
    unfold bind at 1. unfold info at 1, log at 1.
    cbn [calls lifespan_context messages next_handle].
    unfold bind at 1.
    match goal with
    | |- context [for_fold ?l [] (extract_one remote) ?s] =>
        destruct (extract_loop remote l [] s)
          as (items & replies & st' & Hloop & Hus & Hcs & Hlen & Hh)
    end.
    rewrite Hloop. destruct st' as [ctx' cs' ms' n'].
    exists items, replies. eexists. rewrite <- Hfirst.
    split; [reflexivity|]. simpl in Hh. now repeat split.
Qed.

Lemma tavily_extract_content_one_result_per_url_witness :
  exists results,
    fst (tavily_extract_content dead_remote
           ["u1"; "u2"; "u3"; "u4"; "u5"; "u6"; "u7"; "u8"; "u9"; "u10"; "u11"; "u12"]
           (initial_state (tavily_lifespan (Some "tvly-key")))) = Ok results /\
    map extract_url results = ["u1"; "u2"; "u3"; "u4"; "u5"; "u6"; "u7"; "u8"; "u9"; "u10"] /\
    forallb extract_consistent results = true.
Proof.
  destruct (tavily_extract_content_one_result_per_url dead_remote
              ["u1"; "u2"; "u3"; "u4"; "u5"; "u6"; "u7"; "u8"; "u9"; "u10"; "u11"; "u12"]
              (initial_state (tavily_lifespan (Some "tvly-key")))
              {| client_api_key := "tvly-key" |} eq_refl eq_refl)
    as (results & replies & st' & Hrun & Hurls & Hok & _).
  - discriminate.
  - exists results. rewrite Hrun. split; [reflexivity|]. split; [exact Hurls | exact Hok].
Defined.

(** ** Parameters the other search tools pass on *)

Lemma cp_get_each k l : calls_preserving (@get_each k l).
Proof. unfold get_each. no_calls. Qed.

(** X20.  Unlike [tavily_search], the tools [tavily_get_search_context] and
    [tavily_qna_search] hand [search_depth], [topic] and [max_results] to
    the backend as they were given, whatever their values. The first makes
    one request; the second asks for the answer and, when that succeeded,
    makes one search for the sources, with the same query, depth, topic and
    maximum, without an answer and without [days]. *)
Theorem context_and_qna_pass_parameters_as_given :
  forall (remote : Oracle) (lib : Py.library)
         (asked requested_depth requested_topic : string)
         (days : option Z) (max_tokens requested_max : Z)
         (st : State TavilyContext) (c : TavilyClient),
    truthy_opt (api_key (lifespan_context st)) = true ->
    client (lifespan_context st) = Some c ->
    (exists kwargs reply,
        calls (snd (tavily_get_search_context remote lib asked max_tokens requested_depth
                      requested_topic days st))
        = Call (Tavily (Get_search_context kwargs)) reply :: calls st /\
        Dict.get "search_depth" kwargs = Some (VStr requested_depth) /\
        Dict.get "topic" kwargs = Some (VStr requested_topic)) /\
    (exists kwargs reply sources,
        calls (snd (tavily_qna_search remote asked requested_depth requested_topic days
                      requested_max st))
        = sources ++ Call (Tavily (Qna_search kwargs)) reply :: calls st /\
        Dict.get "search_depth" kwargs = Some (VStr requested_depth) /\
        Dict.get "topic" kwargs = Some (VStr requested_topic) /\
        Dict.get "max_results" kwargs = Some (VInt requested_max) /\
        match reply with
        | Ok _ =>
            exists found,
              sources = [Call (Tavily (Search [("query", VStr asked);
                                               ("search_depth", VStr requested_depth);
                                               ("topic", VStr requested_topic);
                                               ("max_results", VInt requested_max);
                                               ("include_answer", VBool false)])) found]
        | Raise _ => sources = []
        end).
Proof.
  intros remote lib asked requested_depth requested_topic days max_tokens requested_max
    st c Hkey Hclient.
  assert (Hget := _get_tavily_client_configured st c Hkey Hclient).
  destruct st as [ctx cs ms n]. split.
  - unfold tavily_get_search_context. run. rewrite Hget. run.
    match goal with
    | |- context [remote value cs (Tavily (Get_search_context ?p))] =>
        exists p, (remote value cs (Tavily (Get_search_context p)));
        destruct (remote value cs (Tavily (Get_search_context p)))
    end; (split; [reflexivity|]); destruct days; split; reflexivity.
  - unfold tavily_qna_search.
    unfold try_except. unfold bind at 1. rewrite Hget.
    unfold bind at 1. unfold info at 1, log at 1.
    unfold bind at 1. unfold request at 1.
    cbn [calls lifespan_context messages next_handle record].
    match goal with
    | |- context [remote value cs (Tavily (Qna_search ?p))] =>
        set (kwargs := p); set (reply := remote value cs (Tavily (Qna_search kwargs)))
    end.
    assert (Hkw : Dict.get "search_depth" kwargs = Some (VStr requested_depth) /\
                  Dict.get "topic" kwargs = Some (VStr requested_topic) /\
                  Dict.get "max_results" kwargs = Some (VInt requested_max)).
    { subst kwargs. destruct days; repeat split. }
    exists kwargs, reply. destruct reply as [answer|e].
    + unfold bind at 1. unfold request at 1.
      cbn [calls lifespan_context messages next_handle record].
      match goal with
      | |- context [Call (Tavily (Search ?p)) ?r] => exists [Call (Tavily (Search p)) r]
      end.
      split; [|split; [apply Hkw|split; [apply Hkw|split; [apply Hkw|eauto]]]].
      match goal with
      | |- context [match ?r with Ok _ => _ | Raise _ => _ end] =>
          destruct r as [found|e]; [|reflexivity]
      end.
      lazymatch goal with
      | |- calls (snd (let (r, st') := ?rest ?s in _)) = _ =>
          transitivity (calls s); [|reflexivity];
          apply (cp_try_except rest
                   (fun e => error (Str.fmt ["Q&A search failed: "; str e]) ;;
                             raise (ValueError (Str.fmt ["Q&A search failed: "; str e]))))
      end.
      * no_calls; apply cp_get_each.
      * intros e. no_calls.
    + exists []. split; [reflexivity|]. repeat split; apply Hkw.
Qed.

Lemma context_and_qna_pass_parameters_as_given_witness :
  exists kwargs reply,
    calls (snd (tavily_get_search_context (demo_remote false) demo_lib "rocq" 4000 "deep" "sports"
                  None (initial_state (tavily_lifespan (Some "tvly-key")))))
    = [Call (Tavily (Get_search_context kwargs)) reply] /\
    Dict.get "search_depth" kwargs = Some (VStr "deep") /\
    Dict.get "topic" kwargs = Some (VStr "sports").
Proof.
  exact (proj1 (context_and_qna_pass_parameters_as_given (demo_remote false) demo_lib
                  "rocq" "deep"
                  "sports" None 4000 50 (initial_state (tavily_lifespan (Some "tvly-key")))
                  {| client_api_key := "tvly-key" |} eq_refl eq_refl)).
Defined.

(** ** The key from the [.env] file *)

Lemma for_fold_app {Ctx A B} (body : B -> A -> M Ctx B) (l1 l2 : list A) :
  forall acc st,
    for_fold (l1 ++ l2) acc body st
    = match for_fold l1 acc body st with
      | (Ok acc', st') => for_fold l2 acc' body st'
      | (Raise e, st') => (Raise e, st')
      end.
Proof.
  induction l1 as [|x l1 IH]; intros acc st; simpl; [reflexivity|].
  unfold bind. destruct (body acc x st) as [[acc1|e] st1]; [apply IH|reflexivity].
Qed.

(** The line [TAVILY_API_KEY=raw], once stripped, assigns [raw] without
    its quotes. *)
Lemma env_assignment_key lib line raw :
  Py.strip lib line = String.append "TAVILY_API_KEY=" raw ->
  env_assignment lib line = Some ("TAVILY_API_KEY", Str.strip is_quote raw).
Proof.
  intros Hline. unfold env_assignment. rewrite Hline. cbn [String.append].
  change (Str.truthy (String "T" _)) with true.
  change (Str.startswith (String "T" _) "#") with false.
  cbn [negb andb].
  replace (Str.contains "=" _) with true
    by (symmetry; apply (contains_append "=" "TAVILY_API_KEY" raw)).
  reflexivity.
Qed.

(** Lines that pass over a variable load without error and leave it as it
    is. *)
Lemma load_env_passes_over lib name lines :
  forallb (passes_over lib name) lines = true ->
  forall st,
  exists environ,
    for_fold lines tt (fun _ line => load_env_line lib line) st
    = (Ok tt, mkState environ (calls st) (messages st) (next_handle st)) /\
    Dict.get (Py.env_name lib name) environ
    = Dict.get (Py.env_name lib name) (lifespan_context st).
Proof.
  induction lines as [|line lines IH]; intros H st.
  - exists (lifespan_context st). destruct st. split; reflexivity.
  - simpl in H. apply andb_true_iff in H. destruct H as [Hline Hlines].
    simpl for_fold. unfold bind, load_env_line at 1.
    unfold passes_over in Hline.
    destruct (env_assignment lib line) as [[key value]|].
    + apply andb_true_iff in Hline. destruct Hline as [Hname Hset].
      apply negb_true_iff, String.eqb_neq in Hname.
      unfold environ_setitem. destruct (Py.setenv_error lib key value); [discriminate|].
      unfold update_context.
      destruct (IH Hlines (mkState (Dict.set (Py.env_name lib key) value (lifespan_context st))
                             (calls st) (messages st) (next_handle st)))
        as (environ & -> & Hget).
      exists environ. split; [reflexivity|].
      rewrite Hget. cbn [lifespan_context]. apply get_set_other. congruence.
    + unfold ret. destruct (IH Hlines st) as (environ & -> & Hget). now exists environ.
Qed.

(** X21.  When the lines of the [.env] file before it load without error,
    the last line of the file that assigns [TAVILY_API_KEY] decides the key
    the tools use, whatever the lines before it and the environment of the
    process hold: white space around the line and the quotes around the
    value are removed, and, the value being one the platform accepts and
    not empty, the client is made for it.  The lines after it are lines that
    load without error and assign other variables, or nothing. *)
Theorem env_file_key_reaches_client :
  forall (lib : Py.library) (before after : list string) (line raw k : string)
         (st : State (dict string)),
    fst (load_env lib (Some before) st) = Ok tt ->
    Py.strip lib line = String.append "TAVILY_API_KEY=" raw ->
    Str.strip is_quote raw = k ->
    Str.truthy k = true ->
    Py.setenv_error lib "TAVILY_API_KEY" k = None ->
    forallb (passes_over lib "TAVILY_API_KEY") after = true ->
    let context := tavily_lifespan (Some k) in
    fst (tavily_startup lib (Some (before ++ line :: after)) st) = Ok context /\
    _get_tavily_client (initial_state context)
    = (Ok {| client_api_key := k |}, initial_state context).
Proof.
  intros lib before after line raw k st Hbefore Hline Hraw Hk Hset Hafter context.
  split.
  - unfold tavily_startup, load_env in *. unfold bind at 1. rewrite for_fold_app.
    destruct (for_fold before tt _ st) as [[[]|e] st1]; [clear Hbefore|discriminate].
    simpl for_fold. unfold bind at 1, load_env_line at 1.
    rewrite (env_assignment_key lib line raw Hline), Hraw.
    unfold environ_setitem. rewrite Hset. unfold update_context.
    match goal with
    | |- context [for_fold after tt _ ?s] =>
        destruct (load_env_passes_over lib "TAVILY_API_KEY" after Hafter s)
          as (environ & -> & Hget)
    end.
    cbn [lifespan_context] in Hget. rewrite get_set_same in Hget.
    unfold bind, getenv, get_context, ret. simpl. now rewrite Hget.
  - apply _get_tavily_client_configured; subst context; simpl; [exact Hk | now rewrite Hk].
Qed.

Lemma env_file_key_reaches_client_witness :
  let before := ["# keys"; "TAVILY_API_KEY=old"; ""; "OTHER=1"] in
  let line := String.append "  TAVILY_API_KEY='tvly-a=b'" newline in
  let after := ["DEBUG = 1"; "not an assignment"] in
  let context := tavily_lifespan (Some "tvly-a=b") in
  fst (tavily_startup demo_lib (Some (before ++ line :: after))
         (initial_state [("TAVILY_API_KEY", "from-shell")])) = Ok context /\
  _get_tavily_client (initial_state context)
  = (Ok {| client_api_key := "tvly-a=b" |}, initial_state context).
Proof.
  exact (env_file_key_reaches_client demo_lib
           ["# keys"; "TAVILY_API_KEY=old"; ""; "OTHER=1"]
           ["DEBUG = 1"; "not an assignment"]
           (String.append "  TAVILY_API_KEY='tvly-a=b'" newline) "'tvly-a=b'" "tvly-a=b"
           (initial_state [("TAVILY_API_KEY", "from-shell")])
           eq_refl eq_refl eq_refl eq_refl eq_refl eq_refl).
Defined.

(** ** The status resource of the Tavily server *)

Lemma contains_cons needle c s :
  Str.contains needle s = true -> Str.contains needle (String c s) = true.
Proof. intros H. simpl. rewrite H. apply orb_true_r. Qed.

Lemma substring_whole s n : (String.length s <= n)%nat -> substring 0 n s = s.
Proof.
  revert n. induction s as [|c s IH]; intros n H; destruct n; simpl in *;
    try reflexivity; try lia.
  f_equal. apply IH. lia.
Qed.

(** X22.  Reading the status resource never raises and leaves the context
    alone; without a key in the environment nothing is sent; with a key it
    makes one test search, and when that succeeds the text shows the first
    eight and the last four characters of the key, so that a key of at most
    eight characters is shown in full. *)
Theorem get_tavily_status_discloses_short_key :
  forall (Ctx : Type) (remote : Oracle) (environ : dict string) (st : State Ctx),
    let out := get_tavily_status remote environ st in
    let request := Tavily (Search [("query", VStr "test"); ("max_results", VInt 1)]) in
    (exists text, fst out = Ok text) /\
    (truthy_opt (Dict.get "TAVILY_API_KEY" environ) = false -> snd out = st) /\
    (forall k reply,
        Dict.get "TAVILY_API_KEY" environ = Some k ->
        Str.truthy k = true ->
        snd out = record (Call request (remote _ (calls st) request)) st /\
        (remote _ (calls st) request = Ok reply ->
         (String.length k <= 8)%nat ->
         exists text, fst out = Ok text /\ Str.contains k text = true)).
Proof.
  intros Ctx remote environ st out request. subst out request.
  destruct st as [c cs ms n]. unfold get_tavily_status. run.
  destruct (Dict.get "TAVILY_API_KEY" environ) as [k|] eqn:Hget; simpl.
  - destruct (Str.truthy k) eqn:Hk; simpl.
    + destruct (remote value cs _) as [reply|e] eqn:Hr; simpl.
      * split; [eauto|]. split; [discriminate|].
        intros k' reply' [= <-] _. split; [reflexivity|].
        intros _ Hlen. eexists. split; [reflexivity|].
        unfold first_chars. rewrite (substring_whole k 8 Hlen).
        unfold Str.fmt, newline. cbn [String.concat String.append].
        repeat apply contains_cons.
        apply (contains_append k "").
      * split; [eauto|]. split; [discriminate|].
        intros k' reply' [= <-] _. split; [reflexivity|]. discriminate.
    + split; [eauto|]. split; [reflexivity|]. intros k' reply' [= <-] Hk'. congruence.
  - split; [eauto|]. split; [reflexivity|]. discriminate.
Qed.

(** ** The tools talk to the current session only *)

Section CallsConfined.
Context {Ctx : Type}.
Variable h : nat.

Lemma cc_quiet {A} (c : M Ctx A) : calls_preserving c -> calls_confined h c.
Proof. intros Hc st. exists []. split; [apply Hc | reflexivity]. Qed.

Lemma cc_bind {A B} (c : M Ctx A) (k : A -> M Ctx B) :
  calls_confined h c -> (forall a, calls_confined h (k a)) -> calls_confined h (bind c k).
Proof.
  intros Hc Hk st. unfold bind. destruct (Hc st) as (l & Hl & Hin).
  destruct (c st) as [[a|e] st1]; simpl in *; [|eauto].
  destruct (Hk a st1) as (l' & Hl' & Hin').
  exists (l' ++ l). rewrite Hl', Hl, app_assoc, forallb_app, Hin, Hin'. auto.
Qed.

Lemma cc_try_except {A} (c : M Ctx A) (handler : exn -> M Ctx A) :
  calls_confined h c -> (forall e, calls_confined h (handler e)) ->
  calls_confined h (try_except c handler).
Proof.
  intros Hc Hh st. unfold try_except. destruct (Hc st) as (l & Hl & Hin).
  destruct (c st) as [[a|e] st1]; simpl in *; [eauto|].
  destruct (Hh e st1) as (l' & Hl' & Hin').
  exists (l' ++ l). rewrite Hl', Hl, app_assoc, forallb_app, Hin, Hin'. auto.
Qed.

Lemma cc_for_fold {A B} (body : B -> A -> M Ctx B) (l : list A) :
  (forall acc x, calls_confined h (body acc x)) ->
  forall acc, calls_confined h (for_fold l acc body).
Proof.
  intros Hbody. induction l as [|x l IH]; intros acc; simpl.
  - apply cc_quiet, cp_ret.
  - apply cc_bind; auto.
Qed.

Lemma cc_request_ftp remote {X} (m : ftpE X) : calls_confined h (@request Ctx remote X (Ftp h m)).
Proof.
  intros st. eexists [_]. split; [reflexivity|].
  unfold within_session. simpl. now rewrite Nat.eqb_refl.
Qed.

Lemma cc_request_os remote {X} (c : osE X) : calls_confined h (@request Ctx remote X (Os c)).
Proof. intros st. eexists [_]. split; reflexivity. Qed.

Lemma cc_perform_ftp (m : ftpE unit) : calls_confined h (@perform Ctx (Ftp h m)).
Proof.
  intros st. eexists [_]. split; [reflexivity|].
  unfold within_session. simpl. now rewrite Nat.eqb_refl.
Qed.

Lemma cc_int lib s : calls_confined h (@int Ctx lib s).
Proof.
  unfold int. destruct (Py.int lib s); apply cc_quiet; auto using cp_ret, cp_raise.
Qed.

Lemma cc_returning {A} (f : A -> payload) (c : M Ctx A) :
  calls_confined h c -> calls_confined h (returning f c).
Proof.
  intros Hc st. unfold returning. destruct (Hc st) as (l & Hl & Hin).
  destruct (c st) as [[a|e] st1]; eauto.
Qed.

End CallsConfined.

(** A tool that starts by resolving the current connection runs its body
    on the session found. *)
Lemma try_resolved {A} (k : FTP -> M FTPContext A) handler st ftp :
  fst (_get_current_ftp st) = Ok ftp ->
  try_except (ftp <- _get_current_ftp ;; k ftp) handler st = try_except (k ftp) handler st.
Proof.
  intros Hftp. apply _get_current_ftp_inv in Hftp.
  unfold try_except, bind. now rewrite Hftp.
Qed.

Ltac confined :=
  repeat first
    [ apply cc_bind; [|intros ?]
    | apply cc_try_except; [|intros ?]
    | apply cc_for_fold; intros ? ?
    | apply cc_request_ftp
    | apply cc_request_os
    | apply cc_perform_ftp
    | apply cc_int
    | solve [apply cc_quiet; unfold info, warning, error, lift;
             auto with calls_preserving]
    | progress cbv zeta
    | match goal with
      | |- calls_confined _ (match ?x with _ => _ end) => destruct x
      | |- calls_confined _ (lift ?x) => is_var x; destruct x
      | |- calls_confined _ (lift ?x) =>
          let r := fresh "r" in remember x as r; destruct r
      end ].

(** X23.  A tool that works on the current connection sends its commands to
    the session registered as current and to no other registered session,
    whatever its arguments and whatever is answered. *)
Theorem tools_talk_to_current_session_only :
  forall (remote : Oracle) (now : list call -> datetime)
         (strptime_strftime : string -> string -> string -> option string)
         (b64decode : string -> result string) (b64encode : string -> string)
         (encode decode : string -> string -> result string)
         (lib : Py.library)
         (i : ftp_invocation) (st : State FTPContext) (ftp : FTP),
    needs_connection i = true ->
    fst (_get_current_ftp st) = Ok ftp ->
    let out := invoke remote now strptime_strftime b64decode b64encode encode decode lib i st in
    exists l,
      calls (snd out) = l ++ calls st /\
      forallb (within_session (handle ftp)) l = true.
Proof.
  intros remote now strp b64decode b64encode encode decode lib i st ftp Hi Hftp out.
  subst out.
  destruct i; try discriminate Hi; simpl invoke; unfold returning;
    unfold ftp_pwd, ftp_cwd, ftp_explore_directory, ftp_list_directory, ftp_mkdir,
      ftp_rmdir, ftp_delete_file, ftp_rename, ftp_upload_file, ftp_upload_content,
      ftp_download_file, ftp_download_content, ftp_get_file_size, ftp_set_passive_mode,
      ftp_get_system_info, ftp_send_noop, ftp_get_modification_time,
      ftp_create_directory_tree, ftp_transfer_progress;
    rewrite (try_resolved _ _ st ftp Hftp);
    match goal with
    | |- exists l, calls (snd (let (r, st') := ?c st in _)) = _ /\ _ =>
        assert (Hc : calls_confined (handle ftp) c);
        [| destruct (Hc st) as (l & Hl & Hin); exists l;
           destruct (c st) as [[a|e] st']; auto ]
    end.
  all: unfold collect_entries, mlsd_entry, list_line, nlst_name, create_part, send, set_pasv.
  all: confined.
Qed.

Lemma tools_talk_to_current_session_only_witness :
  let st := snd (ftp_connect (demo_remote false) "s2" "ftp.example.org" "alice" "secret" 21
                   true 30 (demo_state false)) in
  exists l,
    calls (snd (invoke (demo_remote false) demo_now demo_strptime_strftime demo_b64decode
                  demo_b64encode demo_encode demo_decode demo_lib (Ftp_list_directory None false) st))
    = l ++ calls st /\
    forallb (within_session 1) l = true.
Proof.
  exact (tools_talk_to_current_session_only (demo_remote false) demo_now
           demo_strptime_strftime demo_b64decode demo_b64encode demo_encode demo_decode demo_lib
           (Ftp_list_directory None false)
           (snd (ftp_connect (demo_remote false) "s2" "ftp.example.org" "alice" "secret" 21
                   true 30 (demo_state false)))
           {| handle := 1; welcome := "220 Service ready" |} eq_refl eq_refl).
Defined.


(** ** A size that is not a number *)

Lemma mlsd_entry_bad_size strp lib a nm fs s st :
  is_dot nm = false ->
  Dict.get "size" fs = Some s ->
  Str.truthy s = true ->
  Py.int lib s = None ->
  exists msg, mlsd_entry strp lib a (nm, fs) st = (Raise (ValueError msg), st).
Proof.
  intros Hdot Hsize Htruthy Hparse. destruct st as [c cs ms n].
  unfold mlsd_entry, int. rewrite Hdot, Hsize. simpl truthy_opt. rewrite Htruthy, Hparse.
  run. destruct (truthy_opt _); [destruct (strp _ _ _)|]; eexists; reflexivity.
Qed.

Lemma mlsd_loop_bad_size strp lib entries nm fs s :
  In (nm, fs) entries ->
  is_dot nm = false ->
  Dict.get "size" fs = Some s ->
  Str.truthy s = true ->
  Py.int lib s = None ->
  forall a st,
  exists msg, for_fold entries a (mlsd_entry strp lib) st = (Raise (ValueError msg), st).
Proof.
  intros Hin Hdot Hsize Htruthy Hparse.
  induction entries as [|entry entries IH]; intros a st; [destruct Hin|].
  simpl for_fold. unfold bind.
  destruct Hin as [->|Hin].
  - destruct (mlsd_entry_bad_size strp lib a nm fs s st Hdot Hsize Htruthy Hparse)
      as [msg ->].
    now exists msg.
  - destruct (mlsd_entry strp lib a entry st) as [[a1|e] st1] eqn:Hb.
    + apply mlsd_entry_state in Hb as Hst. subst st1. now apply IH.
    + apply mlsd_entry_state in Hb as Hst. subst st1.
      destruct (mlsd_entry_raise _ _ _ _ _ _ _ Hb) as [msg ->]. now exists msg.
Qed.

(** X24.  When the MLSD reply holds an entry, other than [.] and [..], with
    a size [int()] does not accept (it is not empty, and [int()] raises
    [ValueError] on it), [ftp_list_directory] raises a [ValueError]: it
    returns no listing, not even of the entries that are well formed, and it
    does not fall back to LIST, whose parse would leave such a size out. *)
Theorem ftp_list_directory_mlsd_bad_size_raises :
  forall (remote : Oracle) (now : list call -> datetime)
         (strptime_strftime : string -> string -> string -> option string)
         (lib : Py.library)
         (st : State FTPContext) (ftp : FTP) (original current : string)
         (entries : list (string * facts)) (nm : string) (fs : facts) (s : string),
    let h := handle ftp in
    let c1 := Call (Ftp h Pwd) (Ok original) in
    let c2 := Call (Ftp h Pwd) (Ok current) in
    fst (_get_current_ftp st) = Ok ftp ->
    remote _ (calls st) (Ftp h Pwd) = Ok original ->
    remote _ (c1 :: calls st) (Ftp h Pwd) = Ok current ->
    remote _ (c2 :: c1 :: calls st) (Ftp h Mlsd) = Ok entries ->
    In (nm, fs) entries ->
    is_dot nm = false ->
    Dict.get "size" fs = Some s ->
    Str.truthy s = true ->
    Py.int lib s = None ->
    let out := ftp_list_directory remote now strptime_strftime lib None true st in
    (exists msg, fst out = Raise (ValueError msg)) /\
    calls (snd out) = Call (Ftp h Mlsd) (Ok entries) :: c2 :: c1 :: calls st.
Proof.
  intros remote now strp lib st ftp original current entries nm fs s h c1 c2
    Hftp H1 H2 H3 Hin Hdot Hsize Htruthy Hparse out. subst out c1 c2 h.
  apply _get_current_ftp_inv in Hftp. destruct st as [c cs ms n].
  unfold ftp_list_directory, collect_entries. run. rewrite Hftp. run. simpl in *.
  rewrite H1. run. rewrite H2. run. rewrite H3.
  destruct (for_fold entries _ _ _) as [r st1] eqn:Hf.
  match type of Hf with
  | for_fold entries ?a _ ?s0 = _ =>
      destruct (mlsd_loop_bad_size strp lib entries nm fs s Hin Hdot Hsize Htruthy Hparse a s0)
        as [msg Hm];
      pose proof (eq_trans (eq_sym Hf) Hm) as E
  end.
  injection E as -> ->. split; [now exists msg | reflexivity].
Qed.

Lemma ftp_list_directory_mlsd_bad_size_raises_witness :
  let out := ftp_list_directory garbled_remote demo_now demo_strptime_strftime demo_lib None true
               (demo_state false) in
  (exists msg, fst out = Raise (ValueError msg)) /\
  calls (snd out)
  = Call (Ftp 0 Mlsd)
      (Ok [("sub", [("type", "dir")]);
           ("a.txt", [("type", "file"); ("size", "12 bytes")]);
           ("b.txt", [("type", "file"); ("size", "7")])])
      :: Call (Ftp 0 Pwd) (Ok "/home/alice")
      :: Call (Ftp 0 Pwd) (Ok "/home/alice") :: calls (demo_state false).
Proof.
  refine (ftp_list_directory_mlsd_bad_size_raises garbled_remote demo_now
            demo_strptime_strftime demo_lib (demo_state false)
            {| handle := 0; welcome := "220 Service ready" |} "/home/alice" "/home/alice"
            _ "a.txt" [("type", "file"); ("size", "12 bytes")] "12 bytes"
            eq_refl eq_refl eq_refl eq_refl _ eq_refl eq_refl eq_refl eq_refl).
  simpl. auto.
Defined.

(** ** Structured results flag their errors *)

Ltac returns_leaves :=
  repeat first
    [ apply returns_try_except; [|intros ?]
    | apply returns_bind; intros ?
    | apply returns_raise
    | apply returns_ret; repeat split; reflexivity
    | progress cbv zeta
    | match goal with
      | |- returns _ (match ?x with _ => _ end) => destruct x
      | |- returns _ (lift ?x) => destruct x
      end ].

(** X25.  The tools that return a dict report a failure under the key
    "error" and a success under a key of their own, never both and never
    neither: "size" for [ftp_get_file_size], "modification_time" for
    [ftp_get_modification_time], "content" for [ftp_download_content]; the
    first two always repeat the path under "file". The result of
    [ftp_explore_directory] holds "success", which is true exactly when
    there is no "error". *)
Theorem structured_results_flag_errors :
  forall (remote : Oracle)
         (strptime_strftime : string -> string -> string -> option string)
         (lib : Py.library)
         (b64encode : string -> string) (decode : string -> string -> result string)
         (path : string) (binary_mode : bool) (encoding : string) (max_size_mb : Z),
    returns (fun d => error_or "size" d = true /\ Dict.get "file" d = Some (VStr path))
      (ftp_get_file_size remote path) /\
    returns (fun d => error_or "modification_time" d = true /\ Dict.get "file" d = Some path)
      (ftp_get_modification_time remote strptime_strftime lib path) /\
    returns (fun d => error_or "content" d = true)
      (ftp_download_content remote b64encode decode path binary_mode encoding max_size_mb) /\
    returns (fun d => Dict.get "success" d = Some (VBool (negb (Dict.mem "error" d))))
      (ftp_explore_directory remote path).
Proof.
  intros. split; [|split; [|split]].
  - unfold ftp_get_file_size. returns_leaves.
  - unfold ftp_get_modification_time. returns_leaves.
  - unfold ftp_download_content. returns_leaves.
  - unfold ftp_explore_directory. returns_leaves.
Qed.

(** ** Failures that end a tool (C3) *)

Section Propagates.
Context {Ctx : Type}.
Variable Q : exn -> bool.

Lemma pr_quiet {A} (c : M Ctx A) : calls_preserving c -> propagates Q c.
Proof. intros Hc st. exists []. split; [apply Hc | discriminate]. Qed.

Lemma pr_request remote {X} (e : ev X) : propagates Q (@request Ctx remote X e).
Proof.
  intros st. eexists [_]. split; [reflexivity|].
  unfold request. simpl. destruct (remote X (calls st) e); [discriminate|].
  now intros e' [= ->].
Qed.

Lemma pr_perform e : propagates Q (@perform Ctx e).
Proof. intros st. eexists [_]. split; [reflexivity | discriminate]. Qed.

Lemma last_failure_app l1 l2 :
  last_failure (l2 ++ l1) = match l2 with [] => last_failure l1 | _ => last_failure l2 end.
Proof. now destruct l2. Qed.

Lemma pr_bind {A B} (c : M Ctx A) (k : A -> M Ctx B) :
  propagates Q c -> (forall a, propagates Q (k a)) -> propagates Q (bind c k).
Proof.
  intros Hc Hk st. unfold bind. destruct (Hc st) as (l1 & Hl1 & H1).
  destruct (c st) as [[a|e] st1]; simpl in *.
  2: { exists l1. split; [exact Hl1|]. intros e0 He0 HQ.
       specialize (H1 e0 He0 HQ). now injection H1 as ->. }
  destruct (Hk a st1) as (l2 & Hl2 & H2).
  exists (l2 ++ l1). split; [now rewrite Hl2, Hl1, app_assoc|].
  intros e He HQ. rewrite last_failure_app in He. destruct l2 as [|c2 l2].
  - specialize (H1 e He HQ). discriminate.
  - now apply H2.
Qed.

(** A handler that raises again the errors of the class. *)
Lemma pr_try_except {A} (c : M Ctx A) (handler : exn -> M Ctx A) :
  propagates Q c ->
  (forall e, propagates Q (handler e)) ->
  (forall e st, Q e = true -> fst (handler e st) = Raise e) ->
  propagates Q (try_except c handler).
Proof.
  intros Hc Hh Hre st. unfold try_except. destruct (Hc st) as (l1 & Hl1 & H1).
  destruct (c st) as [[a|e] st1]; simpl in *.
  - exists l1. split; [exact Hl1|]. intros e He HQ. specialize (H1 e He HQ). discriminate.
  - destruct (Hh e st1) as (l2 & Hl2 & H2).
    exists (l2 ++ l1). split; [now rewrite Hl2, Hl1, app_assoc|].
    intros e' He' HQ. rewrite last_failure_app in He'. destruct l2 as [|c2 l2].
    + specialize (H1 e' He' HQ). injection H1 as ->. now apply Hre.
    + now apply H2.
Qed.

Lemma pr_for_fold {A B} (body : B -> A -> M Ctx B) (l : list A) :
  (forall acc x, propagates Q (body acc x)) ->
  forall acc, propagates Q (for_fold l acc body).
Proof.
  intros Hbody. induction l as [|x l IH]; intros acc; simpl.
  - apply pr_quiet, cp_ret.
  - apply pr_bind; auto.
Qed.

End Propagates.

Lemma cp_get_current_ftp : calls_preserving _get_current_ftp.
Proof.
  intros st. destruct st as [c cs ms n]. unfold _get_current_ftp. run.
  destruct (current_connection c) as [id|]; [|reflexivity].
  destruct (negb (Str.truthy id)); [reflexivity|].
  destruct (Dict.get id (connections c)); reflexivity.
Qed.

Lemma cp_update_context {Ctx} (f : Ctx -> Ctx) : calls_preserving (update_context f).
Proof. intros st. reflexivity. Qed.

Lemma cp_fresh_handle {Ctx} : calls_preserving (@fresh_handle Ctx).
Proof. intros st. reflexivity. Qed.

Lemma cp_int {Ctx} lib s : calls_preserving (@int Ctx lib s).
Proof. unfold int. destruct (Py.int lib s); intros st; reflexivity. Qed.

(** Decomposes a computation into its requests. *)
Ltac propagating :=
  repeat first
    [ apply pr_bind; [|intros ?]
    | apply pr_request
    | apply pr_perform
    | apply pr_for_fold; intros ? ?
    | solve [apply pr_quiet;
             first [ apply cp_get_current_ftp | apply cp_update_context
                   | apply cp_fresh_handle | apply cp_int
                   | unfold info, warning, error, lift; auto with calls_preserving ]]
    | progress cbv zeta
    | progress unfold send, set_pasv
    | match goal with
      | |- propagates _ (match ?x with _ => _ end) => is_var x; destruct x
      | |- propagates _ (match ?x with _ => _ end) =>
          let r := fresh "r" in remember x as r; destruct r
      | |- propagates _ (lift ?x) => is_var x; destruct x
      | |- propagates _ (lift ?x) =>
          let r := fresh "r" in remember x as r; destruct r
      end ].

Lemma fmt_cons x l : Str.fmt (x :: l) = (x ++ Str.fmt l)%string.
Proof.
  unfold Str.fmt. destruct l as [|y l]; simpl; [now rewrite append_empty_r | reflexivity].
Qed.

Lemma contains_prepend needle p s :
  Str.contains needle s = true -> Str.contains needle (p ++ s)%string = true.
Proof. intros H. induction p as [|c p IH]; simpl; [exact H | now apply contains_cons]. Qed.

Lemma contains_refl s : Str.contains s s = true.
Proof. rewrite <- (append_empty_r s) at 2. apply (contains_append s "" ""). Qed.

(** An f-string holds each of its pieces. *)
Lemma contains_fmt needle pieces : In needle pieces -> Str.contains needle (Str.fmt pieces) = true.
Proof.
  induction pieces as [|x l IH]; intros Hin; [destruct Hin|].
  rewrite fmt_cons. destruct Hin as [->|Hin].
  - apply (contains_append needle "").
  - apply contains_prepend. now apply IH.
Qed.

(** The payload carries the text. *)
Ltac mentioned :=
  unfold mentions;
  cbn [payload_texts flat_map map snd fst app existsb str];
  repeat match goal with
         | |- context [Str.contains ?m (Str.fmt ?ps)] =>
             rewrite (contains_fmt m ps) by (simpl; auto)
         | |- context [Str.contains ?m ?m] => rewrite (contains_refl m)
         end;
  rewrite ?orb_true_r; reflexivity.

Lemma cp_mlsd_entry strp lib a entry : calls_preserving (mlsd_entry strp lib a entry).
Proof.
  destruct entry as [nm fs]. unfold mlsd_entry.
  destruct (is_dot nm); [apply cp_ret|].
  apply cp_bind; [|intros modified].
  - destruct (truthy_opt _); [|apply cp_ret]. destruct (strp _ _ _); apply cp_ret.
  - apply cp_bind; [|intros size; apply cp_ret].
    destruct (truthy_opt _); [|apply cp_ret].
    apply cp_bind; [apply cp_int | intros n; apply cp_ret].
Qed.

Lemma cp_list_line now lib a line : calls_preserving (list_line now lib a line).
Proof.
  unfold list_line.
  destruct (negb _); [apply cp_ret|].
  destruct (9 <=? _)%nat; [|apply cp_ret].
  destruct (is_dot _); [apply cp_ret|].
  apply cp_bind; [|intros size].
  - apply cp_try_except.
    + destruct (_ =? "file")%string; [|apply cp_ret].
      apply cp_bind; [apply cp_int | intros n; apply cp_ret].
    + intros [msg|msg|msg]; first [apply cp_ret | apply cp_raise].
  - apply cp_bind; [|intros modified; apply cp_ret].
    destruct (Str.contains ":" _); [|apply cp_ret].
    apply cp_bind; [apply cp_datetime_now | intros dt; apply cp_ret].
Qed.

(** What ends the collection of the entries is raised again: every error in
    a detailed listing, every error but a permission-class one in a simple
    listing. *)
Lemma pr_collect_entries remote now strp lib ftp detailed :
  propagates (listing_reraises detailed) (collect_entries remote now strp lib ftp detailed).
Proof.
  unfold collect_entries. destruct detailed.
  - intros st. destruct st as [c cs ms n]. run.
    destruct (remote _ cs (Ftp (handle ftp) Mlsd)) as [entries|e] eqn:Hm.
    + match goal with
      | |- context [for_fold entries ?a ?body ?s] =>
          pose proof (cp_for_fold body entries (cp_mlsd_entry strp lib) a s) as Hloop;
          destruct (for_fold entries a body s) as [[a1|e1] st1] eqn:Hf
      end; simpl in Hloop.
      * eexists [_]. split; [exact Hloop | discriminate].
      * apply (for_fold_raise (fun e => exists msg, e = ValueError msg)) in Hf;
          [|intros; eapply mlsd_entry_raise; eauto].
        destruct Hf as [msg ->]. eexists [_]. split; [exact Hloop | discriminate].
    + destruct e as [msg|msg|msg];
        try (eexists [_]; split; [reflexivity|]; now intros e [= <-]).
      destruct (remote _ _ (Ftp (handle ftp) (Retrlines "LIST"))) as [lines|e] eqn:Hl.
      * match goal with
        | |- context [for_fold lines ?a ?body ?s] =>
            pose proof (cp_for_fold body lines (cp_list_line now lib) a s) as Hloop;
            destruct (for_fold lines a body s) as [r st1]
        end.
        simpl in Hloop. eexists [_; _]. split; [exact Hloop | discriminate].
      * eexists [_; _]. split; [reflexivity|]. now intros e' [= <-].
  - apply pr_bind; [apply pr_request|intros names].
    apply pr_for_fold. intros a nm. unfold nlst_name.
    destruct (is_dot nm); [apply pr_quiet, cp_ret|].
    apply pr_bind; [|intros is_directory; apply pr_quiet, cp_ret].
    apply pr_try_except.
    + propagating.
    + intros [msg|msg|msg]; apply pr_quiet; first [apply cp_ret | apply cp_raise].
    + intros [msg|msg|msg] st; first [discriminate | reflexivity].
Qed.

Lemma pr_ftp_list_directory remote now strp lib directory detailed :
  propagates (listing_reraises detailed)
    (ftp_list_directory remote now strp lib directory detailed).
Proof.
  unfold ftp_list_directory. apply pr_try_except.
  - apply pr_bind; [apply pr_quiet, cp_get_current_ftp|intros ftp].
    apply pr_bind; [apply pr_request|intros original_dir].
    apply pr_bind; [propagating|intros _].
    apply pr_bind; [apply pr_request|intros current_dir].
    apply pr_bind; [apply pr_collect_entries|intros a].
    propagating.
  - intros e. propagating.
  - intros e st _. reflexivity.
Qed.

(** An error that leaves [ftp_list_directory] has been logged. *)
Lemma ftp_list_directory_logs remote now strp lib directory detailed st e :
  fst (ftp_list_directory remote now strp lib directory detailed st) = Raise e ->
  hd_error (messages (snd (ftp_list_directory remote now strp lib directory detailed st)))
  = Some (Error, Str.fmt ["Error listing directory: "; str e]).
Proof.
  unfold ftp_list_directory, try_except.
  match goal with |- context [match ?b st with _ => _ end] => destruct (b st) as [[a|e'] st1] end;
    [discriminate|].
  unfold bind, error, log, raise. simpl. now intros [= ->].
Qed.

(** A tool whose body raises what ends its last call, and whose handler
    turns the error into a payload that encodes it. *)
Lemma encoded_handled {Ctx A} (Q : exn -> bool) (body : M Ctx A) (handler : exn -> M Ctx A)
    (f : exn -> A) (g : A -> payload) (encodes : exn -> payload -> bool) :
  propagates Q body ->
  (forall e st, fst (handler e st) = Ok (f e) /\ calls (snd (handler e st)) = calls st) ->
  (forall e, Q e = true -> encodes e (g (f e)) = true) ->
  (forall e p, Q e = false -> encodes e p = true) ->
  failure_encoded encodes (returning g (try_except body handler)).
Proof.
  intros Hb Hh Henc Hfalse st. unfold returning, try_except.
  destruct (Hb st) as (l & Hl & H).
  destruct (body st) as [[a|e] st1]; simpl in *.
  - exists l, (g a). split; [exact Hl|]. split; [reflexivity|].
    intros e He. destruct (Q e) eqn:HQ; [|now apply Hfalse].
    specialize (H e He HQ). discriminate.
  - destruct (Hh e st1) as [Hf Hc].
    destruct (handler e st1) as [r st2]; simpl in *. subst r.
    exists l, (g (f e)). split; [simpl; now rewrite Hc|]. split; [reflexivity|].
    intros e' He'. destruct (Q e') eqn:HQ; [|now apply Hfalse].
    specialize (H e' He' HQ). injection H as ->. now apply Henc.
Qed.

Lemma _get_current_ftp_cases (st : State FTPContext) :
  (exists ftp, _get_current_ftp st = (Ok ftp, st)) \/
  (exists msg, _get_current_ftp st = (Raise (ValueError msg), st)).
Proof.
  destruct st as [c cs ms n]. unfold _get_current_ftp. run.
  destruct (current_connection c) as [id|]; [|right; eauto].
  destruct (negb (Str.truthy id)); [right; eauto|].
  destruct (Dict.get id (connections c)); [left|right]; eauto.
Qed.

(** The end of a run: the calls it added, the payload, and what the
    payload tells when the last call failed. *)
Ltac leaf :=
  first [ exists []; eexists; split; [reflexivity|]
        | eexists [_]; eexists; split; [reflexivity|]
        | eexists [_; _]; eexists; split; [reflexivity|]
        | eexists [_; _; _]; eexists; split; [reflexivity|]
        | eexists [_; _; _; _]; eexists; split; [reflexivity|]
        | eexists [_; _; _; _; _]; eexists; split; [reflexivity|]
        | eexists [_; _; _; _; _; _]; eexists; split; [reflexivity|] ];
  (split; [reflexivity|]);
  let e := fresh "e" in
  let He := fresh "He" in
  intros e He; cbn [last_failure failure] in He;
  first [ discriminate He | injection He as <- ];
  cbn [encodes_failure]; mentioned.

Ltac resolve_current :=
  match goal with
  | |- context [_get_current_ftp ?s] =>
      destruct (_get_current_ftp_cases s) as [[? ->]|[? ->]]
  end.

Lemma ftp_switch_connection_encodes remote connection_id :
  failure_encoded (encodes_failure (Ftp_switch_connection connection_id))
    (returning Text (ftp_switch_connection remote connection_id)).
Proof.
  intros st. destruct st as [c cs ms n]. unfold returning, ftp_switch_connection. run.
  destruct (Dict.get connection_id (connections c)); [|leaf].
  answer; leaf.
Qed.

Lemma ftp_disconnect_encodes remote connection_id :
  failure_encoded (encodes_failure (Ftp_disconnect connection_id))
    (returning Text (ftp_disconnect remote connection_id)).
Proof.
  intros st. destruct st as [c cs ms n]. unfold returning, ftp_disconnect. run.
  destruct connection_id as [id|]; [|destruct (current_connection c) as [id|]];
    try leaf;
    (destruct (negb (Str.truthy id)); [leaf|]);
    (destruct (Dict.get id (connections c)); [|leaf]);
    repeat answer;
    repeat match goal with
           | |- context [if ?b then _ else _] => destruct b
           end;
    leaf.
Qed.

(** As [leaf], for a payload that tells the failure by a flag or a text
    of its own. *)
Ltac leaf_flag :=
  first [ exists []; eexists; split; [reflexivity|]
        | eexists [_]; eexists; split; [reflexivity|]
        | eexists [_; _]; eexists; split; [reflexivity|]
        | eexists [_; _; _]; eexists; split; [reflexivity|]
        | eexists [_; _; _; _]; eexists; split; [reflexivity|]
        | eexists [_; _; _; _; _]; eexists; split; [reflexivity|]
        | eexists [_; _; _; _; _; _]; eexists; split; [reflexivity|] ];
  (split; [reflexivity|]);
  let e := fresh "e" in
  let He := fresh "He" in
  intros e He; cbn [last_failure failure] in He;
  first [ discriminate He | injection He as <- ];
  cbn [encodes_failure]; apply orb_true_iff; right; reflexivity.

Ltac cases :=
  repeat first
    [ answer
    | match goal with
      | |- context [if ?b then _ else _] =>
          lazymatch b with
          | context [if _ then _ else _] => fail
          | _ => destruct b eqn:?
          end
      end ].

Lemma ftp_explore_directory_encodes remote directory :
  failure_encoded (encodes_failure (Ftp_explore_directory directory))
    (returning Struct (ftp_explore_directory remote directory)).
Proof.
  intros st. destruct st as [c cs ms n]. unfold returning, ftp_explore_directory. run.
  resolve_current; [|leaf].
  repeat answer; first [ leaf | (leaf_flag) ].
Qed.

Lemma ftp_download_content_encodes remote b64encode decode remote_path binary_mode encoding
    max_size_mb :
  failure_encoded (encodes_failure (Ftp_download_content remote_path binary_mode encoding
                                      max_size_mb))
    (returning Struct
       (ftp_download_content remote b64encode decode remote_path binary_mode encoding
          max_size_mb)).
Proof.
  intros st. destruct st as [c cs ms n]. unfold returning, ftp_download_content. run.
  resolve_current; [|leaf].
  answer; try leaf;
    try match goal with
        | |- context [match ?o with Some _ => _ | None => _ end] =>
            is_var o; destruct o as [size|]
        end;
    cases; try leaf;
    match goal with
    | |- context [decode ?a ?b] => destruct (decode a b)
    end; leaf.
Qed.

Lemma ftp_get_file_size_encodes remote remote_path :
  failure_encoded (encodes_failure (Ftp_get_file_size remote_path))
    (returning Struct (ftp_get_file_size remote remote_path)).
Proof.
  intros st. destruct st as [c cs ms n]. unfold returning, ftp_get_file_size. run.
  resolve_current; [|leaf].
  answer; cases; first [ leaf | leaf_flag ].
Qed.

Lemma ftp_get_system_info_encodes remote :
  failure_encoded (encodes_failure Ftp_get_system_info)
    (returning Strings (ftp_get_system_info remote)).
Proof.
  intros st. destruct st as [c cs ms n]. unfold returning, ftp_get_system_info. run.
  resolve_current; [|leaf].
  repeat answer; leaf.
Qed.

Lemma ftp_get_modification_time_encodes remote strp lib remote_path :
  failure_encoded (encodes_failure (Ftp_get_modification_time remote_path))
    (returning Strings (ftp_get_modification_time remote strp lib remote_path)).
Proof.
  intros st. destruct st as [c cs ms n]. unfold returning, ftp_get_modification_time. run.
  resolve_current; [|leaf].
  answer; try leaf.
  destruct (rev _); [leaf|]. destruct (strp _ _ _); leaf.
Qed.

Lemma ftp_transfer_progress_encodes remote operation :
  failure_encoded (encodes_failure (Ftp_transfer_progress operation))
    (returning Text (ftp_transfer_progress remote operation)).
Proof.
  intros st. destruct st as [c cs ms n]. unfold returning, ftp_transfer_progress. run.
  resolve_current; [|leaf].
  cases; leaf.
Qed.

(** The handler of a tool: it logs the error and returns a payload,
    without a call of its own. *)
Ltac handler_encodes :=
  intros ? ?; split; reflexivity.

Ltac body_propagates :=
  apply pr_bind; [apply pr_quiet, cp_get_current_ftp|intros ?]; propagating.

Lemma simple_tools_encode remote b64decode encode i :
  match i with
  | Ftp_pwd | Ftp_cwd _ | Ftp_mkdir _ | Ftp_rmdir _ | Ftp_delete_file _ | Ftp_rename _ _
  | Ftp_upload_file _ _ _ | Ftp_upload_content _ _ _ _ | Ftp_download_file _ _ _
  | Ftp_set_passive_mode _ | Ftp_send_noop | Ftp_connect _ _ _ _ _ _ _ => True
  | _ => False
  end ->
  forall now strp b64encode decode lib,
  failure_encoded (encodes_failure i)
    (invoke remote now strp b64decode b64encode encode decode lib i).
Proof.
  destruct i; intros []; intros; simpl invoke;
    unfold ftp_connect, ftp_pwd, ftp_cwd, ftp_mkdir, ftp_rmdir, ftp_delete_file,
      ftp_rename, ftp_upload_file, ftp_upload_content, ftp_download_file,
      ftp_set_passive_mode, ftp_send_noop.
  all: try (eapply (encoded_handled (fun _ => true));
            [ body_propagates
            | handler_encodes
            | intros e _; cbn [encodes_failure]; mentioned
            | discriminate ]).
  eapply (encoded_handled (fun _ => true) _ _
            (fun e => match e with
                      | error_perm _ => Str.fmt ["Authentication failed: "; str e]
                      | _ => Str.fmt ["Connection failed: "; str e]
                      end)).
  - propagating.
  - intros [msg|msg|msg] st; split; reflexivity.
  - intros [msg|msg|msg] _; cbn [encodes_failure]; mentioned.
  - discriminate.
Qed.

Lemma ftp_create_directory_tree_encodes remote directory_path :
  failure_encoded (encodes_failure (Ftp_create_directory_tree directory_path))
    (returning Text (ftp_create_directory_tree remote directory_path)).
Proof.
  unfold ftp_create_directory_tree.
  eapply (encoded_handled (fun e => negb (is_exists_error e))).
  - apply pr_bind; [apply pr_quiet, cp_get_current_ftp|intros ftp].
    apply pr_bind; [|intros locals; propagating].
    apply pr_for_fold. intros [current_path created_dirs] part. unfold create_part.
    destruct (negb (Str.truthy part)); [apply pr_quiet, cp_ret|].
    apply pr_try_except.
    + propagating.
    + intros e. propagating.
    + intros [msg|msg|msg] st; simpl; [|reflexivity|reflexivity].
      intros H. apply negb_true_iff in H. now rewrite H.
  - handler_encodes.
  - intros e _. cbn [encodes_failure]. apply orb_true_iff. left. mentioned.
  - intros e p H. apply negb_false_iff in H. cbn [encodes_failure]. rewrite H.
    apply orb_true_r.
Qed.

Lemma existsb_set_value (p : string -> bool) (k v : string) (d : dict string) :
  p v = true -> existsb p (map snd (Dict.set k v d)) = true.
Proof.
  intros Hv. induction d as [|[k' v'] d IH]; simpl; [now rewrite Hv|].
  destruct (k' =? k)%string; simpl; [now rewrite Hv|].
  rewrite IH. apply orb_true_r.
Qed.

(** The loop of [ftp_list_connections], [body] being its body, makes one
    call for each session; the status of the session probed last is in the
    result. *)
Lemma ftp_list_connections_last (remote : Oracle) current
    (body : dict string -> string * FTP -> M FTPContext (dict string)) :
  (forall result id ftp c cs ms n,
      body result (id, ftp) (mkState c cs ms n)
      = let r := remote _ cs (Ftp (handle ftp) (Voidcmd "NOOP")) in
        (Ok (Dict.set id (noop_status current id r) result),
         mkState c (Call (Ftp (handle ftp) (Voidcmd "NOOP")) r :: cs) ms n)) ->
  forall (l : dict FTP) (result : dict string) (st : State FTPContext),
  exists added d,
    for_fold l result body st
    = (Ok d, mkState (lifespan_context st) (added ++ calls st) (messages st) (next_handle st)) /\
    match added with
    | [] => d = result
    | _ => forall e, last_failure added = Some e ->
                     existsb (Str.contains "Disconnected") (map snd d) = true
    end.
Proof.
  intros Hbody.
  induction l as [|[conn_id ftp] l IH]; intros result st.
  - exists [], result. destruct st. split; reflexivity.
  - simpl for_fold. destruct st as [c cs ms n].
    unfold bind at 1. rewrite Hbody. cbv zeta.
    set (r := remote string cs (Ftp (handle ftp) (Voidcmd "NOOP"))).
    destruct (IH (Dict.set conn_id (noop_status current conn_id r) result)
                (mkState c (Call (Ftp (handle ftp) (Voidcmd "NOOP")) r :: cs) ms n))
      as (added & d & -> & Hd).
    exists (added ++ [Call (Ftp (handle ftp) (Voidcmd "NOOP")) r]), d.
    split; [simpl; now rewrite <- app_assoc|].
    destruct added as [|c1 added]; simpl; [|exact Hd].
    subst d. destruct r as [reply|e]; [discriminate|].
    intros e' _. now apply existsb_set_value.
Qed.

Lemma ftp_list_connections_encodes remote :
  failure_encoded (encodes_failure Ftp_list_connections)
    (returning Strings (ftp_list_connections remote)).
Proof.
  intros st. unfold returning.
  assert (H : exists added d,
             ftp_list_connections remote st
             = (Ok d, mkState (lifespan_context st) (added ++ calls st) (messages st)
                        (next_handle st)) /\
             match added with
             | [] => d = []
             | _ => forall e, last_failure added = Some e ->
                              existsb (Str.contains "Disconnected") (map snd d) = true
             end).
  { unfold ftp_list_connections. unfold bind at 1, get_context.
    apply (ftp_list_connections_last remote (current_connection (lifespan_context st))).
    intros result id ftp c cs ms n. run.
    now destruct (remote _ cs (Ftp (handle ftp) (Voidcmd "NOOP"))). }
  destruct H as (added & d & -> & Hd).
  exists added, (Strings d). split; [reflexivity|]. split; [reflexivity|].
  intros e He. cbn [encodes_failure]. unfold mentions. cbn [payload_texts].
  destruct added as [|c1 added]; [discriminate|]. eapply Hd; eauto.
Qed.

(** Every tool but [ftp_list_directory] hands back a payload that encodes
    the failure of its last request. *)
Lemma invoke_encodes remote now strp b64decode b64encode encode decode lib i :
  is_list_directory i = false ->
  failure_encoded (encodes_failure i)
    (invoke remote now strp b64decode b64encode encode decode lib i).
Proof.
  intros Hi.
  destruct i; try discriminate Hi;
    try (apply simple_tools_encode; exact I); simpl invoke.
  - apply ftp_disconnect_encodes.
  - apply ftp_list_connections_encodes.
  - apply ftp_switch_connection_encodes.
  - apply ftp_explore_directory_encodes.
  - apply ftp_download_content_encodes.
  - apply ftp_get_file_size_encodes.
  - apply ftp_get_system_info_encodes.
  - apply ftp_get_modification_time_encodes.
  - apply ftp_create_directory_tree_encodes.
  - apply ftp_transfer_progress_encodes.
Qed.



